(** * Qdrant MCP tool layer: a shallow embedding and its properties

    The development follows [qdrant-mcp-server/tools/]: the four tool
    modules ([collections.py], [points.py], [search.py], [admin.py]) are
    embedded as programs over the requests they issue to the Qdrant client.
    A program is a finite tree: it returns, raises, or issues one request
    and continues with the answer (a value or a raised exception).  The
    backend is not part of the repository; theorems quantify over every
    backend (a handler of requests over an arbitrary state), and a small
    in-memory store is used for concrete runs. *)

From Stdlib Require Import ZArith Ascii String List Lia.
From stdpp Require Import base strings list option pretty.
From Equations Require Import Equations.

Set Warnings "-register-all".
Open Scope string_scope.
Open Scope Z_scope.

(** ** Python values *)

(** Floats only travel through this layer (vectors, scores, thresholds,
    clock readings); they are carried as their binary64 bit pattern. *)
Record float64 := F64 { f64_bits : Z }.

(** Loosely typed tool arguments ([Dict[str, Any]], [Any]) and response
    payloads. A dict is an association list in insertion order. *)
Inductive pyval : Type :=
| PNone
| PBool (b : bool)
| PInt (n : Z)
| PFloat (f : float64)
| PStr (s : string)
| PList (xs : list pyval)
| PDict (kvs : list (string * pyval)).

Abbreviation dict := (list (string * pyval)).

(** [bool(v)]: the truth value Python's [if v:] tests. *)
Definition truthy (v : pyval) : bool :=
  match v with
  | PNone => false
  | PBool b => b
  | PInt n => negb (n =? 0)
  | PFloat f => negb ((f64_bits f =? 0) || (f64_bits f =? 2 ^ 63))
  | PStr s => negb (String.eqb s "")
  | PList xs => match xs with [] => false | _ => true end
  | PDict kvs => match kvs with [] => false | _ => true end
  end.

(** [k in d] *)
Fixpoint dict_in (k : string) (d : dict) : bool :=
  match d with
  | [] => false
  | (k', _) :: d' => if String.eqb k k' then true else dict_in k d'
  end.

(** [d.get(k)] as an option; [d.get(k, default)] is [dict_get_default]. *)
Fixpoint dict_get (k : string) (d : dict) : option pyval :=
  match d with
  | [] => None
  | (k', v) :: d' => if String.eqb k k' then Some v else dict_get k d'
  end.

Definition dict_get_default (k : string) (default : pyval) (d : dict) : pyval :=
  match dict_get k d with Some v => v | None => default end.

(** [d[k] = v]: overwrite in place when the key is present, else append. *)
Fixpoint dict_set (k : string) (v : pyval) (d : dict) : dict :=
  match d with
  | [] => [(k, v)]
  | (k', v') :: d' =>
      if String.eqb k k' then (k', v) :: d' else (k', v') :: dict_set k v d'
  end.

Definition PLen {A} (l : list A) : pyval := PInt (Z.of_nat (length l)).

Definition POpt {A} (f : A -> pyval) (o : option A) : pyval :=
  match o with Some a => f a | None => PNone end.

(** [str.lower()] on the ASCII letters; the keys it is compared with are
    ASCII. *)
Definition ascii_lower (c : ascii) : ascii :=
  let n := nat_of_ascii c in
  if ((65 <=? n) && (n <=? 90))%nat then ascii_of_nat (n + 32) else c.

Fixpoint str_lower (s : string) : string :=
  match s with
  | EmptyString => EmptyString
  | String c s' => String (ascii_lower c) (str_lower s')
  end.

(** ** Exceptions

    Every constructor is a subclass of Python's [Exception]; each carries
    the text [str(e)] renders. *)
Inductive exn : Type :=
| UnexpectedResponse (status_code : Z) (text : string)
| ValueError (text : string)
| TypeError (text : string)
| AttributeError (text : string)
| ValidationError (text : string)
| OtherException (cls : string) (text : string).

Definition exn_str (e : exn) : string :=
  match e with
  | UnexpectedResponse _ t | ValueError t | TypeError t
  | AttributeError t | ValidationError t | OtherException _ t => t
  end.

(** Pure code that may raise. *)
Inductive result (A : Type) : Type :=
| Ok (a : A)
| Err (e : exn).
Arguments Ok {A} a.
Arguments Err {A} e.

Definition rbind {A B} (r : result A) (f : A -> result B) : result B :=
  match r with Ok a => f a | Err e => Err e end.

(** [[f(x) for x in xs]] where [f] may raise: stops at the first raise. *)
Fixpoint rmap {A B} (f : A -> result B) (xs : list A) : result (list B) :=
  match xs with
  | [] => Ok []
  | x :: xs' => rbind (f x) (fun y => rbind (rmap f xs') (fun ys => Ok (y :: ys)))
  end.

(** ** Strings that do not encode

    A Python [str] is a sequence of code points and may hold a lone
    surrogate (U+D800..U+DFFF): [os.fsdecode] produces them for file names
    that are not UTF-8, and [json.loads] for an escaped half of a pair.
    No UTF-8 text has one.  A [string] of this development is a [str] that
    encodes, held as its UTF-8 bytes; [pystr] is the unrestricted one. *)
Definition pystr := list Z.

Definition is_surrogate (c : Z) : bool := (55296 <=? c) && (c <=? 57343).

Definition byte_of (n : Z) : ascii := ascii_of_N (Z.to_N (n mod 256)).

(** The UTF-8 bytes of one code point that is not a surrogate. *)
Definition utf8_bytes (c : Z) : string :=
  if c <? 128 then String (byte_of c) ""
  else if c <? 2048 then
    String (byte_of (192 + c / 64)) (String (byte_of (128 + c mod 64)) "")
  else if c <? 65536 then
    String (byte_of (224 + c / 4096))
      (String (byte_of (128 + (c / 64) mod 64))
         (String (byte_of (128 + c mod 64)) ""))
  else
    String (byte_of (240 + c / 262144))
      (String (byte_of (128 + (c / 4096) mod 64))
         (String (byte_of (128 + (c / 64) mod 64))
            (String (byte_of (128 + c mod 64)) ""))).

(** [s.encode("utf-8")], which is also [bytes(s, "utf-8")]: the strict
    codec raises [UnicodeEncodeError], a subclass of [ValueError], at the
    first surrogate. *)
Fixpoint encode_utf8 (s : pystr) : result string :=
  match s with
  | [] => Ok ""
  | c :: s' =>
      if is_surrogate c
      then Err (ValueError "'utf-8' codec can't encode character: surrogates not allowed")
      else rbind (encode_utf8 s') (fun rest => Ok (utf8_bytes c +:+ rest))
  end.

(** ** Comparing without regard to case

    Two characters are the same letter when they are equal or one is an
    ASCII capital and the other is its small letter, 32 places on. *)
Definition same_letter (a b : ascii) : bool :=
  let x := nat_of_ascii a in
  let y := nat_of_ascii b in
  ((x =? y) || ((65 <=? x) && (x <=? 90) && (y =? x + 32))
            || ((65 <=? y) && (y <=? 90) && (x =? y + 32)))%nat.

Fixpoint equal_ignoring_case (s t : string) : bool :=
  match s, t with
  | EmptyString, EmptyString => true
  | String a s', String b t' => same_letter a b && equal_ignoring_case s' t'
  | _, _ => false
  end.

(** A word without ASCII capitals, as the keys of a lookup table are. *)
Fixpoint no_capitals (k : string) : bool :=
  match k with
  | EmptyString => true
  | String b k' =>
      negb ((65 <=? nat_of_ascii b) && (nat_of_ascii b <=? 90))%nat && no_capitals k'
  end.

(** ** Response envelopes ([ToolResponse], [ToolError]) *)

Inductive envelope : Type :=
| MkToolResponse (status : string) (data : pyval)
| MkToolError (status : string) (error : string).

(** The two pydantic models are only ever built with their default
    [status]. *)
Definition ToolResponse (data : dict) : envelope := MkToolResponse "success" (PDict data).
Definition ToolError (error : string) : envelope := MkToolError "error" error.

Definition is_success_envelope (e : envelope) : Prop :=
  exists d, e = MkToolResponse "success" (PDict d).
Definition is_error_envelope (e : envelope) : Prop :=
  exists m, e = MkToolError "error" m.

(** ** Configuration ([config.py]) *)

Record QdrantConfig := {
  url : string;
  grpc_url : string;
  api_key : option string;
  timeout : Z;
  prefer_grpc : bool }.

Record AppConfig := {
  qdrant : QdrantConfig;
  default_collection : string;
  debug : bool }.

(** The handle [AsyncQdrantClient(url=..., api_key=..., timeout=...,
    prefer_grpc=...)] keeps its construction parameters. *)
Record AsyncQdrantClient := {
  client_url : string;
  client_api_key : option string;
  client_timeout : Z;
  client_prefer_grpc : bool }.

(** Each tool module holds its own [_client] global. *)
Inductive tool_module := Collections | Points | Search | Admin.

#[global] Instance tool_module_eq_dec : EqDecision tool_module.
Proof. solve_decision. Defined.

(** ** The Qdrant client interface

    Request and response shapes of [qdrant_client], as this layer builds
    and reads them. *)

(** [qmodels.Distance] *)
Inductive Distance := COSINE | EUCLID | DOT | MANHATTAN.

Definition Distance_value (d : Distance) : string :=
  match d with
  | COSINE => "Cosine" | EUCLID => "Euclid" | DOT => "Dot" | MANHATTAN => "Manhattan"
  end.

Record VectorParams := {
  vp_size : Z;
  vp_distance : Distance;
  vp_on_disk : bool }.

(** [SparseVectorParams(index=SparseIndexParams(on_disk=...))] *)
Record SparseVectorParams := { sp_index_on_disk : bool }.

Record HnswConfigDiff := {
  hd_m : option Z;
  hd_ef_construct : option Z }.

Record OptimizersConfigDiff := {
  od_indexing_threshold : option Z;
  od_flush_interval_sec : option Z }.

(** A validated [qmodels.Filter]. *)
Record Filter := { filter_clauses : dict }.

(** Backend point identifiers: unsigned integers or UUID strings. *)
Inductive PointId := IdNum (n : Z) | IdStr (s : string).

(** [str(point.id)] *)
Definition PointId_str (i : PointId) : string :=
  match i with IdNum n => pretty n | IdStr s => s end.

(** [bool(next_offset)]: the integer 0 and the empty string are falsy. *)
Definition PointId_truthy (i : PointId) : bool :=
  match i with IdNum n => negb (n =? 0) | IdStr s => negb (String.eqb s "") end.


Record PointStruct := {
  ps_id : string;
  ps_vector : pyval;
  ps_payload : dict }.

Inductive PointsSelector :=
| PointIdsList (points : list string)
| FilterSelector (filter : Filter).

Record NamedVector := {
  nv_name : string;
  nv_vector : pyval }.

Record SearchRequest := {
  sr_vector : NamedVector;
  sr_limit : pyval;
  sr_score_threshold : pyval;
  sr_filter : option Filter;
  sr_with_payload : bool;
  sr_with_vector : bool }.

(** Responses. Enumerations coming back from the backend are read
    through [.value], so they are kept as that string. *)
Record CollectionDescription := { cd_name : string }.
Record CollectionsResponse := { collections : list CollectionDescription }.

Record VectorParamsInfo := {
  vi_size : Z;
  vi_distance : option string;
  vi_on_disk : option bool }.

Inductive VectorsConfig :=
| VectorsNamed (vs : list (string * VectorParamsInfo))
| VectorsSingle (v : VectorParamsInfo)
| VectorsAbsent.

Record HnswConfig := {
  hc_m : Z;
  hc_ef_construct : Z;
  hc_full_scan_threshold : Z }.

(** [CollectionInfo.optimizer_status] in [qdrant_client]: the enum member
    [OptimizersStatusOneOf.OK] or an [OptimizersStatusOneOf1] object that
    holds the optimizer's error text.  Neither has an attribute [status]. *)
Inductive OptimizersStatus :=
| OptimizersOk
| OptimizersError (error : string).

(** The class name Python prints in an [AttributeError]. *)
Definition OptimizersStatus_class (st : OptimizersStatus) : string :=
  match st with
  | OptimizersOk => "OptimizersStatusOneOf"
  | OptimizersError _ => "OptimizersStatusOneOf1"
  end.

Record PayloadIndexInfo := { pi_data_type : option string }.

Record CollectionInfo := {
  ci_status : option string;
  ci_points_count : option Z;
  ci_vectors_count : option Z;
  ci_indexed_vectors_count : option Z;
  ci_segments_count : option Z;
  ci_vectors : VectorsConfig;
  ci_hnsw_config : option HnswConfig;
  ci_optimizer_status : option OptimizersStatus;
  ci_payload_schema : option (list (string * PayloadIndexInfo)) }.

Record CountResult := { count : Z }.

(** A stored point as [retrieve] and [scroll] return it. *)
Inductive VectorOut := VecList (xs : list pyval) | VecDict (d : dict).

Record Record_ := {
  rec_id : PointId;
  rec_payload : option dict;
  rec_vector : option VectorOut }.

Record ScoredPoint := {
  sp_id : PointId;
  sp_score : float64;
  sp_payload : option dict;
  sp_vector : option VectorOut }.

(** [creation_time] is a datetime in some client versions and a plain
    string in others; only a datetime has [isoformat]. *)
Inductive TimeValue := DateTime (iso : string) | TimeText (s : string).

Record SnapshotDescription := {
  snap_name : string;
  snap_size : option Z;                     (* [None]: no such attribute *)
  snap_creation_time : option (option TimeValue) }.

Record HttpResponse := {
  http_status_code : Z;
  http_json : result pyval }.

(** Everything a tool awaits: the client methods, and for the admin
    tools the raw HTTP probe, the clock and [asyncio.sleep]. *)
Inductive request : Type :=
| client_get_collections
| client_get_collection (collection_name : string)
| client_create_collection (collection_name : string)
    (vectors_config : list (string * VectorParams))
    (sparse_vectors_config : option (list (string * SparseVectorParams)))
    (hnsw_config : HnswConfigDiff)
| client_delete_collection (collection_name : string)
| client_update_collection (collection_name : string)
    (hnsw_config : option HnswConfigDiff)
    (optimizers_config : option OptimizersConfigDiff)
    (optimizer_config : option OptimizersConfigDiff)
| client_count (collection_name : string) (count_filter : option Filter) (exact : bool)
| client_retrieve (collection_name : string) (ids : list string)
    (with_payload with_vectors : bool)
| client_scroll (collection_name : string) (limit : Z) (offset : option string)
    (scroll_filter : option Filter) (with_payload with_vectors : bool)
| client_upsert (collection_name : string) (points : list PointStruct) (wait : bool)
| client_delete (collection_name : string) (points_selector : option PointsSelector)
    (wait : bool)
| client_search (collection_name : string) (query_vector : NamedVector) (limit : Z)
    (score_threshold : option float64) (query_filter : option Filter)
    (with_payload with_vectors : bool)
| client_search_batch (collection_name : string) (requests : list SearchRequest)
| client_recommend (collection_name : string) (positive negative : list string)
    (limit : Z) (score_threshold : option float64) (query_filter : option Filter)
    (using_ : string) (with_payload with_vectors : bool)
| client_create_snapshot (collection_name : string) (wait : bool)
| client_list_snapshots (collection_name : string)
| http_get (target : string) (timeout_s : Z)
| asyncio_sleep (seconds : Z)
| time_time
| datetime_utcnow_isoformat.

Definition response (r : request) : Type :=
  match r with
  | client_get_collections => CollectionsResponse
  | client_get_collection _ => CollectionInfo
  | client_create_collection _ _ _ _ => bool
  | client_delete_collection _ => bool
  | client_update_collection _ _ _ _ => bool
  | client_count _ _ _ => CountResult
  | client_retrieve _ _ _ _ => list Record_
  | client_scroll _ _ _ _ _ _ => (list Record_ * option PointId)%type
  | client_upsert _ _ _ => unit
  | client_delete _ _ _ => unit
  | client_search _ _ _ _ _ _ _ => list ScoredPoint
  | client_search_batch _ _ => list (list ScoredPoint)
  | client_recommend _ _ _ _ _ _ _ _ _ => list ScoredPoint
  | client_create_snapshot _ _ => option SnapshotDescription
  | client_list_snapshots _ => list SnapshotDescription
  | http_get _ _ => HttpResponse
  | asyncio_sleep _ => unit
  | time_time => float64
  | datetime_utcnow_isoformat => string
  end.

(** The requests that suspend the tool for a while. *)
Definition is_sleep (r : request) : bool :=
  match r with asyncio_sleep _ => true | _ => false end.

(** ** Programs *)

Inductive prog (A : Type) : Type :=
| Ret (a : A)
| Raise (e : exn)
| GetClient (m : tool_module) (k : prog A)
| Call (r : request) (k : result (response r) -> prog A).
Arguments Ret {A} a.
Arguments Raise {A} e.
Arguments GetClient {A} m k.
Arguments Call {A} r k.

Fixpoint bind {A B} (p : prog A) (f : A -> prog B) : prog B :=
  match p with
  | Ret a => f a
  | Raise e => Raise e
  | GetClient m k => GetClient m (bind k f)
  | Call r k => Call r (fun x => bind (k x) f)
  end.

(** [await client.method(...)]: a raised exception propagates. *)
Definition await (r : request) : prog (response r) :=
  Call r (fun x => match x with Ok v => Ret v | Err e => Raise e end).

(** [await get_client()] *)
Definition get_client (m : tool_module) : prog unit := GetClient m (Ret tt).

Definition lift {A} (r : result A) : prog A :=
  match r with Ok a => Ret a | Err e => Raise e end.

(** [try: p  except Exception as e: h e]. Every [exn] is an
    [Exception], so the handler sees each raise of [p]. *)
Fixpoint try_except {A} (p : prog A) (h : exn -> prog A) : prog A :=
  match p with
  | Ret a => Ret a
  | Raise e => h e
  | GetClient m k => GetClient m (try_except k h)
  | Call r k => Call r (fun x => try_except (k x) h)
  end.

Declare Scope prog_scope.
Delimit Scope prog_scope with prog.
Notation "x <- p ;; q" := (bind p (fun x => q))
  (at level 100, p at next level, right associativity) : prog_scope.
Notation "p ;; q" := (bind p (fun _ => q))
  (at level 100, right associativity) : prog_scope.
Open Scope prog_scope.

(** ** Running a program against a backend *)

Definition handler (B : Type) : Type :=
  forall r : request, B -> result (response r) * B.

Record world (B : Type) := World {
  w_client : tool_module -> option AsyncQdrantClient;
  w_backend : B }.
Arguments World {B} _ _.
Arguments w_client {B} _ _.
Arguments w_backend {B} _.

Section Run.
Context (config : AppConfig) {B : Type} (h : handler B).

(** [get_client]: build the handle on first use, then reuse it. *)
Definition ensure_client (m : tool_module) (w : world B) : world B :=
  match w_client w m with
  | Some _ => w
  | None =>
      let c := {| client_url := url (qdrant config);
                  client_api_key := api_key (qdrant config);
                  client_timeout := timeout (qdrant config);
                  client_prefer_grpc := prefer_grpc (qdrant config) |} in
      World (fun m' => if decide (m' = m) then Some c else w_client w m')
            (w_backend w)
  end.

(** The outcome, the final world and the requests issued, in order. *)
Fixpoint run {A} (p : prog A) (w : world B) : result A * world B * list request :=
  match p with
  | Ret a => (Ok a, w, [])
  | Raise e => (Err e, w, [])
  | GetClient m k => run k (ensure_client m w)
  | Call r k =>
      let '(x, b') := h r (w_backend w) in
      let '(res, w', tr) := run (k x) (World (w_client w) b') in
      (res, w', r :: tr)
  end.
End Run.

(** What a backend answers to one detail lookup per name, asked in the
    order given, and the state the lookups leave it in. *)
Fixpoint lookup_answers {B} (h : handler B) (names : list string) (b : B)
  : list (result CollectionInfo) * B :=
  match names with
  | [] => ([], b)
  | name :: rest =>
      let '(answer, b1) := h (client_get_collection name) b in
      let '(answers, b2) := lookup_answers h rest b1 in
      (answer :: answers, b2)
  end.

(** Every value a program can return satisfies [P]. *)
Fixpoint all_ret {A} (P : A -> Prop) (p : prog A) : Prop :=
  match p with
  | Ret a => P a
  | Raise _ => True
  | GetClient _ k => all_ret P k
  | Call _ k => forall x, all_ret P (k x)
  end.

(** The program never raises, and what it returns satisfies [P]. *)
Fixpoint total_with {A} (P : A -> Prop) (p : prog A) : Prop :=
  match p with
  | Ret a => P a
  | Raise _ => False
  | GetClient _ k => total_with P k
  | Call _ k => forall x, total_with P (k x)
  end.

(** The result envelope of the invocation boundary: one of the two
    models, carrying its default status. *)
Definition envelope_ok (e : envelope) : Prop :=
  is_success_envelope e \/ is_error_envelope e.

(** What a health reply can be: an error envelope; the "unhealthy"
    report of a failed HTTP probe; or the full report, whose status is
    "healthy" exactly when both probes succeeded and "degraded"
    otherwise. *)
Definition health_reply (env : envelope) : Prop :=
  (exists m, env = ToolError m) \/
  (exists d, env = ToolResponse d /\
     ((dict_get "status" d = Some (PStr "unhealthy") /\
       dict_get "http_ok" d = Some (PBool false))
      \/
      (exists http_ok api_ok : bool,
         dict_get "http_ok" d = Some (PBool http_ok) /\
         dict_get "api_ok" d = Some (PBool api_ok) /\
         dict_get "status" d =
           Some (PStr (if http_ok && api_ok then "healthy" else "degraded"))))).

(** ** Library functions outside the repository

    What the tools call in [uuid], [pydantic]/[qdrant_client.models] and
    the float built-ins. Model constructors validate their arguments:
    a check returns the exception they raise, if any. *)
Class PyLib := {
  (** [uuid.UUID(s)] returns (rather than raising [ValueError]) *)
  UUID_parses : string -> bool;
  (** [str(uuid.uuid5(uuid.NAMESPACE_DNS, name))] for a name that
      encodes, given by its UTF-8 bytes: the hash of those bytes.  The
      encoding step, which can raise, is [encode_utf8]. *)
  uuid5_NAMESPACE_DNS : string -> string;
  (** [str(v)] for floats, lists and dicts *)
  py_str_other : pyval -> string;
  (** [qmodels.Filter], the dict's entries passed as keywords *)
  Filter_check : dict -> option exn;
  (** [qmodels.PointStruct(id=, vector=, payload=)] *)
  PointStruct_check : string -> pyval -> dict -> option exn;
  (** [qmodels.NamedVector(name=, vector=)] *)
  NamedVector_check : string -> pyval -> option exn;
  (** [qmodels.SearchRequest(vector=, limit=, score_threshold=, ...)] *)
  SearchRequest_check : NamedVector -> pyval -> pyval -> option exn;
  (** [round((t1 - t0) * 1000, 2)] *)
  elapsed_ms : float64 -> float64 -> float64 }.

(** The operations exported by [tools/__init__.py], with the arguments
    their signatures declare. *)
Inductive tool_call : Type :=
| call_list_collections
| call_create_collection (name : string) (vector_size : Z) (distance : string)
    (on_disk : bool) (hnsw_m hnsw_ef_construct : Z) (enable_sparse : bool)
| call_delete_collection (name : string) (confirm : bool)
| call_get_collection_info (name : string)
| call_update_collection (name : string) (hnsw_m hnsw_ef_construct : option Z)
    (indexing_threshold flush_interval_sec : option Z)
| call_count_points (collection : string) (exact : bool) (filter : option dict)
| call_get_points (collection : string) (ids : list string)
    (with_payload with_vector : bool)
| call_scroll_points (collection : string) (limit : Z) (offset : option string)
    (filter : option dict) (with_payload with_vector : bool)
| call_upsert_points (collection : string) (points : list dict) (wait : bool)
| call_delete_points (collection : string) (ids : option (list string))
    (filter : option dict) (wait : bool)
| call_search_vectors (collection : string) (vector : list float64) (limit : Z)
    (score_threshold : option float64) (filter : option dict) (vector_name : string)
    (with_payload with_vector : bool)
| call_search_batch (collection : string) (queries : list dict) (vector_name : string)
    (with_payload : bool)
| call_recommend_points (collection : string) (positive : list string)
    (negative : option (list string)) (limit : Z) (score_threshold : option float64)
    (filter : option dict) (vector_name : string) (with_payload : bool)
| call_optimize_collection (collection : string) (wait : bool)
| call_create_snapshot (collection : string) (wait : bool)
| call_list_snapshots (collection : string)
| call_get_cluster_info
| call_health_check.

Section Tools.
Context `{PyLib} (config : AppConfig).

Definition checked {A} (c : option exn) (a : A) : result A :=
  match c with Some e => Err e | None => Ok a end.

Definition Filter_ctor (d : dict) : result Filter :=
  checked (Filter_check d) {| filter_clauses := d |}.

Definition PointStruct_ctor (id : string) (vector : pyval) (payload : dict)
  : result PointStruct :=
  checked (PointStruct_check id vector payload)
          {| ps_id := id; ps_vector := vector; ps_payload := payload |}.

Definition NamedVector_ctor (name : string) (vector : pyval) : result NamedVector :=
  checked (NamedVector_check name vector) {| nv_name := name; nv_vector := vector |}.

(** [str(v)] *)
Definition py_str (v : pyval) : string :=
  match v with
  | PStr s => s
  | PInt n => pretty n
  | PBool true => "True"
  | PBool false => "False"
  | PNone => "None"
  | _ => py_str_other v
  end.

(** [uuid.UUID(s)], kept for its success or failure only. *)
Definition UUID_ctor (s : string) : result unit :=
  if UUID_parses s then Ok tt
  else Err (ValueError "badly formed hexadecimal UUID string").

(** *** [points.py] *)

(** [_to_uuid] on text that encodes, as every [string] does;
    [_to_uuid_str] below is the same function on an unrestricted [str].
    [except ValueError] lets any other exception through. *)
Definition _to_uuid (id_str : pyval) : result string :=
  match UUID_ctor (py_str id_str) with
  | Ok _ => Ok (py_str id_str)
  | Err (ValueError _) => Ok (uuid5_NAMESPACE_DNS (py_str id_str))
  | Err e => Err e
  end.

(** [uuid.UUID(s)] on an unrestricted [str]: hex digits, hyphens, braces
    and the [urn:uuid:] prefix are all it accepts, so a [str] holding a
    surrogate is badly formed like any other text that is not a UUID.
    On success the text is handed back. *)
Definition UUID_ctor_str (s : pystr) : result string :=
  match encode_utf8 s with
  | Ok text => rbind (UUID_ctor text) (fun _ => Ok text)
  | Err _ => Err (ValueError "badly formed hexadecimal UUID string")
  end.

(** [str(uuid.uuid5(uuid.NAMESPACE_DNS, name))]: [uuid5] starts with
    [bytes(name, "utf-8")] and hashes the bytes it got;
    [uuid5_NAMESPACE_DNS] is that hash of the bytes. *)
Definition uuid5_str (name : pystr) : result string :=
  rbind (encode_utf8 name) (fun text => Ok (uuid5_NAMESPACE_DNS text)).

(** [_to_uuid] on an unrestricted [str].  The hash is computed inside the
    [except ValueError] handler, where nothing catches what it raises. *)
Definition _to_uuid_str (id_str : pystr) : result string :=
  match UUID_ctor_str id_str with
  | Ok text => Ok text
  | Err (ValueError _) => uuid5_str id_str
  | Err e => Err e
  end.

(** The two [except] clauses that close most tools:
    [UnexpectedResponse] with status 404 reports the collection as
    missing, everything else is reported with the tool's own prefix. *)
Definition on_error (collection failed : string) (e : exn) : prog envelope :=
  match e with
  | UnexpectedResponse status_code _ =>
      if status_code =? 404
      then Ret (ToolError ("Collection '" +:+ collection +:+ "' not found"))
      else Ret (ToolError (failed +:+ ": " +:+ exn_str e))
  | _ => Ret (ToolError (failed +:+ ": " +:+ exn_str e))
  end.

(** A single [except Exception] clause. *)
Definition on_exception (failed : string) (e : exn) : prog envelope :=
  Ret (ToolError (failed +:+ ": " +:+ exn_str e)).

Definition opt_list_truthy {A} (ids : option (list A)) : bool :=
  match ids with Some (_ :: _) => true | _ => false end.

(** The filter-building block shared by the tools:
    [qdrant_filter = None; if filter: try: qdrant_filter = Filter(...)
    except Exception as e: return ToolError(...)]. *)
Definition with_filter (filter : option dict)
           (k : option Filter -> prog envelope) : prog envelope :=
  match filter with
  | Some ((_ :: _) as d) =>
      match Filter_ctor d with
      | Ok f => k (Some f)
      | Err e => Ret (ToolError ("Invalid filter format: " +:+ exn_str e))
      end
  | _ => k None
  end.

Definition VectorOut_value (v : VectorOut) : pyval :=
  match v with VecList xs => PList xs | VecDict d => PDict d end.

Definition VectorOut_truthy (v : VectorOut) : bool :=
  match v with VecList [] | VecDict [] => false | _ => true end.

(** The per-point dict built by [get_points] and [scroll_points]. *)
Definition point_data (with_payload with_vector : bool) (point : Record_) : dict :=
  let point_data := [("id", PStr (PointId_str (rec_id point)))] in
  let point_data :=
    match rec_payload point with
    | Some ((_ :: _) as payload) =>
        if with_payload then dict_set "payload" (PDict payload) point_data
        else point_data
    | _ => point_data
    end in
  match rec_vector point with
  | Some v =>
      if with_vector && VectorOut_truthy v
      then dict_set "vector" (VectorOut_value v) point_data
      else point_data
  | None => point_data
  end.

(** Tool 1: Count Points *)
Definition count_points (collection : string) (exact : bool) (filter : option dict)
  : prog envelope :=
  try_except
    (get_client Points ;;
     with_filter filter (fun qdrant_filter =>
       result <- await (client_count collection qdrant_filter exact) ;;
       Ret (ToolResponse [("collection", PStr collection);
                          ("count", PInt (count result));
                          ("exact", PBool exact)])))
    (on_error collection "Failed to count points").

(** Tool 2: Get Points by ID *)
Definition get_points (collection : string) (ids : list string)
           (with_payload with_vector : bool) : prog envelope :=
  try_except
    (get_client Points ;;
     uuid_ids <- lift (rmap (fun pid => _to_uuid (PStr pid)) ids) ;;
     result <- await (client_retrieve collection uuid_ids with_payload with_vector) ;;
     let points := map (point_data with_payload with_vector) result in
     Ret (ToolResponse [("collection", PStr collection);
                        ("points", PList (map PDict points));
                        ("found_count", PLen points);
                        ("requested_count", PLen ids)]))
    (on_error collection "Failed to get points").

(** Tool 3: Scroll Points *)
Definition scroll_points (collection : string) (limit : Z) (offset : option string)
           (filter : option dict) (with_payload with_vector : bool) : prog envelope :=
  try_except
    (get_client Points ;;
     with_filter filter (fun qdrant_filter =>
       r <- await (client_scroll collection limit offset qdrant_filter
                                 with_payload with_vector) ;;
       let result := fst r in
       let next_offset := snd r in
       let points := map (point_data with_payload with_vector) result in
       Ret (ToolResponse
              [("collection", PStr collection);
               ("points", PList (map PDict points));
               ("count", PLen points);
               ("next_offset",
                 match next_offset with
                 | Some o => if PointId_truthy o then PStr (PointId_str o) else PNone
                 | None => PNone
                 end);
               ("has_more",
                 PBool (match next_offset with Some _ => true | None => false end))])))
    (on_error collection "Failed to scroll points").

(** [payload["original_id"] = v]: only a dict supports it. *)
Definition payload_setitem (payload : pyval) (k : string) (v : pyval) : result dict :=
  match payload with
  | PDict d => Ok (dict_set k v d)
  | PList _ => Err (TypeError "list indices must be integers or slices, not str")
  | _ => Err (TypeError "object does not support item assignment")
  end.

(** One turn of the conversion loop of [upsert_points]: either the
    early [return ToolError(...)] or the [PointStruct] to append. *)
Definition convert_point (p : dict) : result (envelope + PointStruct) :=
  match dict_get "id" p, dict_get "vector" p with
  | Some id, Some vector =>
      rbind (_to_uuid id) (fun point_id =>
      let vector :=
        match vector with
        | PDict _ => vector
        | PList _ => PDict [("text-dense", vector)]
        | _ => vector
        end in
      let payload := dict_get_default "payload" (PDict []) p in
      rbind (payload_setitem payload "original_id" id) (fun payload =>
      rbind (PointStruct_ctor point_id vector payload) (fun ps =>
      Ok (inr ps))))
  | _, _ => Ok (inl (ToolError "Each point must have 'id' and 'vector' fields"))
  end.

Fixpoint convert_points (points : list dict) (qdrant_points : list PointStruct)
  : result (envelope + list PointStruct) :=
  match points with
  | [] => Ok (inr qdrant_points)
  | p :: rest =>
      rbind (convert_point p) (fun r =>
      match r with
      | inl early => Ok (inl early)
      | inr ps => convert_points rest (qdrant_points ++ [ps])
      end)
  end.

(** Tool 4: Upsert Points *)
Definition upsert_points (collection : string) (points : list dict) (wait : bool)
  : prog envelope :=
  try_except
    (get_client Points ;;
     match points with
     | [] => Ret (ToolError "No points provided")
     | _ =>
         r <- lift (convert_points points []) ;;
         match r with
         | inl early => Ret early
         | inr qdrant_points =>
             await (client_upsert collection qdrant_points wait) ;;
             Ret (ToolResponse [("collection", PStr collection);
                                ("upserted_count", PLen qdrant_points);
                                ("operation", PStr "upsert")])
         end
     end)
    (on_error collection "Failed to upsert points").

(** The tail of [delete_points] once the selector is chosen. *)
Definition delete_with (collection : string) (ids : option (list string))
           (points_selector : option PointsSelector) (wait : bool) : prog envelope :=
  await (client_delete collection points_selector wait) ;;
  Ret (ToolResponse
         [("collection", PStr collection);
          ("operation", PStr "delete");
          ("deleted_by", PStr (if opt_list_truthy ids then "ids" else "filter"));
          ("ids_count",
            match ids with
            | Some ((_ :: _) as l) => PLen l
            | _ => PNone
            end)]).

(** Tool 5: Delete Points *)
Definition delete_points (collection : string) (ids : option (list string))
           (filter : option dict) (wait : bool) : prog envelope :=
  try_except
    (get_client Points ;;
     match ids, filter with
     | None, None => Ret (ToolError "Either 'ids' or 'filter' must be provided")
     | _, _ =>
         match ids with
         | Some ((_ :: _) as l) =>
             uuid_ids <- lift (rmap (fun pid => _to_uuid (PStr pid)) l) ;;
             delete_with collection ids (Some (PointIdsList uuid_ids)) wait
         | _ =>
             match filter with
             | Some ((_ :: _) as d) =>
                 match Filter_ctor d with
                 | Ok qdrant_filter =>
                     delete_with collection ids
                                 (Some (FilterSelector qdrant_filter)) wait
                 | Err e => Ret (ToolError ("Invalid filter format: " +:+ exn_str e))
                 end
             | _ => delete_with collection ids None wait
             end
         end
     end)
    (on_error collection "Failed to delete points").

(** *** [collections.py] *)

(** [info.status.value if info.status else "unknown"] and its likes *)
Definition value_or_unknown (v : option string) : pyval :=
  match v with Some s => PStr s | None => PStr "unknown" end.

(** The body of the listing loop for one collection: a failed detail
    lookup degrades the entry instead of aborting the listing. *)
Definition list_collections_entry (collection : CollectionDescription) : prog dict :=
  try_except
    (info <- await (client_get_collection (cd_name collection)) ;;
     Ret [("name", PStr (cd_name collection));
          ("status", value_or_unknown (ci_status info));
          ("points_count", POpt PInt (ci_points_count info));
          ("vectors_count", POpt PInt (ci_vectors_count info));
          ("indexed_vectors_count", POpt PInt (ci_indexed_vectors_count info));
          ("segments_count", POpt PInt (ci_segments_count info))])
    (fun _ =>
     Ret [("name", PStr (cd_name collection));
          ("status", PStr "unknown");
          ("points_count", PInt 0)]).

Fixpoint list_collections_loop (cs : list CollectionDescription) (acc : list dict)
  : prog (list dict) :=
  match cs with
  | [] => Ret acc
  | collection :: rest =>
      entry <- list_collections_entry collection ;;
      list_collections_loop rest (acc ++ [entry])
  end.

(** Tool 1: List Collections *)
Definition list_collections : prog envelope :=
  try_except
    (get_client Collections ;;
     response <- await client_get_collections ;;
     cs <- list_collections_loop (collections response) [] ;;
     Ret (ToolResponse [("collections", PList (map PDict cs));
                        ("total_count", PLen cs)]))
    (on_exception "Failed to list collections").

(** [name in [c.name for c in collections.collections]] *)
Definition name_in (name : string) (cs : CollectionsResponse) : bool :=
  existsb (String.eqb name) (map cd_name (collections cs)).

Fixpoint lookup_str {A} (k : string) (l : list (string * A)) : option A :=
  match l with
  | [] => None
  | (k', v) :: l' => if String.eqb k k' then Some v else lookup_str k l'
  end.

Definition distance_map : list (string * Distance) :=
  [("cosine", COSINE); ("euclid", EUCLID); ("dot", DOT)].

(** [distance_map.get(distance.lower(), qmodels.Distance.COSINE)] *)
Definition distance_enum (distance : string) : Distance :=
  match lookup_str (str_lower distance) distance_map with
  | Some d => d
  | None => COSINE
  end.

(** Tool 2: Create Collection *)
Definition create_collection (name : string) (vector_size : Z) (distance : string)
           (on_disk : bool) (hnsw_m hnsw_ef_construct : Z) (enable_sparse : bool)
  : prog envelope :=
  try_except
    (get_client Collections ;;
     cs <- await client_get_collections ;;
     if name_in name cs
     then Ret (ToolError ("Collection '" +:+ name +:+ "' already exists"))
     else
       let vectors_config :=
         [("text-dense", {| vp_size := vector_size;
                            vp_distance := distance_enum distance;
                            vp_on_disk := on_disk |})] in
       let sparse_vectors_config :=
         if enable_sparse
         then Some [("text-sparse", {| sp_index_on_disk := on_disk |})]
         else None in
       let hnsw_config :=
         {| hd_m := Some hnsw_m; hd_ef_construct := Some hnsw_ef_construct |} in
       await (client_create_collection name vectors_config sparse_vectors_config
                                       hnsw_config) ;;
       Ret (ToolResponse
              [("message", PStr ("Collection '" +:+ name +:+ "' created successfully"));
               ("config", PDict [("name", PStr name);
                                 ("vector_size", PInt vector_size);
                                 ("distance", PStr distance);
                                 ("on_disk", PBool on_disk);
                                 ("hnsw_m", PInt hnsw_m);
                                 ("hnsw_ef_construct", PInt hnsw_ef_construct);
                                 ("sparse_enabled", PBool enable_sparse)])]))
    (on_exception "Failed to create collection").

(** Tool 3: Delete Collection *)
Definition delete_collection (name : string) (confirm : bool) : prog envelope :=
  try_except
    (if negb confirm
     then Ret (ToolError
                 "Deletion requires confirm=true to prevent accidental data loss")
     else
       get_client Collections ;;
       cs <- await client_get_collections ;;
       if negb (name_in name cs)
       then Ret (ToolError ("Collection '" +:+ name +:+ "' does not exist"))
       else
         info <- await (client_get_collection name) ;;
         let points_count := ci_points_count info in
         await (client_delete_collection name) ;;
         Ret (ToolResponse
                [("message", PStr ("Collection '" +:+ name +:+ "' deleted successfully"));
                 ("deleted_points", POpt PInt points_count)]))
    (on_exception "Failed to delete collection").

Definition VectorParamsInfo_named (v : VectorParamsInfo) : pyval :=
  PDict [("size", PInt (vi_size v));
         ("distance", value_or_unknown (vi_distance v));
         ("on_disk", POpt PBool (vi_on_disk v))].

(** The [vectors_config] dict of [get_collection_info]; reading [.size]
    of an absent configuration raises. *)
Definition vectors_config_of (vs : VectorsConfig) : result dict :=
  match vs with
  | VectorsNamed named =>
      Ok (fold_left (fun acc kv => dict_set (fst kv) (VectorParamsInfo_named (snd kv)) acc)
                    named [])
  | VectorsSingle v =>
      Ok [("default", PDict [("size", PInt (vi_size v));
                             ("distance", value_or_unknown (vi_distance v))])]
  | VectorsAbsent => Err (AttributeError "'NoneType' object has no attribute 'size'")
  end.

(** [info.optimizer_status.status]: the attribute read that both
    [get_collection_info] and the polling loop of [optimize_collection]
    make once [info.optimizer_status] is truthy, as the enum member and
    the error object both are. *)
Definition optimizer_status_status (st : OptimizersStatus) : result string :=
  Err (AttributeError ("'" +:+ OptimizersStatus_class st
                           +:+ "' object has no attribute 'status'")).

(** [info.optimizer_status.status.value if info.optimizer_status and
    info.optimizer_status.status else "unknown"] *)
Definition optimizer_status_of (info : CollectionInfo) : result pyval :=
  match ci_optimizer_status info with
  | Some st =>
      rbind (optimizer_status_status st) (fun status =>
      Ok (PStr (if String.eqb status "" then "unknown" else status)))
  | None => Ok (PStr "unknown")
  end.

(** Tool 4: Get Collection Info *)
Definition get_collection_info (name : string) : prog envelope :=
  try_except
    (get_client Collections ;;
     info <- await (client_get_collection name) ;;
     vectors_config <- lift (vectors_config_of (ci_vectors info)) ;;
     let hnsw_config :=
       match ci_hnsw_config info with
       | Some c => [("m", PInt (hc_m c));
                    ("ef_construct", PInt (hc_ef_construct c));
                    ("full_scan_threshold", PInt (hc_full_scan_threshold c))]
       | None => []
       end in
     optimizer_status <- lift (optimizer_status_of info) ;;
     Ret (ToolResponse
            [("name", PStr name);
             ("status", value_or_unknown (ci_status info));
             ("points_count", POpt PInt (ci_points_count info));
             ("vectors_count", POpt PInt (ci_vectors_count info));
             ("indexed_vectors_count", POpt PInt (ci_indexed_vectors_count info));
             ("segments_count", POpt PInt (ci_segments_count info));
             ("vectors_config", PDict vectors_config);
             ("hnsw_config", PDict hnsw_config);
             ("optimizer_status", optimizer_status);
             ("payload_schema",
               PDict (fold_left
                        (fun acc kv =>
                           dict_set (fst kv) (value_or_unknown (pi_data_type (snd kv))) acc)
                        (match ci_payload_schema info with Some l => l | None => [] end)
                        []))]))
    (on_error name "Failed to get collection info").

(** Tool 5: Update Collection *)
Definition update_collection (name : string) (hnsw_m hnsw_ef_construct : option Z)
           (indexing_threshold flush_interval_sec : option Z) : prog envelope :=
  try_except
    (get_client Collections ;;
     let hnsw_config :=
       match hnsw_m, hnsw_ef_construct with
       | None, None => None
       | _, _ => Some {| hd_m := hnsw_m; hd_ef_construct := hnsw_ef_construct |}
       end in
     let optimizers_config :=
       match indexing_threshold, flush_interval_sec with
       | None, None => None
       | _, _ => Some {| od_indexing_threshold := indexing_threshold;
                         od_flush_interval_sec := flush_interval_sec |}
       end in
     match hnsw_config, optimizers_config with
     | None, None => Ret (ToolError "No update parameters provided")
     | _, _ =>
         await (client_update_collection name hnsw_config optimizers_config None) ;;
         Ret (ToolResponse
                [("message", PStr ("Collection '" +:+ name +:+ "' updated successfully"));
                 ("updates", PDict [("hnsw_m", POpt PInt hnsw_m);
                                    ("hnsw_ef_construct", POpt PInt hnsw_ef_construct);
                                    ("indexing_threshold", POpt PInt indexing_threshold);
                                    ("flush_interval_sec", POpt PInt flush_interval_sec)])])
     end)
    (on_error name "Failed to update collection").

(** *** [search.py] *)

(** The per-hit dict of the three search tools ([recommend_points] and
    [search_batch] never ask for vectors). *)
Definition scored_point_data (with_payload with_vector : bool) (point : ScoredPoint)
  : dict :=
  let result := [("id", PStr (PointId_str (sp_id point)));
                 ("score", PFloat (sp_score point))] in
  let result :=
    match sp_payload point with
    | Some ((_ :: _) as payload) =>
        if with_payload then dict_set "payload" (PDict payload) result else result
    | _ => result
    end in
  match sp_vector point with
  | Some v =>
      if with_vector && VectorOut_truthy v
      then dict_set "vector" (VectorOut_value v) result
      else result
  | None => result
  end.

(** Tool 1: Search Vectors *)
Definition search_vectors (collection : string) (vector : list float64) (limit : Z)
           (score_threshold : option float64) (filter : option dict)
           (vector_name : string) (with_payload with_vector : bool) : prog envelope :=
  try_except
    (get_client Search ;;
     with_filter filter (fun qdrant_filter =>
       query_vector <- lift (NamedVector_ctor vector_name (PList (map PFloat vector))) ;;
       results <- await (client_search collection query_vector limit score_threshold
                                       qdrant_filter with_payload with_vector) ;;
       let search_results := map (scored_point_data with_payload with_vector) results in
       Ret (ToolResponse [("collection", PStr collection);
                          ("results", PList (map PDict search_results));
                          ("count", PLen search_results);
                          ("vector_name", PStr vector_name);
                          ("score_threshold", POpt PFloat score_threshold)])))
    (on_error collection "Failed to search").

(** [Filter(...) if q.get("filter") else None] on an untyped value:
    only a mapping can be spread into keywords. *)
Definition query_filter_of (q : dict) : result (option Filter) :=
  match dict_get "filter" q with
  | None => Ok None
  | Some v =>
      if truthy v then
        match v with
        | PDict d => rbind (Filter_ctor d) (fun f => Ok (Some f))
        | _ => Err (TypeError "argument after ** must be a mapping")
        end
      else Ok None
  end.

(** One turn of the request-building loop of [search_batch]. *)
Definition build_search_request (vector_name : string) (with_payload : bool) (q : dict)
  : result (envelope + SearchRequest) :=
  match dict_get "vector" q with
  | None => Ok (inl (ToolError "Each query must have a 'vector' field"))
  | Some vector =>
      rbind (NamedVector_ctor vector_name vector) (fun nv =>
      let limit := dict_get_default "limit" (PInt 10) q in
      let score_threshold := dict_get_default "score_threshold" PNone q in
      rbind (query_filter_of q) (fun filter =>
      rbind (checked (SearchRequest_check nv limit score_threshold)
               {| sr_vector := nv; sr_limit := limit;
                  sr_score_threshold := score_threshold; sr_filter := filter;
                  sr_with_payload := with_payload; sr_with_vector := false |})
            (fun request => Ok (inr request))))
  end.

Fixpoint build_search_requests (vector_name : string) (with_payload : bool)
         (queries : list dict) (search_requests : list SearchRequest)
  : result (envelope + list SearchRequest) :=
  match queries with
  | [] => Ok (inr search_requests)
  | q :: rest =>
      rbind (build_search_request vector_name with_payload q) (fun r =>
      match r with
      | inl early => Ok (inl early)
      | inr request =>
          build_search_requests vector_name with_payload rest
                                (search_requests ++ [request])
      end)
  end.

(** Tool 2: Batch Search *)
Definition search_batch (collection : string) (queries : list dict)
           (vector_name : string) (with_payload : bool) : prog envelope :=
  try_except
    (get_client Search ;;
     match queries with
     | [] => Ret (ToolError "No queries provided")
     | _ =>
         r <- lift (build_search_requests vector_name with_payload queries []) ;;
         match r with
         | inl early => Ret early
         | inr search_requests =>
             results <- await (client_search_batch collection search_requests) ;;
             let batch_results :=
               map (fun query_results =>
                      PList (map (fun point =>
                                    PDict (scored_point_data with_payload false point))
                                 query_results))
                   results in
             Ret (ToolResponse [("collection", PStr collection);
                                ("batch_results", PList batch_results);
                                ("query_count", PLen queries)])
         end
     end)
    (on_error collection "Failed to batch search").

(** Tool 3: Recommend Points *)
Definition recommend_points (collection : string) (positive : list string)
           (negative : option (list string)) (limit : Z)
           (score_threshold : option float64) (filter : option dict)
           (vector_name : string) (with_payload : bool) : prog envelope :=
  try_except
    (get_client Search ;;
     match positive with
     | [] => Ret (ToolError "At least one positive example is required")
     | _ =>
         with_filter filter (fun qdrant_filter =>
           let negative_or_empty := match negative with Some l => l | None => [] end in
           results <- await (client_recommend collection positive negative_or_empty
                               limit score_threshold qdrant_filter vector_name
                               with_payload false) ;;
           let recommendations := map (scored_point_data with_payload false) results in
           Ret (ToolResponse
                  [("collection", PStr collection);
                   ("recommendations", PList (map PDict recommendations));
                   ("count", PLen recommendations);
                   ("positive_examples", PList (map PStr positive));
                   ("negative_examples", PList (map PStr negative_or_empty))]))
     end)
    (on_error collection "Failed to get recommendations").

(** *** [admin.py] *)

(** [qmodels.OptimizersStatus.OK]: [OptimizersStatus] is the [Union] of
    the two status classes, which has no attribute [OK]. *)
Definition OptimizersStatus_OK : result string :=
  Err (AttributeError "OK").

(** [info_after.optimizer_status and info_after.optimizer_status.status
    == qmodels.OptimizersStatus.OK], the loop's exit test: [and] stops at
    an absent status; otherwise the left operand of [==] is read first. *)
Definition optimizer_ok (info : CollectionInfo) : result bool :=
  match ci_optimizer_status info with
  | Some st =>
      rbind (optimizer_status_status st) (fun status =>
      rbind OptimizersStatus_OK (fun ok =>
      Ok (String.eqb status ok)))
  | None => Ok false
  end.

(** The polling loop of [optimize_collection]:
    [while waited < max_wait: sleep(2); waited += 2; ...; break]
    with its [else] branch taken when the loop runs out. *)
Equations? optimize_poll (collection : string) (max_wait waited : Z) (result : dict)
  : prog dict by wf (Z.to_nat (max_wait - waited)) lt :=
  optimize_poll collection max_wait waited result with Z_lt_dec waited max_wait => {
    | left _ =>
        await (asyncio_sleep 2) ;;
        info_after <- await (client_get_collection collection) ;;
        done <- lift (optimizer_ok info_after) ;;
        if (done : bool)
        then Ret (dict_set "optimization_complete" (PBool true)
                    (dict_set "segments_after" (POpt PInt (ci_segments_count info_after))
                       result))
        else optimize_poll collection max_wait (waited + 2) result
    | right _ =>
        Ret (dict_set "message" (PStr "Optimization still in progress")
               (dict_set "optimization_complete" (PBool false) result)) }.
Proof. lia. Qed.

(** Tool 1: Optimize Collection *)
Definition optimize_collection (collection : string) (wait : bool) : prog envelope :=
  try_except
    (get_client Admin ;;
     info_before <- await (client_get_collection collection) ;;
     let segments_before := ci_segments_count info_before in
     await (client_update_collection collection None None
              (Some {| od_indexing_threshold := Some 0;
                       od_flush_interval_sec := None |})) ;;
     let result := [("collection", PStr collection);
                    ("operation", PStr "optimize");
                    ("segments_before", POpt PInt segments_before);
                    ("optimization_triggered", PBool true)] in
     result <- (if wait then optimize_poll collection 60 0 result else Ret result) ;;
     Ret (ToolResponse result))
    (on_error collection "Failed to optimize collection").

(** Tool 2: Create Snapshot *)
Definition create_snapshot (collection : string) (wait : bool) : prog envelope :=
  try_except
    (get_client Admin ;;
     info <- await (client_get_collection collection) ;;
     snapshot <- await (client_create_snapshot collection wait) ;;
     created_at <- await datetime_utcnow_isoformat ;;
     Ret (ToolResponse
            [("collection", PStr collection);
             ("snapshot_name",
               PStr (match snapshot with Some sn => snap_name sn | None => "pending" end));
             ("points_count", POpt PInt (ci_points_count info));
             ("created_at", PStr created_at);
             ("status",
               PStr (match snapshot with
                     | Some _ => if wait then "completed" else "in_progress"
                     | None => "in_progress"
                     end))]))
    (on_error collection "Failed to create snapshot").

(** [snap.creation_time.isoformat() if hasattr(snap, 'creation_time') and
    snap.creation_time else None] *)
Definition creation_time_of (snap : SnapshotDescription) : result pyval :=
  match snap_creation_time snap with
  | Some (Some (DateTime iso)) => Ok (PStr iso)
  | Some (Some (TimeText s)) =>
      if String.eqb s "" then Ok PNone
      else Err (AttributeError "'str' object has no attribute 'isoformat'")
  | _ => Ok PNone
  end.

(** Tool 3: List Snapshots *)
Definition list_snapshots (collection : string) : prog envelope :=
  try_except
    (get_client Admin ;;
     snapshots <- await (client_list_snapshots collection) ;;
     snapshot_list <- lift (rmap (fun snap =>
                                    rbind (creation_time_of snap) (fun t =>
                                    Ok (PDict [("name", PStr (snap_name snap));
                                               ("size_bytes", POpt PInt (snap_size snap));
                                               ("creation_time", t)])))
                                 snapshots) ;;
     Ret (ToolResponse [("collection", PStr collection);
                        ("snapshots", PList snapshot_list);
                        ("count", PLen snapshot_list)]))
    (on_error collection "Failed to list snapshots").

(** [root_info.get(k, default)]: [root_info] is whatever the JSON body
    decoded to. *)
Definition root_info_get (root_info : pyval) (k : string) (default : pyval)
  : result pyval :=
  match root_info with
  | PDict d => Ok (dict_get_default k default d)
  | _ => Err (AttributeError "object has no attribute 'get'")
  end.

(** The per-collection accumulation of [get_cluster_info]. *)
Fixpoint cluster_loop (cs : list CollectionDescription)
         (total_points total_vectors : Z) (collection_summaries : list dict)
  : prog (Z * Z * list dict) :=
  match cs with
  | [] => Ret (total_points, total_vectors, collection_summaries)
  | coll :: rest =>
      step <- try_except
                (info <- await (client_get_collection (cd_name coll)) ;;
                 Ret (total_points + default 0 (ci_points_count info),
                      total_vectors + default 0 (ci_vectors_count info),
                      [("name", PStr (cd_name coll));
                       ("points", POpt PInt (ci_points_count info));
                       ("status", value_or_unknown (ci_status info))]))
                (fun _ =>
                 Ret (total_points, total_vectors,
                      [("name", PStr (cd_name coll));
                       ("points", PInt 0);
                       ("status", PStr "error")])) ;;
      cluster_loop rest (fst (fst step)) (snd (fst step))
                   (collection_summaries ++ [snd step])
  end.

(** Tool 4: Get Cluster Info *)
Definition get_cluster_info : prog envelope :=
  try_except
    (get_client Admin ;;
     let cfg := config in
     root_info <- try_except
                    (response <- await (http_get (url (qdrant cfg) +:+ "/") 10) ;;
                     if http_status_code response =? 200
                     then lift (http_json response)
                     else Ret (PDict []))
                    (fun _ => Ret (PDict [])) ;;
     cs <- await client_get_collections ;;
     totals <- cluster_loop (collections cs) 0 0 [] ;;
     version <- lift (root_info_get root_info "version" (PStr "unknown")) ;;
     title <- lift (root_info_get root_info "title" (PStr "Qdrant")) ;;
     Ret (ToolResponse
            [("url", PStr (url (qdrant cfg)));
             ("version", version);
             ("title", title);
             ("collections_count", PLen (collections cs));
             ("total_points", PInt (fst (fst totals)));
             ("total_vectors", PInt (snd (fst totals)));
             ("collections", PList (map PDict (snd totals)))]))
    (on_exception "Failed to get cluster info").

(** The second half of [health_check], once the HTTP probe answered. *)
Definition health_check_api (cfg : AppConfig) (http_ok : bool) (http_latency : float64)
  : prog envelope :=
  get_client Admin ;;
  api_start <- await time_time ;;
  api <- try_except
           (await client_get_collections ;;
            now <- await time_time ;;
            Ret (true, elapsed_ms api_start now))
           (fun _ =>
            now <- await time_time ;;
            Ret (false, elapsed_ms api_start now)) ;;
  timestamp <- await datetime_utcnow_isoformat ;;
  Ret (ToolResponse
         [("status", PStr (if http_ok && fst api then "healthy" else "degraded"));
          ("url", PStr (url (qdrant cfg)));
          ("http_ok", PBool http_ok);
          ("http_latency_ms", PFloat http_latency);
          ("api_ok", PBool (fst api));
          ("api_latency_ms", PFloat (snd api));
          ("timestamp", PStr timestamp)]).

(** Tool 5: Health Check. An unreachable endpoint is reported inside a
    success envelope whose data says "unhealthy". *)
Definition health_check : prog envelope :=
  try_except
    (let cfg := config in
     start_time <- await time_time ;;
     probe <- try_except
                (response <- await (http_get (url (qdrant cfg) +:+ "/") 5) ;;
                 now <- await time_time ;;
                 Ret (inr (http_status_code response =? 200,
                           elapsed_ms start_time now)))
                (fun e =>
                 Ret (inl (ToolResponse [("status", PStr "unhealthy");
                                         ("http_ok", PBool false);
                                         ("error", PStr (exn_str e));
                                         ("url", PStr (url (qdrant cfg)))]))) ;;
     match probe with
     | inl early => Ret early
     | inr (http_ok, http_latency) => health_check_api cfg http_ok http_latency
     end)
    (on_exception "Health check failed").

(** *** The tool layer as a whole *)
Definition invoke (t : tool_call) : prog envelope :=
  match t with
  | call_list_collections => list_collections
  | call_create_collection name vector_size distance on_disk hnsw_m hnsw_ef_construct
                           enable_sparse =>
      create_collection name vector_size distance on_disk hnsw_m hnsw_ef_construct
                        enable_sparse
  | call_delete_collection name confirm => delete_collection name confirm
  | call_get_collection_info name => get_collection_info name
  | call_update_collection name hnsw_m hnsw_ef_construct indexing_threshold
                           flush_interval_sec =>
      update_collection name hnsw_m hnsw_ef_construct indexing_threshold
                        flush_interval_sec
  | call_count_points collection exact filter => count_points collection exact filter
  | call_get_points collection ids with_payload with_vector =>
      get_points collection ids with_payload with_vector
  | call_scroll_points collection limit offset filter with_payload with_vector =>
      scroll_points collection limit offset filter with_payload with_vector
  | call_upsert_points collection points wait => upsert_points collection points wait
  | call_delete_points collection ids filter wait =>
      delete_points collection ids filter wait
  | call_search_vectors collection vector limit score_threshold filter vector_name
                        with_payload with_vector =>
      search_vectors collection vector limit score_threshold filter vector_name
                     with_payload with_vector
  | call_search_batch collection queries vector_name with_payload =>
      search_batch collection queries vector_name with_payload
  | call_recommend_points collection positive negative limit score_threshold filter
                          vector_name with_payload =>
      recommend_points collection positive negative limit score_threshold filter
                       vector_name with_payload
  | call_optimize_collection collection wait => optimize_collection collection wait
  | call_create_snapshot collection wait => create_snapshot collection wait
  | call_list_snapshots collection => list_snapshots collection
  | call_get_cluster_info => get_cluster_info
  | call_health_check => health_check
  end.

(** *** [server.py] *)

(** A Starlette [JSONResponse]: the body and the HTTP status. *)
Record JSONResponse := {
  json_content : pyval;
  json_status_code : Z }.

(** [health_endpoint]: the HTTP probe used by container health checks.
    Both models have a [status] attribute; [result.data] exists on a
    [ToolResponse] only, and [data.get] on a dict only. *)
Definition health_endpoint : prog JSONResponse :=
  result <- health_check ;;
  match result with
  | MkToolResponse status data =>
      if String.eqb status "success" then
        match data with
        | PDict d =>
            let status_code :=
              match dict_get "status" d with
              | Some (PStr s) => if String.eqb s "healthy" then 200 else 503
              | _ => 503
              end in
            Ret {| json_content := data; json_status_code := status_code |}
        | _ => Raise (AttributeError "object has no attribute 'get'")
        end
      else Ret {| json_content := PDict [("status", PStr "unhealthy")];
                  json_status_code := 503 |}
  | MkToolError status _ =>
      if String.eqb status "success"
      then Raise (AttributeError "'ToolError' object has no attribute 'data'")
      else Ret {| json_content := PDict [("status", PStr "unhealthy")];
                  json_status_code := 503 |}
  end.

End Tools.

(** ** A sample instance of the library and an in-memory backend

    Used for concrete runs. The UUID functions follow RFC 4122: version 5
    identifiers are the SHA-1 of the namespace bytes followed by the
    name. The sample parser accepts the canonical 8-4-4-4-12 form only. *)
Module Sample.

Definition w32 (x : Z) : Z := x mod 2 ^ 32.

Definition rotl (n x : Z) : Z :=
  w32 (Z.lor (Z.shiftl x n) (Z.shiftr x (32 - n))).

Definition string_bytes (s : string) : list Z :=
  map (fun c => Z.of_N (N_of_ascii c)) (list_ascii_of_string s).

(** Big-endian bytes of the low [8 * n] bits of [x]. *)
Fixpoint be_bytes (n : nat) (x : Z) : list Z :=
  match n with
  | O => []
  | S n' => Z.land (Z.shiftr x (8 * Z.of_nat n')) 255 :: be_bytes n' x
  end.

Definition be_word (bs : list Z) : Z :=
  fold_left (fun acc b => acc * 256 + b) bs 0.

Definition sha1_pad (msg : list Z) : list Z :=
  let len := Z.of_nat (length msg) in
  let zeros := Z.to_nat ((55 - len) mod 64) in
  msg ++ [128] ++ repeat 0 zeros ++ be_bytes 8 (8 * len).

Fixpoint chunks (fuel n : nat) (l : list Z) : list (list Z) :=
  match fuel with
  | O => []
  | S fuel' =>
      match l with
      | [] => []
      | _ => firstn n l :: chunks fuel' n (skipn n l)
      end
  end.

(** The message schedule, most recent word first. *)
Fixpoint schedule (n : nat) (rev_ws : list Z) : list Z :=
  match n with
  | O => rev_ws
  | S n' =>
      let w := rotl 1 (Z.lxor (Z.lxor (nth 2 rev_ws 0) (nth 7 rev_ws 0))
                              (Z.lxor (nth 13 rev_ws 0) (nth 15 rev_ws 0))) in
      schedule n' (w :: rev_ws)
  end.

Definition sha1_state : Type := Z * Z * Z * Z * Z.

Definition sha1_round (i : nat) (st : sha1_state) (w : Z) : sha1_state :=
  let '(a, b, c, d, e) := st in
  let '(f, k) :=
    if (i <? 20)%nat then (Z.lor (Z.land b c) (Z.land (Z.lxor b (2 ^ 32 - 1)) d), 1518500249)
    else if (i <? 40)%nat then (Z.lxor (Z.lxor b c) d, 1859775393)
    else if (i <? 60)%nat
         then (Z.lor (Z.lor (Z.land b c) (Z.land b d)) (Z.land c d), 2400959708)
    else (Z.lxor (Z.lxor b c) d, 3395469782) in
  (w32 (rotl 5 a + f + e + k + w), a, rotl 30 b, c, d).

Fixpoint sha1_rounds (i : nat) (ws : list Z) (st : sha1_state) : sha1_state :=
  match ws with
  | [] => st
  | w :: ws' => sha1_rounds (S i) ws' (sha1_round i st w)
  end.

Definition sha1_block (st : sha1_state) (block : list Z) : sha1_state :=
  let ws := rev (schedule 64 (rev (map be_word (chunks 16 4 block)))) in
  let '(h0, h1, h2, h3, h4) := st in
  let '(a, b, c, d, e) := sha1_rounds 0 ws st in
  (w32 (h0 + a), w32 (h1 + b), w32 (h2 + c), w32 (h3 + d), w32 (h4 + e)).

Definition sha1 (msg : list Z) : list Z :=
  let padded := sha1_pad msg in
  let '(h0, h1, h2, h3, h4) :=
    fold_left sha1_block (chunks (length padded) 64 padded)
              (1732584193, 4023233417, 2562383102, 271733878, 3285377520) in
  be_bytes 4 h0 ++ be_bytes 4 h1 ++ be_bytes 4 h2 ++ be_bytes 4 h3 ++ be_bytes 4 h4.

Definition hexchar (n : nat) : ascii :=
  match n with
  | 0 => "0" | 1 => "1" | 2 => "2" | 3 => "3" | 4 => "4" | 5 => "5" | 6 => "6"
  | 7 => "7" | 8 => "8" | 9 => "9" | 10 => "a" | 11 => "b" | 12 => "c"
  | 13 => "d" | 14 => "e" | _ => "f"
  end%nat%char.

Definition hex_hi (b : Z) : ascii := hexchar (Z.to_nat ((b / 16) mod 16)).
Definition hex_lo (b : Z) : ascii := hexchar (Z.to_nat (b mod 16)).

(** [str(UUID(bytes=bs))]: 32 hex digits grouped 8-4-4-4-12. *)
Fixpoint uuid_hex (pos : nat) (bs : list Z) : string :=
  match bs with
  | [] => EmptyString
  | b :: bs' =>
      let rest := String (hex_hi b) (String (hex_lo b) (uuid_hex (S pos) bs')) in
      match pos with
      | 4 | 6 | 8 | 10 => String "-" rest
      | _ => rest
      end%nat
  end.

Definition NAMESPACE_DNS : list Z :=
  [107; 167; 184; 16; 157; 173; 17; 209; 128; 180; 0; 192; 79; 212; 48; 200].

(** [UUID(bytes=hash[:16], version=5)]: the version nibble and the RFC
    4122 variant bits replace what the hash had there. *)
Definition with_version5 (h : list Z) : list Z :=
  match h with
  | [b0; b1; b2; b3; b4; b5; b6; b7; b8; b9; b10; b11; b12; b13; b14; b15] =>
      [b0; b1; b2; b3; b4; b5; Z.lor (Z.land b6 15) 80; b7;
       Z.lor (Z.land b8 63) 128; b9; b10; b11; b12; b13; b14; b15]
  | _ => h
  end.

Definition uuid5 (namespace : list Z) (name : string) : string :=
  uuid_hex 0 (with_version5 (firstn 16 (sha1 (namespace ++ string_bytes name)))).

Definition is_hex (c : ascii) : bool :=
  let n := nat_of_ascii c in
  ((48 <=? n) && (n <=? 57) || (97 <=? n) && (n <=? 102)
   || (65 <=? n) && (n <=? 70))%nat.

Fixpoint canonical_from (pos : nat) (s : string) : bool :=
  match s with
  | EmptyString => (pos =? 36)%nat
  | String c s' =>
      (match pos with
       | 8 | 13 | 18 | 23 => Ascii.eqb c "-"
       | _ => is_hex c
       end%nat)
      && canonical_from (S pos) s'
  end.

Definition canonical_uuid (s : string) : bool := canonical_from 0 s.

(** The sample library: the validating constructors accept every
    argument, and elapsed time is the difference of the raw readings. *)
#[global] Instance lib : PyLib := {|
  UUID_parses := canonical_uuid;
  uuid5_NAMESPACE_DNS := uuid5 NAMESPACE_DNS;
  py_str_other := fun _ => "<object>";
  Filter_check := fun _ => None;
  PointStruct_check := fun _ _ _ => None;
  NamedVector_check := fun _ _ => None;
  SearchRequest_check := fun _ _ _ => None;
  elapsed_ms := fun t0 t1 => F64 (f64_bits t1 - f64_bits t0) |}.

(** An in-memory store: collections in creation order, each with its
    points in insertion order. It answers the collection and point
    requests; search, snapshots and filters are beyond it and are
    answered with a fault. *)
Record collection_store := {
  cs_vectors : list (string * VectorParams);
  cs_points : list PointStruct }.

Definition store : Type := list (string * collection_store).

Fixpoint find_collection (name : string) (st : store) : option collection_store :=
  match st with
  | [] => None
  | (n, c) :: st' => if String.eqb name n then Some c else find_collection name st'
  end.

Fixpoint replace_collection (name : string) (c : collection_store) (st : store) : store :=
  match st with
  | [] => []
  | (n, c') :: st' =>
      if String.eqb name n then (n, c) :: st'
      else (n, c') :: replace_collection name c st'
  end.

Fixpoint remove_collection (name : string) (st : store) : store :=
  match st with
  | [] => []
  | (n, c) :: st' =>
      if String.eqb name n then remove_collection name st'
      else (n, c) :: remove_collection name st'
  end.

Fixpoint find_point (id : string) (ps : list PointStruct) : option PointStruct :=
  match ps with
  | [] => None
  | p :: ps' => if String.eqb id (ps_id p) then Some p else find_point id ps'
  end.

(** Overwrite the point with the same id, else append. *)
Fixpoint put_point (p : PointStruct) (ps : list PointStruct) : list PointStruct :=
  match ps with
  | [] => [p]
  | q :: ps' => if String.eqb (ps_id p) (ps_id q) then p :: ps' else q :: put_point p ps'
  end.

Definition record_of (with_payload with_vectors : bool) (p : PointStruct) : Record_ :=
  {| rec_id := IdStr (ps_id p);
     rec_payload := if with_payload then Some (ps_payload p) else None;
     rec_vector :=
       if with_vectors then
         match ps_vector p with
         | PDict d => Some (VecDict d)
         | PList xs => Some (VecList xs)
         | _ => None
         end
       else None |}.

Definition info_of (c : collection_store) : CollectionInfo :=
  {| ci_status := Some "green";
     ci_points_count := Some (Z.of_nat (length (cs_points c)));
     ci_vectors_count := Some (Z.of_nat (length (cs_points c)));
     ci_indexed_vectors_count := Some 0;
     ci_segments_count := Some 1;
     ci_vectors :=
       VectorsNamed
         (map (fun kv => (fst kv,
                          {| vi_size := vp_size (snd kv);
                             vi_distance := Some (Distance_value (vp_distance (snd kv)));
                             vi_on_disk := Some (vp_on_disk (snd kv)) |}))
              (cs_vectors c));
     ci_hnsw_config := None;
     ci_optimizer_status := Some OptimizersOk;
     ci_payload_schema := None |}.

Definition not_found (name : string) : exn :=
  UnexpectedResponse 404 ("Not found: Collection " +:+ name +:+ " doesn't exist!").

Definition unsupported : exn :=
  UnexpectedResponse 501 "Not supported by the in-memory store".

(** The page of a scroll: skip to the cursor, take [limit] points, and
    report the id of the next point, if any, as the resume cursor. *)
Fixpoint skip_to (offset : string) (ps : list PointStruct) : list PointStruct :=
  match ps with
  | [] => []
  | p :: ps' => if String.eqb offset (ps_id p) then ps else skip_to offset ps'
  end.

Definition scroll_page (limit : Z) (offset : option string) (ps : list PointStruct)
  : list PointStruct * option PointId :=
  let from := match offset with Some o => skip_to o ps | None => ps end in
  (firstn (Z.to_nat limit) from,
   match skipn (Z.to_nat limit) from with
   | [] => None
   | p :: _ => Some (IdStr (ps_id p))
   end).

Definition with_collection {A} (name : string) (st : store)
           (k : collection_store -> result A * store) : result A * store :=
  match find_collection name st with
  | Some c => k c
  | None => (Err (not_found name), st)
  end.

Definition backend : handler store :=
  fun r =>
    match r as r0 return store -> result (response r0) * store with
    | client_get_collections =>
        fun st => (Ok {| collections := map (fun kv => {| cd_name := fst kv |}) st |}, st)
    | client_get_collection name =>
        fun st => with_collection name st (fun c => (Ok (info_of c), st))
    | client_create_collection name vectors_config _ _ =>
        fun st =>
          match find_collection name st with
          | Some _ => (Err (UnexpectedResponse 409 "Collection already exists"), st)
          | None => (Ok true,
                     (st ++ [(name, {| cs_vectors := vectors_config;
                                       cs_points := [] |})])%list)
          end
    | client_delete_collection name =>
        fun st => (Ok (bool_decide (is_Some (find_collection name st))),
                   remove_collection name st)
    | client_update_collection name _ _ _ =>
        fun st => with_collection name st (fun _ => (Ok true, st))
    | client_count name None _ =>
        fun st => with_collection name st (fun c =>
                    (Ok {| count := Z.of_nat (length (cs_points c)) |}, st))
    | client_count _ (Some _) _ => fun st => (Err unsupported, st)
    | client_retrieve name ids with_payload with_vectors =>
        fun st => with_collection name st (fun c =>
                    (Ok (omap (fun id => record_of with_payload with_vectors
                                           <$> find_point id (cs_points c)) ids), st))
    | client_scroll name limit offset None with_payload with_vectors =>
        fun st => with_collection name st (fun c =>
                    let page := scroll_page limit offset (cs_points c) in
                    (Ok (map (record_of with_payload with_vectors) (fst page), snd page),
                     st))
    | client_scroll _ _ _ (Some _) _ _ => fun st => (Err unsupported, st)
    | client_upsert name points _ =>
        fun st => with_collection name st (fun c =>
                    (Ok tt,
                     replace_collection name
                       {| cs_vectors := cs_vectors c;
                          cs_points := fold_left (fun ps p => put_point p ps) points
                                                 (cs_points c) |}
                       st))
    | client_delete name (Some (PointIdsList ids)) _ =>
        fun st => with_collection name st (fun c =>
                    (Ok tt,
                     replace_collection name
                       {| cs_vectors := cs_vectors c;
                          cs_points :=
                            filter (fun p => negb (existsb (String.eqb (ps_id p)) ids))
                                   (cs_points c) |}
                       st))
    | client_delete _ (Some (FilterSelector _)) _ => fun st => (Err unsupported, st)
    | client_delete _ None _ =>
        fun st => (Err (UnexpectedResponse 400 "Bad request: missing points selector"), st)
    | client_search _ _ _ _ _ _ _ => fun st => (Err unsupported, st)
    | client_search_batch _ _ => fun st => (Err unsupported, st)
    | client_recommend _ _ _ _ _ _ _ _ _ => fun st => (Err unsupported, st)
    | client_create_snapshot _ _ => fun st => (Err unsupported, st)
    | client_list_snapshots _ => fun st => (Err unsupported, st)
    | http_get _ _ =>
        fun st => (Ok {| http_status_code := 200;
                         http_json := Ok (PDict [("title", PStr "qdrant - vector search engine");
                                                 ("version", PStr "1.7.0")]) |}, st)
    | asyncio_sleep _ => fun st => (Ok tt, st)
    | time_time => fun st => (Ok (F64 0), st)
    | datetime_utcnow_isoformat => fun st => (Ok "1970-01-01T00:00:00", st)
    end.

Definition config : AppConfig :=
  {| qdrant := {| url := "http://qdrant-unity:6333";
                  grpc_url := "http://qdrant-unity:6334";
                  api_key := None;
                  timeout := 30;
                  prefer_grpc := false |};
     default_collection := "unity_project_kb";
     debug := false |}.

(** A fresh process: no handle built yet. *)
Definition boot (st : store) : world store := World (fun _ => None) st.

Definition kb : store :=
  [("kb", {| cs_vectors := [("text-dense",
                             {| vp_size := 4; vp_distance := COSINE; vp_on_disk := false |})];
             cs_points := [] |})].

(** A collection holding two stored points. *)
Definition docs : store :=
  [("docs",
    {| cs_vectors := [("text-dense",
                       {| vp_size := 2; vp_distance := DOT; vp_on_disk := false |})];
       cs_points :=
         [{| ps_id := "886313e1-3b8a-5372-9b90-0c9aee199e5d";
             ps_vector := PDict [("text-dense", PList [PInt 1; PInt 0])];
             ps_payload := [("original_id", PStr "python.org")] |};
          {| ps_id := "eea9cb72-744e-5814-a929-652d970d86ac";
             ps_vector := PDict [("text-dense", PList [PInt 0; PInt 1])];
             ps_payload := [("original_id", PStr "doc-1")] |}] |})].

(** A stricter library: the filter model refuses keys it does not know,
    as a pydantic model that forbids extra fields does. *)
Definition known_clause (k : string) : bool :=
  String.eqb k "must" || String.eqb k "should" || String.eqb k "must_not"
  || String.eqb k "min_should".

Definition strict_lib : PyLib := {|
  UUID_parses := canonical_uuid;
  uuid5_NAMESPACE_DNS := uuid5 NAMESPACE_DNS;
  py_str_other := fun _ => "<object>";
  Filter_check := fun d =>
    if forallb (fun kv => known_clause (fst kv)) d then None
    else Some (ValidationError "Extra inputs are not permitted");
  PointStruct_check := fun _ _ _ => None;
  NamedVector_check := fun _ _ => None;
  SearchRequest_check := fun _ _ _ => None;
  elapsed_ms := fun t0 t1 => F64 (f64_bits t1 - f64_bits t0) |}.

(** A filter without conditions: every clause list is empty. *)
Definition no_conditions (f : Filter) : bool :=
  forallb (fun kv => match snd kv with PList [] => true | _ => false end)
          (filter_clauses f).

(** The store behind an unreachable HTTP root: the raw probe fails, a
    snapshot request is queued without a description yet, a deletion by
    a condition-free filter empties the collection, searches score
    nothing and so find no hit, and everything else is answered as
    [backend] does. *)
Definition lab : handler store :=
  fun r =>
    match r as r0 return store -> result (response r0) * store with
    | http_get _ _ =>
        fun st => (Err (OtherException "ConnectError" "All connection attempts failed"), st)
    | client_create_snapshot name _ =>
        fun st => with_collection name st (fun _ => (Ok None, st))
    | client_delete name (Some (FilterSelector f)) _ =>
        fun st =>
          if no_conditions f then
            with_collection name st (fun c =>
              (Ok tt, replace_collection name
                        {| cs_vectors := cs_vectors c; cs_points := [] |} st))
          else (Err unsupported, st)
    | client_search name _ _ _ _ _ _ =>
        fun st => with_collection name st (fun _ => (Ok [], st))
    | client_search_batch name requests =>
        fun st => with_collection name st (fun _ => (Ok (map (fun _ => []) requests), st))
    | client_recommend name _ _ _ _ _ _ _ _ =>
        fun st => with_collection name st (fun _ => (Ok [], st))
    | other => fun st => backend other st
    end.

(** A listing taken while a collection is being dropped: [get_collections]
    still names "ghost", whose lookup then answers 404. *)
Definition stale_listing : handler store :=
  fun r =>
    match r as r0 return store -> result (response r0) * store with
    | client_get_collections =>
        fun st =>
          (Ok {| collections :=
                   (map (fun kv => {| cd_name := fst kv |}) st
                      ++ [{| cd_name := "ghost" |}])%list |}, st)
    | other => fun st => backend other st
    end.

End Sample.

(** * Properties *)

(** ** Programs and their runs *)

Lemma all_ret_bind {A C} (P : C -> Prop) (p : prog A) (f : A -> prog C) :
  (forall a, all_ret P (f a)) -> all_ret P (bind p f).
Proof. intros Hf. induction p; simpl; auto. Qed.

Lemma all_ret_try {A} (P : A -> Prop) (p : prog A) (hd : exn -> prog A) :
  all_ret P p -> (forall e, all_ret P (hd e)) -> all_ret P (try_except p hd).
Proof. intros Hp Hh. induction p; simpl in *; auto. Qed.

Lemma total_try {A} (P : A -> Prop) (p : prog A) (hd : exn -> prog A) :
  all_ret P p -> (forall e, total_with P (hd e)) -> total_with P (try_except p hd).
Proof. intros Hp Hh. induction p; simpl in *; auto. Qed.

Section RunLemmas.
Context (config : AppConfig) {B : Type} (h : handler B).

Lemma total_with_run {A} (P : A -> Prop) (p : prog A) :
  total_with P p ->
  forall w, exists a w' tr, run config h p w = (Ok a, w', tr) /\ P a.
Proof.
  induction p as [a | e | m k IH | r k IH]; simpl; intros Hp w.
  - eauto.
  - contradiction.
  - apply IH, Hp.
  - destruct (h r (w_backend w)) as [x b'].
    destruct (IH x (Hp x) (World (w_client w) b')) as (a & w' & tr & Hrun & Ha).
    rewrite Hrun. eauto.
Qed.

Lemma run_bind {A C} (p : prog A) (f : A -> prog C) (w : world B) :
  run config h (bind p f) w =
    match run config h p w with
    | (Ok a, w', tr) =>
        let '(res, w'', tr') := run config h (f a) w' in (res, w'', (tr ++ tr')%list)
    | (Err e, w', tr) => (Err e, w', tr)
    end.
Proof.
  revert w. induction p as [a | e | m k IH | r k IH]; simpl; intros w.
  - destruct (run config h (f a) w) as [[res w''] tr']. reflexivity.
  - reflexivity.
  - apply IH.
  - destruct (h r (w_backend w)) as [x b']. rewrite IH.
    destruct (run config h (k x) (World (w_client w) b')) as [[[a | e] w'] tr];
      [destruct (run config h (f a) w') as [[res w''] tr'] |]; reflexivity.
Qed.

Lemma run_try_except {A} (p : prog A) (hd : exn -> prog A) (w : world B) :
  run config h (try_except p hd) w =
    match run config h p w with
    | (Ok a, w', tr) => (Ok a, w', tr)
    | (Err e, w', tr) =>
        let '(res, w'', tr') := run config h (hd e) w' in (res, w'', (tr ++ tr')%list)
    end.
Proof.
  revert w. induction p as [a | e | m k IH | r k IH]; simpl; intros w.
  - reflexivity.
  - destruct (run config h (hd e) w) as [[res w''] tr']. reflexivity.
  - apply IH.
  - destruct (h r (w_backend w)) as [x b']. rewrite IH.
    destruct (run config h (k x) (World (w_client w) b')) as [[[a | e] w'] tr];
      [| destruct (run config h (hd e) w') as [[res w''] tr']]; reflexivity.
Qed.

End RunLemmas.

(** ** Every tool answers with an envelope *)

Lemma ToolResponse_ok (d : dict) : envelope_ok (ToolResponse d).
Proof. left. exists d. reflexivity. Qed.

Lemma ToolError_ok (m : string) : envelope_ok (ToolError m).
Proof. right. exists m. reflexivity. Qed.

Create HintDb envelopes.
#[local] Hint Resolve ToolResponse_ok ToolError_ok : envelopes.

Lemma all_ret_lift_eq {A C} (P : C -> Prop) (r : result A) (f : A -> prog C) :
  (forall a, r = Ok a -> all_ret P (f a)) -> all_ret P (bind (lift r) f).
Proof. intros Hf. destruct r; simpl; auto. Qed.

Lemma all_ret_bind_strong {A C} (Q : A -> Prop) (P : C -> Prop)
      (p : prog A) (f : A -> prog C) :
  all_ret Q p -> (forall a, Q a -> all_ret P (f a)) -> all_ret P (bind p f).
Proof. intros Hp Hf. induction p; simpl in *; auto. Qed.

Section Envelopes.
Context `{PyLib} (config : AppConfig).

(** The conversion loops leave early only with an error envelope. *)
Lemma convert_points_early (points : list dict) (acc : list PointStruct) (e : envelope) :
  convert_points points acc = Ok (inl e) -> envelope_ok e.
Proof.
  revert acc. induction points as [| p rest IH]; simpl; intros acc Hc.
  - discriminate.
  - destruct (convert_point p) as [[early | ps] | ex] eqn:Hp; simpl in Hc.
    + injection Hc as <-. unfold convert_point in Hp.
      destruct (dict_get "id" p), (dict_get "vector" p);
        try (injection Hp as <-; apply ToolError_ok).
      destruct (_to_uuid p0); simpl in Hp; [| discriminate].
      destruct (payload_setitem _ _ _); simpl in Hp; [| discriminate].
      destruct (PointStruct_ctor _ _ _); simpl in Hp; discriminate.
    + eauto.
    + discriminate.
Qed.

Lemma build_search_requests_early (vector_name : string) (with_payload : bool)
      (queries : list dict) (acc : list SearchRequest) (e : envelope) :
  build_search_requests vector_name with_payload queries acc = Ok (inl e) ->
  envelope_ok e.
Proof.
  revert acc. induction queries as [| q rest IH]; simpl; intros acc Hc.
  - discriminate.
  - destruct (build_search_request vector_name with_payload q)
      as [[early | rq] | ex] eqn:Hq; simpl in Hc.
    + injection Hc as <-. unfold build_search_request in Hq.
      destruct (dict_get "vector" q); [| injection Hq as <-; apply ToolError_ok].
      destruct (NamedVector_ctor _ _); simpl in Hq; [| discriminate].
      destruct (query_filter_of q); simpl in Hq; [| discriminate].
      destruct (checked _ _); simpl in Hq; discriminate.
    + eauto.
    + discriminate.
Qed.

Lemma on_error_total (collection failed : string) (e : exn) :
  total_with envelope_ok (on_error collection failed e).
Proof.
  destruct e; simpl; try apply ToolError_ok.
  destruct (status_code =? 404); simpl; apply ToolError_ok.
Qed.

Lemma on_exception_total (failed : string) (e : exn) :
  total_with envelope_ok (on_exception failed e).
Proof. simpl. apply ToolError_ok. Qed.

Lemma with_filter_all_ret (filter : option dict) (k : option Filter -> prog envelope) :
  (forall f, all_ret envelope_ok (k f)) ->
  all_ret envelope_ok (with_filter filter k).
Proof.
  intros Hk. unfold with_filter.
  destruct filter as [[| kv d] |]; auto.
  destruct (Filter_ctor (kv :: d)); simpl; auto with envelopes.
Qed.

(** Inside a tool body: peel binds, awaits and early returns until only
    envelope constructors are left. *)
Ltac body_step :=
  first
    [ apply ToolResponse_ok
    | apply ToolError_ok
    | assumption
    | intro
    | match goal with
      | |- all_ret _ (bind (lift (convert_points _ _)) _) =>
          apply all_ret_lift_eq; intros [? | ?] Hloop;
          [ apply convert_points_early in Hloop; exact Hloop |]
      | |- all_ret _ (bind (lift (build_search_requests _ _ _ _)) _) =>
          apply all_ret_lift_eq; intros [? | ?] Hloop;
          [ apply build_search_requests_early in Hloop; exact Hloop |]
      | |- all_ret _ (bind (try_except _ (fun e => Ret (inl _))) _) =>
          apply (all_ret_bind_strong
                   (fun probe => match probe with
                                 | inl early => envelope_ok early
                                 | inr _ => True
                                 end));
          [ apply all_ret_try; [ repeat (apply all_ret_bind; intros); exact I |] |]
      end
    | apply with_filter_all_ret; intros
    | apply all_ret_bind; intros
    | progress simpl
    | match goal with
      | |- all_ret _ (match ?x with _ => _ end) => destruct x
      | |- all_ret _ (if ?x then _ else _) => destruct x
      | |- True => exact I
      end ].

Ltac tool_body := repeat body_step.

Lemma tools_total (t : tool_call) : total_with envelope_ok (invoke config t).
Proof.
  destruct t; cbv [invoke]; unfold list_collections, create_collection, delete_collection,
    get_collection_info, update_collection, count_points, get_points, scroll_points,
    upsert_points, delete_points, search_vectors, search_batch, recommend_points,
    optimize_collection, create_snapshot, list_snapshots, get_cluster_info,
    health_check;
    (apply total_try;
     [ | first [ apply on_error_total | apply on_exception_total ] ]).
  all: tool_body.
Qed.

(** C1. Whatever the operation, its arguments, the backend and the
    state it starts from, running a tool returns a value (no exception
    leaves the tool), and that value is either a success envelope
    (status "success", a data payload) or an error envelope (status
    "error", a message). *)
Theorem tool_returns_envelope (t : tool_call) {B : Type} (h : handler B) (w : world B) :
  exists (env : envelope) (w' : world B) (tr : list request),
    run config h (invoke config t) w = (Ok env, w', tr) /\
    ((exists data, env = MkToolResponse "success" (PDict data)) \/
     (exists message, env = MkToolError "error" message)).
Proof.
  destruct (total_with_run config h envelope_ok (invoke config t) (tools_total t) w)
    as (env & w' & tr & Hrun & Hok).
  exists env, w', tr. split; [exact Hrun | exact Hok].
Qed.

End Envelopes.

(** ** Identifier normalisation *)

Section Normalizer.
Context `{PyLib}.

Lemma to_uuid_value (v : pyval) :
  _to_uuid v =
    Ok (if UUID_parses (py_str v) then py_str v else uuid5_NAMESPACE_DNS (py_str v)).
Proof. unfold _to_uuid, UUID_ctor. destruct (UUID_parses (py_str v)); reflexivity. Qed.

Lemma rmap_to_uuid (ids : list string) :
  rmap (fun pid => _to_uuid (PStr pid)) ids =
    Ok (map (fun pid => if UUID_parses pid then pid else uuid5_NAMESPACE_DNS pid) ids).
Proof.
  induction ids as [| pid ids IH]; simpl; [reflexivity |].
  rewrite to_uuid_value, IH. reflexivity.
Qed.

(** An unrestricted string encodes exactly when it holds no surrogate. *)
Lemma encode_utf8_clean (s : pystr) :
  existsb is_surrogate s = false -> exists text, encode_utf8 s = Ok text.
Proof.
  induction s as [| c s IH]; simpl; [eauto |].
  destruct (is_surrogate c); simpl; [discriminate |].
  intros Hs. destruct (IH Hs) as [rest ->]. simpl. eauto.
Qed.

Lemma encode_utf8_surrogate (s : pystr) :
  existsb is_surrogate s = true -> exists text, encode_utf8 s = Err (ValueError text).
Proof.
  induction s as [| c s IH]; simpl; [discriminate |].
  destruct (is_surrogate c); simpl; [eauto |].
  intros Hs. destruct (IH Hs) as [text ->]. simpl. eauto.
Qed.

(** One, two, three and four bytes: "A", "é", "€" and U+1F600. *)
Example encode_utf8_bytes :
  encode_utf8 [65; 233; 8364; 128512] =
    Ok (string_of_list_ascii
          (map (fun n => ascii_of_nat n)
               [65; 195; 169; 226; 130; 172; 240; 159; 152; 128]%nat)).
Proof. reflexivity. Qed.

(** On a string that encodes, the unrestricted normaliser is [_to_uuid]
    on its text. *)
Lemma to_uuid_str_text (s : pystr) (text : string) :
  encode_utf8 s = Ok text -> _to_uuid_str s = _to_uuid (PStr text).
Proof.
  intros Henc. unfold _to_uuid_str, UUID_ctor_str, uuid5_str, _to_uuid.
  rewrite Henc. simpl. unfold UUID_ctor.
  destruct (UUID_parses text); reflexivity.
Qed.

(** C4, at the strings where the code departs from it. A string that
    holds a lone surrogate makes the normaliser raise instead of
    returning: it is no UUID, so the parse fails, and the name-based
    identifier computed in the handler starts by encoding the string as
    UTF-8, which such a string refuses; nothing catches that failure. On
    every other string the normaliser returns: the text itself when it
    parses as a UUID, and otherwise its name-based (version 5, DNS
    namespace) identifier, a fixed function of the text alone. *)
Theorem to_uuid_str_surrogate (id_str : pystr) :
  (existsb is_surrogate id_str = true ->
   exists text, _to_uuid_str id_str = Err (ValueError text))
  /\
  (existsb is_surrogate id_str = false ->
   exists text,
     encode_utf8 id_str = Ok text /\
     _to_uuid_str id_str =
       Ok (if UUID_parses text then text else uuid5_NAMESPACE_DNS text)).
Proof.
  split; intros Hs.
  - destruct (encode_utf8_surrogate id_str Hs) as [text Henc].
    unfold _to_uuid_str, UUID_ctor_str, uuid5_str. rewrite Henc. simpl. eauto.
  - destruct (encode_utf8_clean id_str Hs) as [text Henc].
    exists text. split; [exact Henc |].
    rewrite (to_uuid_str_text id_str text Henc). apply to_uuid_value.
Qed.

End Normalizer.

(** ** Point deletion *)

Section DeletePoints.
Context `{PyLib} (config : AppConfig) {B : Type} (h : handler B).

(** C3, as amended. With neither [ids] nor [filter] the tool answers
    with the precondition error and issues no request, leaving the
    backend as it was. With a non-empty [ids] list, whether or not a
    filter is given as well, the one request issued is a deletion by
    identifiers, each identifier being the normalised form of the
    caller's; the filter plays no part. *)
Theorem delete_points_selector (collection : string) (wait : bool) (w : world B) :
  run config h (delete_points collection None None wait) w =
    (Ok (ToolError "Either 'ids' or 'filter' must be provided"),
     ensure_client config Points w, [])
  /\
  forall (id : string) (rest : list string) (filter : option dict),
  exists (uuid_ids : list string) (res : result envelope) (w' : world B),
    rmap (fun pid => _to_uuid (PStr pid)) (id :: rest) = Ok uuid_ids /\
    run config h (delete_points collection (Some (id :: rest)) filter wait) w =
      (res, w', [client_delete collection (Some (PointIdsList uuid_ids)) wait]).
Proof.
  split; [reflexivity |].
  intros id rest filter.
  exists (map (fun pid => if UUID_parses pid then pid else uuid5_NAMESPACE_DNS pid)
              (id :: rest)).
  assert (Hrun : forall hd,
    run config h
      (try_except
         (get_client Points ;;
          uuid_ids <- lift (rmap (fun pid => _to_uuid (PStr pid)) (id :: rest)) ;;
          delete_with collection (Some (id :: rest))
                      (Some (PointIdsList uuid_ids)) wait) hd) w =
    run config h
      (try_except
         (get_client Points ;;
          delete_with collection (Some (id :: rest))
            (Some (PointIdsList
               (map (fun pid => if UUID_parses pid then pid else uuid5_NAMESPACE_DNS pid)
                    (id :: rest)))) wait) hd) w).
  { intros hd. rewrite rmap_to_uuid. reflexivity. }
  assert (Hsame : delete_points collection (Some (id :: rest)) filter wait =
    try_except
      (get_client Points ;;
       uuid_ids <- lift (rmap (fun pid => _to_uuid (PStr pid)) (id :: rest)) ;;
       delete_with collection (Some (id :: rest))
                   (Some (PointIdsList uuid_ids)) wait)
      (on_error collection "Failed to delete points")).
  { destruct filter; reflexivity. }
  rewrite Hsame, Hrun, rmap_to_uuid. clear Hsame Hrun.
  cbn -[String.append map on_error].
  destruct (h _ (w_backend (ensure_client config Points w))) as [[u | e] b'].
  - eexists _, _. split; [reflexivity |]. reflexivity.
  - cbn -[String.append map].
    destruct e as [code t | | | | |]; cbn -[String.append map];
      [destruct (code =? 404) |..]; eexists _, _; (split; [reflexivity |]); reflexivity.
Qed.

(** C10. An empty [ids] list with no filter gets past the precondition
    check: the tool issues one deletion request whose points selector
    is null, and whatever the backend answers, the tool's reply is not
    the precondition error. *)
Theorem delete_points_empty_ids (collection : string) (wait : bool) (w : world B) :
  exists (res : result envelope) (w' : world B),
    run config h (delete_points collection (Some []) None wait) w =
      (res, w', [client_delete collection None wait]) /\
    res <> Ok (ToolError "Either 'ids' or 'filter' must be provided").
Proof.
  cbn -[String.append].
  destruct (h _ (w_backend (ensure_client config Points w))) as [[u | e] b'].
  - eexists _, _. split; [reflexivity | discriminate].
  - destruct e as [code t | | | | |]; cbn -[String.append];
      [destruct (code =? 404) |..]; eexists _, _;
      (split; [reflexivity | cbn; discriminate]).
Qed.

End DeletePoints.

(** ** Collections *)

Lemma ensure_client_backend (config : AppConfig) {B : Type} (m : tool_module)
      (w : world B) :
  w_backend (ensure_client config m w) = w_backend w.
Proof. unfold ensure_client. destruct (w_client w m); reflexivity. Qed.

(** Once built, the handle is reused. *)
Lemma ensure_client_again (config : AppConfig) {B : Type} (m : tool_module)
      (w : world B) (b : B) :
  w_client (ensure_client config m (World (w_client (ensure_client config m w)) b)) =
  w_client (ensure_client config m w).
Proof.
  unfold ensure_client. destruct (w_client w m) eqn:E; simpl.
  - rewrite E. reflexivity.
  - destruct (decide (m = m)); [reflexivity | congruence].
Qed.

(** [str.lower] followed by a comparison with a word that has no capital
    is a comparison without regard to case. *)
Lemma ascii_eqb_nat (a b : ascii) :
  Ascii.eqb a b = (nat_of_ascii a =? nat_of_ascii b)%nat.
Proof.
  destruct (Ascii.eqb_spec a b) as [-> | Hne].
  - symmetry. apply Nat.eqb_refl.
  - symmetry. apply Nat.eqb_neq. intros Heq. apply Hne.
    rewrite <- (ascii_nat_embedding a), <- (ascii_nat_embedding b), Heq. reflexivity.
Qed.

Lemma same_letter_lower (a b : ascii) :
  ((65 <=? nat_of_ascii b) && (nat_of_ascii b <=? 90))%nat = false ->
  Ascii.eqb (ascii_lower a) b = same_letter a b.
Proof.
  intros Hb. unfold ascii_lower, same_letter. rewrite Hb.
  pose proof (nat_ascii_bounded a) as Ha.
  destruct ((65 <=? nat_of_ascii a) && (nat_of_ascii a <=? 90))%nat eqn:Hup.
  - rewrite ascii_eqb_nat, nat_ascii_embedding.
    + apply andb_prop in Hup as [Hlo Hhi].
      apply Nat.leb_le in Hlo. apply Nat.leb_le in Hhi.
      apply andb_false_iff in Hb.
      rewrite orb_false_r.
      destruct (Nat.eqb_spec (nat_of_ascii a) (nat_of_ascii b)) as [Heq | Hne].
      * exfalso. rewrite <- Heq in Hb.
        destruct Hb as [Hb | Hb];
          [apply Nat.leb_gt in Hb | apply Nat.leb_gt in Hb]; lia.
      * simpl. rewrite Nat.eqb_sym. reflexivity.
    + apply andb_prop in Hup as [_ Hhi]. apply Nat.leb_le in Hhi. lia.
  - rewrite ascii_eqb_nat, !orb_false_r. reflexivity.
Qed.

Lemma str_lower_eqb (s : string) :
  forall k, no_capitals k = true ->
            String.eqb (str_lower s) k = equal_ignoring_case s k.
Proof.
  induction s as [| a s IH]; intros [| b k] Hk; simpl; try reflexivity.
  simpl in Hk. apply andb_prop in Hk as [Hb Hk].
  apply negb_true_iff in Hb.
  rewrite (same_letter_lower a b Hb), (IH k Hk). reflexivity.
Qed.

(** The metric chosen for a distance string, by a comparison that does
    not go through [str.lower]. *)
Lemma distance_enum_cases `{PyLib} (distance : string) :
  (equal_ignoring_case distance "cosine" = true /\ distance_enum distance = COSINE) \/
  (equal_ignoring_case distance "euclid" = true /\ distance_enum distance = EUCLID) \/
  (equal_ignoring_case distance "dot" = true /\ distance_enum distance = DOT) \/
  (equal_ignoring_case distance "cosine" = false /\
   equal_ignoring_case distance "euclid" = false /\
   equal_ignoring_case distance "dot" = false /\ distance_enum distance = COSINE).
Proof.
  unfold distance_enum, distance_map. simpl.
  rewrite !str_lower_eqb by reflexivity.
  destruct (equal_ignoring_case distance "cosine"); [auto |].
  destruct (equal_ignoring_case distance "euclid"); [auto |].
  destruct (equal_ignoring_case distance "dot"); [auto |].
  right; right; right. auto.
Qed.

(** The three metrics in capitals and in mixed case, a fourth that is
    not offered, and a longer spelling. *)
Example distance_enum_mixed_case `{PyLib} :
  distance_enum "COSINE" = COSINE /\ distance_enum "Cosine" = COSINE /\
  distance_enum "EUCLID" = EUCLID /\ distance_enum "eUcLiD" = EUCLID /\
  distance_enum "DOT" = DOT /\ distance_enum "Dot" = DOT /\
  distance_enum "dot" = DOT /\
  distance_enum "Manhattan" = COSINE /\ distance_enum "euclidean" = COSINE /\
  distance_enum "" = COSINE.
Proof. repeat split; reflexivity. Qed.

Section CollectionTools.
Context `{PyLib} (config : AppConfig) {B : Type} (h : handler B).

(** C2. Without confirmation the tool answers with the precondition
    error before anything else happens: no request is issued, no
    handle is built, the world is untouched. With confirmation, when
    the listing shows the collection and the backend answers the
    detail lookup and accepts the deletion, the requests issued are, in
    order, the listing, the detail lookup and the deletion of that
    collection, and the payload reports the point count the lookup
    returned just before the deletion. *)
Theorem delete_collection_confirm (name : string) (w : world B) :
  run config h (delete_collection name false) w =
    (Ok (ToolError "Deletion requires confirm=true to prevent accidental data loss"),
     w, [])
  /\
  forall (cs : CollectionsResponse) (info : CollectionInfo) (ok : bool) (b1 b2 b3 : B),
    h client_get_collections (w_backend w) = (Ok cs, b1) ->
    name_in name cs = true ->
    h (client_get_collection name) b1 = (Ok info, b2) ->
    h (client_delete_collection name) b2 = (Ok ok, b3) ->
    run config h (delete_collection name true) w =
      (Ok (ToolResponse
             [("message", PStr ("Collection '" +:+ name +:+ "' deleted successfully"));
              ("deleted_points", POpt PInt (ci_points_count info))]),
       World (w_client (ensure_client config Collections w)) b3,
       [client_get_collections; client_get_collection name;
        client_delete_collection name]).
Proof.
  split; [reflexivity |].
  intros cs info ok b1 b2 b3 Hlist Hin Hinfo Hdel.
  cbn -[String.append name_in].
  rewrite ensure_client_backend, Hlist. cbn -[String.append name_in].
  rewrite Hin. cbn -[String.append]. rewrite Hinfo. cbn -[String.append].
  rewrite Hdel. reflexivity.
Qed.

(** C8. When the pre-flight listing shows a collection of that name,
    the tool answers "already exists"; the listing is the only request
    issued (no create request reaches the backend), so the backend is
    left in the state the listing left it in. *)
Theorem create_collection_existing (name : string) (vector_size : Z)
        (distance : string) (on_disk : bool) (hnsw_m hnsw_ef_construct : Z)
        (enable_sparse : bool) (w : world B) (cs : CollectionsResponse) (b1 : B) :
  h client_get_collections (w_backend w) = (Ok cs, b1) ->
  name_in name cs = true ->
  run config h (create_collection name vector_size distance on_disk hnsw_m
                                  hnsw_ef_construct enable_sparse) w =
    (Ok (ToolError ("Collection '" +:+ name +:+ "' already exists")),
     World (w_client (ensure_client config Collections w)) b1,
     [client_get_collections]).
Proof.
  intros Hlist Hin.
  cbn -[String.append name_in distance_enum].
  rewrite ensure_client_backend, Hlist. cbn -[String.append name_in distance_enum].
  rewrite Hin. reflexivity.
Qed.

(** C9. Whatever distance string is passed, once the name is found
    free the create request carries a metric among cosine, euclid and
    dot: the one the string names when letters are compared without
    regard to case ("EUCLID", "Euclid" and "euclid" all give euclid),
    and cosine for every other string. An unrecognised string is no
    error: if the backend accepts the request the tool answers with its
    success envelope. *)
Theorem create_collection_distance (name : string) (vector_size : Z)
        (distance : string) (on_disk : bool) (hnsw_m hnsw_ef_construct : Z)
        (enable_sparse : bool) (w : world B) (cs : CollectionsResponse) (b1 : B) :
  h client_get_collections (w_backend w) = (Ok cs, b1) ->
  name_in name cs = false ->
  exists (d : Distance) (res : result envelope) (w' : world B),
    run config h (create_collection name vector_size distance on_disk hnsw_m
                                    hnsw_ef_construct enable_sparse) w =
      (res, w',
       [client_get_collections;
        client_create_collection name
          [("text-dense", {| vp_size := vector_size; vp_distance := d;
                             vp_on_disk := on_disk |})]
          (if enable_sparse
           then Some [("text-sparse", {| sp_index_on_disk := on_disk |})]
           else None)
          {| hd_m := Some hnsw_m; hd_ef_construct := Some hnsw_ef_construct |}])
    /\ ((equal_ignoring_case distance "cosine" = true /\ d = COSINE) \/
        (equal_ignoring_case distance "euclid" = true /\ d = EUCLID) \/
        (equal_ignoring_case distance "dot" = true /\ d = DOT) \/
        (equal_ignoring_case distance "cosine" = false /\
         equal_ignoring_case distance "euclid" = false /\
         equal_ignoring_case distance "dot" = false /\ d = COSINE))
    /\ forall (ok : bool) (b2 : B),
         h (client_create_collection name
              [("text-dense", {| vp_size := vector_size; vp_distance := d;
                                 vp_on_disk := on_disk |})]
              (if enable_sparse
               then Some [("text-sparse", {| sp_index_on_disk := on_disk |})]
               else None)
              {| hd_m := Some hnsw_m; hd_ef_construct := Some hnsw_ef_construct |})
           b1 = (Ok ok, b2) ->
         exists data, res = Ok (ToolResponse data).
Proof.
  intros Hlist Hfresh.
  exists (distance_enum distance).
  cbn -[String.append name_in distance_enum].
  rewrite ensure_client_backend, Hlist. cbn -[String.append name_in distance_enum].
  rewrite Hfresh. cbn -[String.append distance_enum].
  destruct (h (client_create_collection _ _ _ _) b1) as [[ok' | e] b2'] eqn:Hcreate;
    cbn -[String.append distance_enum].
  - eexists _, _. split; [reflexivity |]. split; [apply distance_enum_cases |].
    intros ok b2 _. eexists. reflexivity.
  - eexists _, _. split; [reflexivity |]. split; [apply distance_enum_cases |].
    intros ok b2 Hok. discriminate.
Qed.

End CollectionTools.

(** ** Upsert *)

Lemma dict_in_get (k : string) (d : dict) :
  dict_in k d = false <-> dict_get k d = None.
Proof.
  induction d as [| [k' v] d IH]; simpl; [tauto |].
  destruct (String.eqb k k'); [split; discriminate | exact IH].
Qed.

Lemma dict_get_set (k : string) (v : pyval) (d : dict) :
  dict_get k (dict_set k v d) = Some v.
Proof.
  induction d as [| [k' v'] d IH]; simpl.
  - rewrite String.eqb_refl. reflexivity.
  - destruct (String.eqb k k') eqn:E; simpl; rewrite E; [reflexivity | exact IH].
Qed.

Section Upsert.
Context `{PyLib}.

(** What one accepted point becomes. *)
Lemma convert_point_shape (p : dict) (ps : PointStruct) :
  convert_point p = Ok (inr ps) ->
  exists id vector,
    dict_get "id" p = Some id /\
    dict_get "vector" p = Some vector /\
    _to_uuid id = Ok (ps_id ps) /\
    ps_vector ps = match vector with
                   | PList _ => PDict [("text-dense", vector)]
                   | _ => vector
                   end /\
    dict_get "original_id" (ps_payload ps) = Some id.
Proof.
  unfold convert_point. intros Hc.
  destruct (dict_get "id" p) as [id |]; [| destruct (dict_get "vector" p); discriminate].
  destruct (dict_get "vector" p) as [vector |]; [| discriminate].
  exists id, vector.
  destruct (_to_uuid id) as [point_id |]; simpl in Hc; [| discriminate].
  destruct (payload_setitem _ "original_id" id) as [payload |] eqn:Hset;
    simpl in Hc; [| discriminate].
  unfold PointStruct_ctor, checked in Hc.
  destruct (PointStruct_check _ _ _); simpl in Hc; [discriminate |].
  injection Hc as <-. simpl.
  split; [reflexivity |]. split; [reflexivity |]. split; [reflexivity |].
  split; [destruct vector; reflexivity |].
  unfold payload_setitem in Hset.
  destruct (dict_get_default "payload" (PDict []) p); try discriminate.
  injection Hset as <-. apply dict_get_set.
Qed.

(** When a point converts: it names an id and a vector, its payload is
    a dict or absent, and the [PointStruct] model accepts the fields. *)
Lemma convert_point_accepts (p : dict) (id vector : pyval) (payload : dict) :
  dict_get "id" p = Some id ->
  dict_get "vector" p = Some vector ->
  dict_get "payload" p = None /\ payload = [] \/ dict_get "payload" p = Some (PDict payload) ->
  let point_id :=
    if UUID_parses (py_str id) then py_str id else uuid5_NAMESPACE_DNS (py_str id) in
  let slot := match vector with
              | PList _ => PDict [("text-dense", vector)]
              | _ => vector
              end in
  PointStruct_check point_id slot (dict_set "original_id" id payload) = None ->
  convert_point p =
    Ok (inr {| ps_id := point_id; ps_vector := slot;
               ps_payload := dict_set "original_id" id payload |}).
Proof.
  intros Hid Hvec Hpay point_id slot Hcheck.
  unfold convert_point. rewrite Hid, Hvec, to_uuid_value. simpl rbind.
  assert (Hp : dict_get_default "payload" (PDict []) p = PDict payload).
  { unfold dict_get_default. destruct Hpay as [[-> ->] | ->]; reflexivity. }
  rewrite Hp. simpl payload_setitem. simpl rbind.
  unfold PointStruct_ctor. fold point_id. fold slot. rewrite Hcheck. reflexivity.
Qed.

Lemma convert_point_missing (p : dict) :
  dict_in "id" p = false \/ dict_in "vector" p = false ->
  convert_point p = Ok (inl (ToolError "Each point must have 'id' and 'vector' fields")).
Proof.
  rewrite !dict_in_get. unfold convert_point.
  intros [-> | ->]; [destruct (dict_get "vector" p) | destruct (dict_get "id" p)];
    reflexivity.
Qed.

Lemma convert_points_all (points : list dict) (new acc : list PointStruct) :
  Forall2 (fun p ps => convert_point p = Ok (inr ps)) points new ->
  convert_points points acc = Ok (inr (acc ++ new)%list).
Proof.
  intros Hall. revert acc.
  induction Hall as [| p ps points new Hp _ IH]; simpl; intros acc.
  - rewrite app_nil_r. reflexivity.
  - rewrite Hp. simpl. rewrite IH, <- app_assoc. reflexivity.
Qed.

Lemma convert_points_first_missing (good : list dict) (new : list PointStruct)
      (bad : dict) (rest : list dict) (acc : list PointStruct) :
  Forall2 (fun p ps => convert_point p = Ok (inr ps)) good new ->
  dict_in "id" bad = false \/ dict_in "vector" bad = false ->
  convert_points (good ++ bad :: rest) acc =
    Ok (inl (ToolError "Each point must have 'id' and 'vector' fields")).
Proof.
  intros Hall Hbad. revert acc.
  induction Hall as [| p ps good new Hp _ IH]; simpl; intros acc.
  - rewrite (convert_point_missing bad Hbad). reflexivity.
  - rewrite Hp. simpl. apply IH.
Qed.

(** A batch with an incomplete point never completes the loop. *)
Lemma convert_points_missing (points : list dict) (acc : list PointStruct) :
  Exists (fun p => dict_in "id" p = false \/ dict_in "vector" p = false) points ->
  (exists message, convert_points points acc = Ok (inl (ToolError message))) \/
  (exists e, convert_points points acc = Err e).
Proof.
  intros Hex. revert acc.
  induction Hex as [p rest Hp | p rest _ IH]; simpl; intros acc.
  - rewrite (convert_point_missing p Hp). simpl. eauto.
  - destruct (convert_point p) as [[early | ps] | e] eqn:Hc; simpl.
    + left. unfold convert_point in Hc.
      destruct (dict_get "id" p) as [id |], (dict_get "vector" p) as [vector |];
        try (injection Hc as <-; eauto).
      destruct (_to_uuid id); simpl in Hc; [| discriminate].
      destruct (payload_setitem _ _ _); simpl in Hc; [| discriminate].
      destruct (PointStruct_ctor _ _ _); simpl in Hc; discriminate.
    + apply IH.
    + eauto.
Qed.

Context (config : AppConfig) {B : Type} (h : handler B).

Lemma upsert_points_issues (collection : string) (points : list dict)
      (qdrant_points : list PointStruct) (wait : bool) (w : world B) :
  points <> [] ->
  Forall2 (fun p ps => convert_point p = Ok (inr ps)) points qdrant_points ->
  exists (res : result envelope) (w' : world B),
    run config h (upsert_points collection points wait) w =
      (res, w', [client_upsert collection qdrant_points wait]) /\
    forall (b' : B),
      h (client_upsert collection qdrant_points wait)
        (w_backend (ensure_client config Points w)) = (Ok tt, b') ->
      res = Ok (ToolResponse [("collection", PStr collection);
                              ("upserted_count", PLen qdrant_points);
                              ("operation", PStr "upsert")]) /\
      w' = World (w_client (ensure_client config Points w)) b'.
Proof.
  intros Hne Hall.
  unfold upsert_points.
  destruct points as [| p rest]; [congruence |].
  rewrite (convert_points_all (p :: rest) qdrant_points [] Hall).
  cbn -[String.append PLen].
  destruct (h _ (w_backend (ensure_client config Points w))) as [[[] | e] b1].
  - eexists _, _. split; [reflexivity |].
    intros b' Hb. injection Hb as <-. split; reflexivity.
  - destruct e as [code t | | | | |]; cbn -[String.append PLen];
      [destruct (code =? 404) |..]; eexists _, _;
      (split; [reflexivity | intros b' Hb; discriminate]).
Qed.

(** C5. If any point of the batch lacks 'id' or 'vector', the tool
    answers with an error envelope and issues no request at all: the
    backend is left as it was, nothing of the batch is written; when
    the points before the first incomplete one all convert, the message
    is the validation message itself. If every point of a non-empty
    batch converts, the single request issued is the upsert of the
    converted points, and each point whose vector was a bare list
    carries it under the slot "text-dense". *)
Theorem upsert_points_batch (collection : string) (wait : bool) (w : world B) :
  (forall (points : list dict),
     Exists (fun p => dict_in "id" p = false \/ dict_in "vector" p = false) points ->
     exists message,
       run config h (upsert_points collection points wait) w =
         (Ok (ToolError message), ensure_client config Points w, []))
  /\
  (forall (good : list dict) (new : list PointStruct) (bad : dict) (rest : list dict),
     Forall2 (fun p ps => convert_point p = Ok (inr ps)) good new ->
     dict_in "id" bad = false \/ dict_in "vector" bad = false ->
     run config h (upsert_points collection (good ++ bad :: rest) wait) w =
       (Ok (ToolError "Each point must have 'id' and 'vector' fields"),
        ensure_client config Points w, []))
  /\
  (forall (points : list dict) (qdrant_points : list PointStruct),
     points <> [] ->
     Forall2 (fun p ps => convert_point p = Ok (inr ps)) points qdrant_points ->
     (exists (res : result envelope) (w' : world B),
        run config h (upsert_points collection points wait) w =
          (res, w', [client_upsert collection qdrant_points wait])) /\
     Forall2 (fun p ps =>
                forall xs, dict_get "vector" p = Some (PList xs) ->
                           ps_vector ps = PDict [("text-dense", PList xs)])
             points qdrant_points).
Proof.
  split.
  - intros points Hex. unfold upsert_points.
    destruct points as [| p rest]; [inversion Hex |].
    destruct (convert_points_missing (p :: rest) [] Hex) as [[message Hc] | [e Hc]];
      rewrite Hc.
    + exists message. reflexivity.
    + cbn -[String.append].
      destruct e as [code t | | | | |]; cbn -[String.append];
        [destruct (code =? 404) |..]; eexists; reflexivity.
  - split.
    { intros good new bad rest Hall Hbad. unfold upsert_points.
      pose proof (convert_points_first_missing good new bad rest [] Hall Hbad) as Hc.
      destruct (good ++ bad :: rest)%list as [| p ps] eqn:Hl;
        [destruct good; discriminate |].
      rewrite Hc. reflexivity. }
    intros points qdrant_points Hne Hall. split.
    + destruct (upsert_points_issues collection points qdrant_points wait w Hne Hall)
        as (res & w' & Hrun & _). eauto.
    + eapply Forall2_impl; [exact Hall |].
      intros p ps Hp xs Hv. simpl in Hp.
      destruct (convert_point_shape p ps Hp) as (id & vector & _ & Hv' & _ & Hvec & _).
      rewrite Hv in Hv'. injection Hv' as <-. exact Hvec.
Qed.

End Upsert.

(** ** The in-memory store *)

Lemma find_point_put (p : PointStruct) (ps : list PointStruct) :
  Sample.find_point (ps_id p) (Sample.put_point p ps) = Some p.
Proof.
  induction ps as [| q ps IH]; simpl.
  - rewrite String.eqb_refl. reflexivity.
  - destruct (String.eqb (ps_id p) (ps_id q)) eqn:E; simpl.
    + rewrite String.eqb_refl. reflexivity.
    + rewrite E. exact IH.
Qed.

Lemma find_replace_collection (name : string) (c c' : Sample.collection_store)
      (st : Sample.store) :
  Sample.find_collection name st = Some c ->
  Sample.find_collection name (Sample.replace_collection name c' st) = Some c'.
Proof.
  induction st as [| [n d] st IH]; simpl; [discriminate |].
  destruct (String.eqb name n) eqn:E; simpl; rewrite E; auto.
Qed.

(** ** The caller's identifier survives the round trip *)

Section RoundTrip.
Context `{PyLib} (config : AppConfig).

(** C6. Every point the upsert hands to the backend carries the
    caller's identifier in its payload under [original_id]. On the
    in-memory store: after the upsert of one point whose id is the
    string [caller_id], [get_points] for that same string finds exactly
    one point; its payload has [original_id] equal to [caller_id], and
    its id is the normalised identifier, which differs from
    [caller_id] whenever [caller_id] is not itself UUID-formatted. *)
Theorem original_id_round_trip :
  (forall {B : Type} (h : handler B) (w : world B) (collection : string)
          (points : list dict) (qdrant_points : list PointStruct) (wait : bool),
     points <> [] ->
     Forall2 (fun p ps => convert_point p = Ok (inr ps)) points qdrant_points ->
     (exists (res : result envelope) (w' : world B),
        run config h (upsert_points collection points wait) w =
          (res, w', [client_upsert collection qdrant_points wait])) /\
     Forall2 (fun p ps =>
                exists id, dict_get "id" p = Some id /\
                           dict_get "original_id" (ps_payload ps) = Some id)
             points qdrant_points)
  /\
  (forall (w : world Sample.store) (collection : string) (c : Sample.collection_store)
          (caller_id : string) (p : dict) (ps : PointStruct) (wait : bool),
     Sample.find_collection collection (w_backend w) = Some c ->
     dict_get "id" p = Some (PStr caller_id) ->
     convert_point p = Ok (inr ps) ->
     (forall name, UUID_parses (uuid5_NAMESPACE_DNS name) = true) ->
     exists (w1 : world Sample.store),
       run config Sample.backend (upsert_points collection [p] wait) w =
         (Ok (ToolResponse [("collection", PStr collection);
                            ("upserted_count", PInt 1);
                            ("operation", PStr "upsert")]),
          w1, [client_upsert collection [ps] wait]) /\
       run config Sample.backend (get_points collection [caller_id] true false) w1 =
         (Ok (ToolResponse
                [("collection", PStr collection);
                 ("points", PList [PDict [("id", PStr (ps_id ps));
                                          ("payload", PDict (ps_payload ps))]]);
                 ("found_count", PInt 1);
                 ("requested_count", PInt 1)]),
          w1, [client_retrieve collection [ps_id ps] true false]) /\
       dict_get "original_id" (ps_payload ps) = Some (PStr caller_id) /\
       _to_uuid (PStr caller_id) = Ok (ps_id ps) /\
       (UUID_parses caller_id = false -> ps_id ps <> caller_id)).
Proof.
  split.
  - intros B h w collection points qdrant_points wait Hne Hall. split.
    + destruct (upsert_points_issues config h collection points qdrant_points wait w
                  Hne Hall) as (res & w' & Hrun & _). eauto.
    + eapply Forall2_impl; [exact Hall |].
      intros q qs Hq. simpl in Hq.
      destruct (convert_point_shape q qs Hq) as (id & vector & Hid & _ & _ & _ & Horig).
      eauto.
  - intros w collection c caller_id p ps wait Hfind Hid Hconv Hlaw.
    destruct (convert_point_shape p ps Hconv) as (id & vector & Hid' & _ & Hnorm & _ & Horig).
    rewrite Hid in Hid'. injection Hid' as <-.
    set (c' := {| Sample.cs_vectors := Sample.cs_vectors c;
                  Sample.cs_points := Sample.put_point ps (Sample.cs_points c) |}).
    set (st1 := Sample.replace_collection collection c' (w_backend w)).
    exists (World (w_client (ensure_client config Points w)) st1).
    assert (Hupsert :
      Sample.backend (client_upsert collection [ps] wait)
                     (w_backend (ensure_client config Points w)) = (Ok tt, st1)).
    { rewrite ensure_client_backend. simpl. unfold Sample.with_collection.
      rewrite Hfind. reflexivity. }
    destruct (upsert_points_issues config Sample.backend collection [p] [ps] wait w)
      as (res & w' & Hrun & Hres); [discriminate | constructor; [exact Hconv | constructor] |].
    destruct (Hres st1 Hupsert) as [-> ->].
    split; [exact Hrun |].
    split; [| split; [exact Horig | split; [exact Hnorm |]]].
    + unfold get_points. simpl rmap. rewrite Hnorm.
      assert (Hfind1 : Sample.find_collection collection st1 = Some c').
      { apply (find_replace_collection collection c c' (w_backend w) Hfind). }
      assert (Hpay : exists kv rest, ps_payload ps = kv :: rest).
      { destruct (ps_payload ps) as [| kv rest]; [discriminate | eauto]. }
      destruct Hpay as (kv & rest & Hpay).
      cbn -[String.append Sample.find_collection Sample.find_point].
      assert (Hhandle :
        w_client (ensure_client config Points
                    (World (w_client (ensure_client config Points w)) st1)) =
        w_client (ensure_client config Points w)).
      { apply ensure_client_again. }
      rewrite ensure_client_backend. simpl w_backend.
      unfold Sample.with_collection. rewrite Hfind1. simpl Sample.cs_points.
      rewrite find_point_put.
      cbn -[String.append]. rewrite Hpay. cbn -[String.append].
      rewrite Hhandle. reflexivity.
    + intros Hnot Heq.
      rewrite (to_uuid_value (PStr caller_id)) in Hnorm. simpl py_str in Hnorm.
      rewrite Hnot in Hnorm. injection Hnorm as Hn.
      specialize (Hlaw caller_id). rewrite Hn, Heq, Hnot in Hlaw. discriminate.
Qed.

End RoundTrip.

(** ** Scrolling *)

Section Scroll.
Context `{PyLib} (config : AppConfig) {B : Type} (h : handler B).



End Scroll.

(** ** The sample library *)

(** The test vector of the [uuid] documentation. *)
Example uuid5_python_org :
  Sample.uuid5 Sample.NAMESPACE_DNS "python.org" = "886313e1-3b8a-5372-9b90-0c9aee199e5d".
Proof. vm_compute. reflexivity. Qed.

Lemma is_hex_hexchar (n : nat) : Sample.is_hex (Sample.hexchar n) = true.
Proof. do 16 (destruct n as [| n]; [reflexivity |]). reflexivity. Qed.

Lemma is_hex_hi (b : Z) : Sample.is_hex (Sample.hex_hi b) = true.
Proof. apply is_hex_hexchar. Qed.

Lemma is_hex_lo (b : Z) : Sample.is_hex (Sample.hex_lo b) = true.
Proof. apply is_hex_hexchar. Qed.

(** A version 5 identifier always prints in the canonical form, which
    the sample parser accepts. *)
Lemma uuid5_canonical (namespace : list Z) (name : string) :
  Sample.canonical_uuid (Sample.uuid5 namespace name) = true.
Proof.
  unfold Sample.uuid5, Sample.sha1.
  destruct (fold_left Sample.sha1_block _ _) as [[[[h0 h1] h2] h3] h4].
  cbn -[Sample.hex_hi Sample.hex_lo Sample.is_hex Z.land Z.shiftr Z.lor Z.mul Z.of_nat].
  rewrite !is_hex_hi, !is_hex_lo. reflexivity.
Qed.

(** ** Concrete runs *)

Lemma delete_collection_confirm_witness :
  run Sample.config Sample.backend (delete_collection "docs" false)
      (Sample.boot Sample.docs) =
    (Ok (ToolError "Deletion requires confirm=true to prevent accidental data loss"),
     Sample.boot Sample.docs, [])
  /\
  run Sample.config Sample.backend (delete_collection "docs" true)
      (Sample.boot Sample.docs) =
    (Ok (ToolResponse [("message", PStr "Collection 'docs' deleted successfully");
                       ("deleted_points", PInt 2)]),
     World (w_client (ensure_client Sample.config Collections (Sample.boot Sample.docs)))
           [],
     [client_get_collections; client_get_collection "docs";
      client_delete_collection "docs"]).
Proof.
  destruct (delete_collection_confirm Sample.config Sample.backend "docs"
              (Sample.boot Sample.docs)) as [Hrefused Hdeleted].
  split; [exact Hrefused |].
  apply (Hdeleted {| collections := [{| cd_name := "docs" |}] |}
                  (Sample.info_of {| Sample.cs_vectors := [("text-dense",
                                       {| vp_size := 2; vp_distance := DOT;
                                          vp_on_disk := false |})];
                                     Sample.cs_points :=
                                       [{| ps_id := "886313e1-3b8a-5372-9b90-0c9aee199e5d";
                                           ps_vector := PDict [("text-dense",
                                                                PList [PInt 1; PInt 0])];
                                           ps_payload := [("original_id",
                                                           PStr "python.org")] |};
                                        {| ps_id := "eea9cb72-744e-5814-a929-652d970d86ac";
                                           ps_vector := PDict [("text-dense",
                                                                PList [PInt 0; PInt 1])];
                                           ps_payload := [("original_id",
                                                           PStr "doc-1")] |}] |})
                  true Sample.docs Sample.docs []);
    reflexivity.
Defined.

(** The claim C3 makes for every supplied pair fails when the supplied
    [ids] list is empty: the deletion then goes by the filter. *)
Lemma delete_points_empty_ids_by_filter :
  ~ (forall (collection : string) (ids : list string) (filter : dict) (wait : bool),
       exists (uuid_ids : list string),
         snd (run Sample.config Sample.backend
                  (delete_points collection (Some ids) (Some filter) wait)
                  (Sample.boot Sample.docs)) =
           [client_delete collection (Some (PointIdsList uuid_ids)) wait]).
Proof.
  intros Hclaim.
  destruct (Hclaim "docs" [] [("must", PList [])] true) as [uuid_ids Htrace].
  vm_compute in Htrace. discriminate Htrace.
Qed.

Lemma upsert_points_batch_witness :
  (exists message,
     run Sample.config Sample.backend
         (upsert_points "kb" [[("id", PStr "a"); ("vector", PList [PInt 1])];
                              [("id", PStr "b")]] true)
         (Sample.boot Sample.kb) =
       (Ok (ToolError message), ensure_client Sample.config Points (Sample.boot Sample.kb),
        []))
  /\
  (exists (res : result envelope) (w' : world Sample.store),
     run Sample.config Sample.backend
         (upsert_points "kb" [[("id", PStr "doc-1"); ("vector", PList [PInt 1; PInt 0])]]
                        true)
         (Sample.boot Sample.kb) =
       (res, w',
        [client_upsert "kb"
           [{| ps_id := "eea9cb72-744e-5814-a929-652d970d86ac";
               ps_vector := PDict [("text-dense", PList [PInt 1; PInt 0])];
               ps_payload := [("original_id", PStr "doc-1")] |}]
           true])).
Proof.
  destruct (upsert_points_batch Sample.config Sample.backend "kb" true
              (Sample.boot Sample.kb)) as (Hmissing & _ & Hvalid).
  split.
  - apply Hmissing. apply Exists_cons_tl, Exists_cons_hd. right. reflexivity.
  - apply Hvalid; [discriminate |].
    constructor; [vm_compute; reflexivity | constructor].
Defined.

Lemma original_id_round_trip_witness :
  exists (w1 : world Sample.store),
    run Sample.config Sample.backend
        (upsert_points "kb" [[("id", PStr "doc-1"); ("vector", PList [PInt 1; PInt 0])]]
                       true)
        (Sample.boot Sample.kb) =
      (Ok (ToolResponse [("collection", PStr "kb");
                         ("upserted_count", PInt 1);
                         ("operation", PStr "upsert")]),
       w1,
       [client_upsert "kb"
          [{| ps_id := "eea9cb72-744e-5814-a929-652d970d86ac";
              ps_vector := PDict [("text-dense", PList [PInt 1; PInt 0])];
              ps_payload := [("original_id", PStr "doc-1")] |}]
          true]) /\
    run Sample.config Sample.backend (get_points "kb" ["doc-1"] true false) w1 =
      (Ok (ToolResponse
             [("collection", PStr "kb");
              ("points", PList [PDict [("id", PStr "eea9cb72-744e-5814-a929-652d970d86ac");
                                       ("payload", PDict [("original_id", PStr "doc-1")])]]);
              ("found_count", PInt 1);
              ("requested_count", PInt 1)]),
       w1, [client_retrieve "kb" ["eea9cb72-744e-5814-a929-652d970d86ac"] true false]) /\
    "eea9cb72-744e-5814-a929-652d970d86ac" <> "doc-1".
Proof.
  destruct (proj2 (original_id_round_trip Sample.config)
              (Sample.boot Sample.kb) "kb"
              {| Sample.cs_vectors := [("text-dense",
                                        {| vp_size := 4; vp_distance := COSINE;
                                           vp_on_disk := false |})];
                 Sample.cs_points := [] |}
              "doc-1"
              [("id", PStr "doc-1"); ("vector", PList [PInt 1; PInt 0])]
              {| ps_id := "eea9cb72-744e-5814-a929-652d970d86ac";
                 ps_vector := PDict [("text-dense", PList [PInt 1; PInt 0])];
                 ps_payload := [("original_id", PStr "doc-1")] |}
              true)
    as (w1 & Hup & Hget & _ & _ & Hdiff).
  - reflexivity.
  - reflexivity.
  - vm_compute. reflexivity.
  - intros name. apply uuid5_canonical.
  - exists w1. split; [exact Hup |]. split; [exact Hget |].
    apply Hdiff. reflexivity.
Defined.


Lemma create_collection_existing_witness :
  run Sample.config Sample.backend (create_collection "kb" 4 "cosine" false 16 100 false)
      (Sample.boot Sample.kb) =
    (Ok (ToolError "Collection 'kb' already exists"),
     World (w_client (ensure_client Sample.config Collections (Sample.boot Sample.kb)))
           Sample.kb,
     [client_get_collections]).
Proof.
  apply (create_collection_existing Sample.config Sample.backend "kb" 4 "cosine" false
           16 100 false (Sample.boot Sample.kb)
           {| collections := [{| cd_name := "kb" |}] |} Sample.kb);
    reflexivity.
Defined.

Lemma create_collection_distance_witness :
  exists (d : Distance) (res : result envelope) (w' : world Sample.store),
    run Sample.config Sample.backend
        (create_collection "notes" 384 "EuClId" false 16 100 false)
        (Sample.boot Sample.kb) =
      (res, w',
       [client_get_collections;
        client_create_collection "notes"
          [("text-dense", {| vp_size := 384; vp_distance := d; vp_on_disk := false |})]
          None
          {| hd_m := Some 16; hd_ef_construct := Some 100 |}])
    /\ d = EUCLID
    /\ exists data, res = Ok (ToolResponse data).
Proof.
  destruct (create_collection_distance Sample.config Sample.backend "notes" 384
              "EuClId" false 16 100 false (Sample.boot Sample.kb)
              {| collections := [{| cd_name := "kb" |}] |} Sample.kb)
    as (d & res & w' & Hrun & Hd & Hok); [reflexivity | reflexivity |].
  assert (Heuclid : d = EUCLID).
  { destruct Hd as [[Hl _] | [[_ Hd] | [[Hl _] | (_ & Hl & _)]]];
      [vm_compute in Hl; discriminate Hl | exact Hd
       | vm_compute in Hl; discriminate Hl | vm_compute in Hl; discriminate Hl]. }
  subst d.
  exists EUCLID, res, w'. split; [exact Hrun |]. split; [reflexivity |].
  apply (Hok true
           (Sample.kb ++ [("notes",
                           {| Sample.cs_vectors :=
                                [("text-dense", {| vp_size := 384; vp_distance := EUCLID;
                                                   vp_on_disk := false |})];
                              Sample.cs_points := [] |})])%list).
    reflexivity.
Defined.

Lemma to_uuid_str_surrogate_witness :
  (exists text, _to_uuid_str [55296] = Err (ValueError text)) /\
  _to_uuid_str [100; 111; 99; 45; 49] = Ok "eea9cb72-744e-5814-a929-652d970d86ac".
Proof.
  split.
  - apply (proj1 (to_uuid_str_surrogate [55296])). reflexivity.
  - destruct (proj2 (to_uuid_str_surrogate [100; 111; 99; 45; 49]) eq_refl)
      as (text & Henc & Hrun).
    rewrite Hrun. vm_compute in Henc. injection Henc as <-.
    vm_compute. reflexivity.
Defined.

(** * Further properties of the tools *)

(** ** Collection management *)

Section MoreCollections.
Context `{PyLib} (config : AppConfig) {B : Type} (h : handler B).

(** X1. An update that names no parameter is refused: the reply is the
    error "No update parameters provided", no request is issued and the
    backend is left as it was. *)
Theorem update_collection_nothing (name : string) (w : world B) :
  run config h (update_collection name None None None None) w =
    (Ok (ToolError "No update parameters provided"),
     ensure_client config Collections w, [])
  /\ w_backend (ensure_client config Collections w) = w_backend w.
Proof. split; [reflexivity | apply ensure_client_backend]. Qed.

(** X2. An update that names at least one parameter issues exactly one
    request. Its index part is absent exactly when neither index
    parameter was given, its optimizer part is absent exactly when
    neither optimizer parameter was given, and a part that is present
    carries the parameters as given, the missing one left null. *)
Theorem update_collection_partial (name : string) (hnsw_m hnsw_ef_construct : option Z)
        (indexing_threshold flush_interval_sec : option Z) (w : world B) :
  hnsw_m <> None \/ hnsw_ef_construct <> None \/
  indexing_threshold <> None \/ flush_interval_sec <> None ->
  exists (hc : option HnswConfigDiff) (oc : option OptimizersConfigDiff)
         (res : result envelope) (w' : world B),
    run config h (update_collection name hnsw_m hnsw_ef_construct
                                    indexing_threshold flush_interval_sec) w =
      (res, w', [client_update_collection name hc oc None]) /\
    (hc = None <-> hnsw_m = None /\ hnsw_ef_construct = None) /\
    (oc = None <-> indexing_threshold = None /\ flush_interval_sec = None) /\
    (forall c, hc = Some c -> hd_m c = hnsw_m /\ hd_ef_construct c = hnsw_ef_construct) /\
    (forall c, oc = Some c ->
               od_indexing_threshold c = indexing_threshold /\
               od_flush_interval_sec c = flush_interval_sec).
Proof.
  intros Hsome.
  assert (Hreply : forall hc oc,
    exists res w',
      run config h
        (try_except
           (get_client Collections ;;
            await (client_update_collection name hc oc None) ;;
            Ret (ToolResponse
                   [("message", PStr ("Collection '" +:+ name +:+ "' updated successfully"));
                    ("updates", PDict [("hnsw_m", POpt PInt hnsw_m);
                                       ("hnsw_ef_construct", POpt PInt hnsw_ef_construct);
                                       ("indexing_threshold", POpt PInt indexing_threshold);
                                       ("flush_interval_sec",
                                         POpt PInt flush_interval_sec)])]))
           (on_error name "Failed to update collection")) w =
      (res, w', [client_update_collection name hc oc None])).
  { intros hc oc. cbn -[String.append POpt].
    destruct (h _ (w_backend (ensure_client config Collections w))) as [[ok | e] b'].
    - eexists _, _. reflexivity.
    - destruct e as [code t | | | | |]; cbn -[String.append POpt];
        [destruct (code =? 404) |..]; eexists _, _; reflexivity. }
  set (hc := match hnsw_m, hnsw_ef_construct with
             | None, None => None
             | _, _ => Some {| hd_m := hnsw_m; hd_ef_construct := hnsw_ef_construct |}
             end).
  set (oc := match indexing_threshold, flush_interval_sec with
             | None, None => None
             | _, _ => Some {| od_indexing_threshold := indexing_threshold;
                               od_flush_interval_sec := flush_interval_sec |}
             end).
  destruct (Hreply hc oc) as (res & w' & Hrun).
  exists hc, oc, res, w'.
  split.
  - rewrite <- Hrun. unfold update_collection. fold hc. fold oc.
    destruct hc as [c1 |] eqn:Ehc, oc as [c2 |] eqn:Eoc; try reflexivity.
    exfalso. unfold hc in Ehc. unfold oc in Eoc.
    destruct hnsw_m, hnsw_ef_construct, indexing_threshold, flush_interval_sec;
      try discriminate.
    destruct Hsome as [Hs | [Hs | [Hs | Hs]]]; congruence.
  - unfold hc, oc.
    destruct hnsw_m, hnsw_ef_construct, indexing_threshold, flush_interval_sec;
      (split; [split; [discriminate || auto | intros [? ?]; discriminate || reflexivity] |]);
      (split; [split; [discriminate || auto | intros [? ?]; discriminate || reflexivity] |]);
      (split; intros c Hc; [| ]; try discriminate; injection Hc as <-; auto).
Qed.

(** X3. A confirmed deletion of a collection the listing does not show
    is refused with "does not exist": the listing is the only request,
    neither the detail lookup nor the deletion is issued. *)
Theorem delete_collection_missing (name : string) (w : world B)
        (cs : CollectionsResponse) (b1 : B) :
  h client_get_collections (w_backend w) = (Ok cs, b1) ->
  name_in name cs = false ->
  run config h (delete_collection name true) w =
    (Ok (ToolError ("Collection '" +:+ name +:+ "' does not exist")),
     World (w_client (ensure_client config Collections w)) b1,
     [client_get_collections]).
Proof.
  intros Hlist Hin.
  cbn -[String.append name_in].
  rewrite ensure_client_backend, Hlist. cbn -[String.append name_in].
  rewrite Hin. reflexivity.
Qed.

End MoreCollections.

(** ** Awaiting a request *)

Section Await.
Context (config : AppConfig) {B : Type} (h : handler B).

Lemma run_await {A} (r : request) (f : response r -> prog A) (w : world B) :
  run config h (bind (await r) f) w =
    match h r (w_backend w) with
    | (Ok v, b') =>
        let '(res, w', tr) := run config h (f v) (World (w_client w) b') in
        (res, w', r :: tr)
    | (Err e, b') => (Err e, World (w_client w) b', [r])
    end.
Proof.
  unfold await. cbn [bind run].
  destruct (h r (w_backend w)) as [[v | e] b']; reflexivity.
Qed.

Lemma run_get_client {A} (m : tool_module) (f : unit -> prog A) (w : world B) :
  run config h (bind (get_client m) f) w = run config h (f tt) (ensure_client config m w).
Proof. reflexivity. Qed.

End Await.

(** ** Listings that degrade instead of aborting *)

Section Listings.
Context `{PyLib} (config : AppConfig) {B : Type} (h : handler B).

(** One lookup per name is answered, whatever the answers are. *)
Lemma lookup_answers_length (names : list string) :
  forall b : B, length (fst (lookup_answers h names b)) = length names.
Proof.
  induction names as [| name names IH]; intros b; simpl; [reflexivity |].
  destruct (h (client_get_collection name) b) as [answer b1].
  specialize (IH b1).
  destruct (lookup_answers h names b1) as [answers b2].
  simpl in *. rewrite IH. reflexivity.
Qed.

(** The listing loop turns each lookup's own answer into that
    collection's entry: the full entry from the information returned, the
    degraded one when the lookup raised. *)
Lemma list_collections_loop_run (cs : list CollectionDescription) :
  forall (acc : list dict) (w : world B),
    run config h (list_collections_loop cs acc) w =
      (Ok (acc ++
           map (fun ca : CollectionDescription * result CollectionInfo =>
                  match snd ca with
                  | Ok info =>
                      [("name", PStr (cd_name (fst ca)));
                       ("status", value_or_unknown (ci_status info));
                       ("points_count", POpt PInt (ci_points_count info));
                       ("vectors_count", POpt PInt (ci_vectors_count info));
                       ("indexed_vectors_count",
                         POpt PInt (ci_indexed_vectors_count info));
                       ("segments_count", POpt PInt (ci_segments_count info))]
                  | Err _ =>
                      [("name", PStr (cd_name (fst ca)));
                       ("status", PStr "unknown");
                       ("points_count", PInt 0)]
                  end)
               (combine cs (fst (lookup_answers h (map cd_name cs) (w_backend w)))))%list,
       World (w_client w) (snd (lookup_answers h (map cd_name cs) (w_backend w))),
       map (fun c => client_get_collection (cd_name c)) cs).
Proof.
  induction cs as [| c cs IH]; intros acc w.
  - simpl. rewrite app_nil_r. destruct w; reflexivity.
  - cbn [list_collections_loop]. rewrite run_bind.
    unfold list_collections_entry at 1.
    cbn -[String.append list_collections_loop lookup_answers].
    cbn [lookup_answers map].
    destruct (h (client_get_collection (cd_name c)) (w_backend w)) as [[info | e] b1];
      cbn -[String.append list_collections_loop lookup_answers];
      rewrite IH; cbn [w_backend w_client];
      destruct (lookup_answers h (map cd_name cs) b1) as [answers b2];
      cbn -[String.append]; rewrite <- app_assoc; reflexivity.
Qed.

(** X4. Once the backend has listed its collections, [list_collections]
    always answers with a success envelope, whatever the per-collection
    lookups do. One lookup is issued per listed collection, in order, and
    each reply entry is built from the answer to that collection's own
    lookup: the full entry, with the status and the counts the lookup
    returned, when it answered, and the degraded entry (status
    "unknown", zero points) exactly when it raised. [total_count] is the
    number of collections listed, and the backend is left as the last
    lookup left it. *)
Theorem list_collections_complete (w : world B) (cs : CollectionsResponse) (b1 : B) :
  h client_get_collections (w_backend w) = (Ok cs, b1) ->
  run config h list_collections w =
    (Ok (ToolResponse
           [("collections",
              PList (map PDict
                (map (fun ca : CollectionDescription * result CollectionInfo =>
                        match snd ca with
                        | Ok info =>
                            [("name", PStr (cd_name (fst ca)));
                             ("status", value_or_unknown (ci_status info));
                             ("points_count", POpt PInt (ci_points_count info));
                             ("vectors_count", POpt PInt (ci_vectors_count info));
                             ("indexed_vectors_count",
                               POpt PInt (ci_indexed_vectors_count info));
                             ("segments_count", POpt PInt (ci_segments_count info))]
                        | Err _ =>
                            [("name", PStr (cd_name (fst ca)));
                             ("status", PStr "unknown");
                             ("points_count", PInt 0)]
                        end)
                     (combine (collections cs)
                        (fst (lookup_answers h (map cd_name (collections cs)) b1))))));
            ("total_count", PInt (Z.of_nat (length (collections cs))))]),
     World (w_client (ensure_client config Collections w))
           (snd (lookup_answers h (map cd_name (collections cs)) b1)),
     client_get_collections
       :: map (fun c => client_get_collection (cd_name c)) (collections cs))
  /\
  length (fst (lookup_answers h (map cd_name (collections cs)) b1)) =
    length (collections cs).
Proof.
  intros Hlist. split.
  - unfold list_collections.
    rewrite run_try_except, run_get_client, run_await, ensure_client_backend, Hlist.
    rewrite run_bind, list_collections_loop_run.
    cbn -[String.append lookup_answers combine].
    unfold PLen.
    rewrite length_map, length_combine, lookup_answers_length, length_map, Nat.min_id.
    rewrite app_nil_r. reflexivity.
  - rewrite lookup_answers_length. apply length_map.
Qed.

(** The accumulation loop of [get_cluster_info] never fails either. *)
Lemma cluster_loop_run (cs : list CollectionDescription) :
  forall (total_points total_vectors : Z) (acc : list dict) (w : world B),
  exists (tp tv : Z) (entries : list dict) (b' : B),
    run config h (cluster_loop cs total_points total_vectors acc) w =
      (Ok (tp, tv, (acc ++ entries)%list), World (w_client w) b',
       map (fun c => client_get_collection (cd_name c)) cs) /\
    map (dict_get "name") entries = map (fun c => Some (PStr (cd_name c))) cs.
Proof.
  induction cs as [| c cs IH]; intros tp0 tv0 acc w.
  - exists tp0, tv0, [], (w_backend w). simpl. rewrite app_nil_r. destruct w; auto.
  - cbn [cluster_loop]. rewrite run_bind.
    cbn -[String.append cluster_loop].
    destruct (h (client_get_collection (cd_name c)) (w_backend w)) as [[info | e] b1];
      cbn -[String.append cluster_loop];
      match goal with
      | |- context [cluster_loop cs ?a ?b ?l] =>
          destruct (IH a b l (World (w_client w) b1))
            as (tp & tv & entries & b2 & Hloop & Hnames);
          rewrite Hloop
      end;
      eexists tp, tv, (_ :: entries), b2; simpl;
      rewrite <- app_assoc; simpl; (split; [reflexivity |]);
      rewrite Hnames; reflexivity.
Qed.

(** X5. [get_cluster_info] survives an unreachable HTTP root and failing
    detail lookups: when the raw probe raises and the backend lists its
    collections, the reply is a success envelope with version "unknown"
    and title "Qdrant", [collections_count] is the number of collections
    listed, and there is one summary per collection, in order. *)
Theorem get_cluster_info_degrades (w : world B) (e : exn) (b0 b1 : B)
        (cs : CollectionsResponse) :
  h (http_get (url (qdrant config) +:+ "/") 10)
    (w_backend (ensure_client config Admin w)) = (Err e, b0) ->
  h client_get_collections b0 = (Ok cs, b1) ->
  exists (total_points total_vectors : Z) (summaries : list dict) (w' : world B),
    run config h (get_cluster_info config) w =
      (Ok (ToolResponse
             [("url", PStr (url (qdrant config)));
              ("version", PStr "unknown");
              ("title", PStr "Qdrant");
              ("collections_count", PInt (Z.of_nat (length (collections cs))));
              ("total_points", PInt total_points);
              ("total_vectors", PInt total_vectors);
              ("collections", PList (map PDict summaries))]),
       w',
       http_get (url (qdrant config) +:+ "/") 10
         :: client_get_collections
         :: map (fun c => client_get_collection (cd_name c)) (collections cs)) /\
    map (dict_get "name") summaries =
      map (fun c => Some (PStr (cd_name c))) (collections cs).
Proof.
  intros Hprobe Hlist. unfold get_cluster_info.
  cbn [run bind await get_client try_except lift].
  rewrite Hprobe.
  cbn [run bind await get_client try_except lift w_backend w_client].
  rewrite Hlist.
  cbn [run bind await get_client try_except lift w_backend w_client].
  rewrite run_try_except, run_bind.
  destruct (cluster_loop_run (collections cs) 0 0 []
              (World (w_client (ensure_client config Admin w)) b1))
    as (tp & tv & summaries & b2 & Hloop & Hnames).
  rewrite Hloop. cbn -[String.append].
  rewrite app_nil_r. eexists tp, tv, summaries, _. split; [reflexivity | exact Hnames].
Qed.

End Listings.

(** ** Batches *)

Lemma dict_get_set_ne (k k' : string) (v : pyval) (d : dict) :
  k' <> k -> dict_get k' (dict_set k v d) = dict_get k' d.
Proof.
  intros Hne. induction d as [| [k0 v0] d IH]; simpl.
  - destruct (String.eqb_spec k' k); [contradiction | reflexivity].
  - destruct (String.eqb_spec k k0) as [-> | Hk]; simpl.
    + destruct (String.eqb_spec k' k0); [contradiction | reflexivity].
    + destruct (String.eqb k' k0); [reflexivity | exact IH].
Qed.

Section Batches.
Context `{PyLib} (config : AppConfig) {B : Type} (h : handler B).

(** X6. The three batch tools refuse an empty batch themselves: an empty
    point list, an empty query list and an empty list of positive
    examples each give their own error, and no request is issued. *)
Theorem empty_batches_refused (collection vector_name : string) (wait with_payload : bool)
        (negative : option (list string)) (limit : Z) (score_threshold : option float64)
        (filter : option dict) (w : world B) :
  run config h (upsert_points collection [] wait) w =
    (Ok (ToolError "No points provided"), ensure_client config Points w, [])
  /\
  run config h (search_batch collection [] vector_name with_payload) w =
    (Ok (ToolError "No queries provided"), ensure_client config Search w, [])
  /\
  run config h (recommend_points collection [] negative limit score_threshold filter
                                 vector_name with_payload) w =
    (Ok (ToolError "At least one positive example is required"),
     ensure_client config Search w, []).
Proof. repeat split. Qed.

(** The payload a converted point carries is the caller's, with
    [original_id] set. *)
Lemma convert_point_payload (p : dict) (ps : PointStruct) :
  convert_point p = Ok (inr ps) ->
  exists id,
    dict_get "id" p = Some id /\
    ((dict_get "payload" p = None /\ ps_payload ps = [("original_id", id)]) \/
     (exists d, dict_get "payload" p = Some (PDict d) /\
                ps_payload ps = dict_set "original_id" id d)).
Proof.
  unfold convert_point. intros Hc.
  destruct (dict_get "id" p) as [id |]; [| destruct (dict_get "vector" p); discriminate].
  destruct (dict_get "vector" p) as [vector |]; [| discriminate].
  exists id. split; [reflexivity |].
  destruct (_to_uuid id) as [point_id |]; simpl in Hc; [| discriminate].
  unfold dict_get_default in Hc.
  destruct (dict_get "payload" p) as [[| | | | | | d] |]; simpl in Hc; try discriminate.
  - unfold PointStruct_ctor, checked in Hc.
    destruct (PointStruct_check _ _ _); simpl in Hc; [discriminate |].
    injection Hc as <-. right. exists d. split; reflexivity.
  - unfold PointStruct_ctor, checked in Hc.
    destruct (PointStruct_check _ _ _); simpl in Hc; [discriminate |].
    injection Hc as <-. left. split; reflexivity.
Qed.

(** X7. What an accepted batch hands to the backend keeps the caller's
    data: every payload key other than [original_id] has the value the
    caller gave it, a point without payload gets the payload holding
    [original_id] alone, a mapping of named vectors is passed as it is,
    and the points are sent in the caller's order, one for one. *)
Theorem upsert_points_keeps_payload (collection : string) (points : list dict)
        (qdrant_points : list PointStruct) (wait : bool) (w : world B) :
  points <> [] ->
  Forall2 (fun p ps => convert_point p = Ok (inr ps)) points qdrant_points ->
  (exists (res : result envelope) (w' : world B),
     run config h (upsert_points collection points wait) w =
       (res, w', [client_upsert collection qdrant_points wait])) /\
  Forall2 (fun p ps =>
             (forall d k, dict_get "payload" p = Some (PDict d) -> k <> "original_id" ->
                          dict_get k (ps_payload ps) = dict_get k d) /\
             (forall id, dict_get "payload" p = None -> dict_get "id" p = Some id ->
                         ps_payload ps = [("original_id", id)]) /\
             (forall named, dict_get "vector" p = Some (PDict named) ->
                            ps_vector ps = PDict named))
          points qdrant_points.
Proof.
  intros Hne Hall. split.
  - destruct (upsert_points_issues config h collection points qdrant_points wait w
                Hne Hall) as (res & w' & Hrun & _). eauto.
  - eapply Forall2_impl; [exact Hall |].
    intros p ps Hp. simpl in Hp.
    destruct (convert_point_payload p ps Hp) as (id & Hid & Hpay).
    destruct (convert_point_shape p ps Hp) as (id' & vector & _ & Hvec & _ & Hslot & _).
    split; [| split].
    + intros d k Hd Hk.
      destruct Hpay as [[Hnone _] | (d' & Hd' & ->)]; [congruence |].
      rewrite Hd in Hd'. injection Hd' as <-. apply dict_get_set_ne, Hk.
    + intros id0 Hnone Hid0.
      destruct Hpay as [[_ ->] | (d' & Hd' & _)]; [congruence | congruence].
    + intros named Hnamed. rewrite Hnamed in Hvec. injection Hvec as <-. exact Hslot.
Qed.

End Batches.

(** ** Batched search *)

Section SearchBatch.
Context `{PyLib} (config : AppConfig) {B : Type} (h : handler B).

Lemma build_search_request_shape (vector_name : string) (with_payload : bool)
      (q : dict) (rq : SearchRequest) :
  build_search_request vector_name with_payload q = Ok (inr rq) ->
  exists vector,
    dict_get "vector" q = Some vector /\
    sr_vector rq = {| nv_name := vector_name; nv_vector := vector |} /\
    sr_limit rq = dict_get_default "limit" (PInt 10) q /\
    sr_score_threshold rq = dict_get_default "score_threshold" PNone q /\
    sr_with_payload rq = with_payload /\
    sr_with_vector rq = false.
Proof.
  unfold build_search_request. intros Hb.
  destruct (dict_get "vector" q) as [vector |]; [| discriminate].
  exists vector. split; [reflexivity |].
  unfold NamedVector_ctor, checked in Hb.
  destruct (NamedVector_check vector_name vector); simpl in Hb; [discriminate |].
  destruct (query_filter_of q) as [filter |]; simpl in Hb; [| discriminate].
  destruct (SearchRequest_check _ _ _); simpl in Hb; [discriminate |].
  injection Hb as <-. simpl. repeat split.
Qed.

Lemma build_search_requests_all (vector_name : string) (with_payload : bool)
      (queries : list dict) (new acc : list SearchRequest) :
  Forall2 (fun q rq => build_search_request vector_name with_payload q = Ok (inr rq))
          queries new ->
  build_search_requests vector_name with_payload queries acc = Ok (inr (acc ++ new)%list).
Proof.
  intros Hall. revert acc.
  induction Hall as [| q rq queries new Hq _ IH]; simpl; intros acc.
  - rewrite app_nil_r. reflexivity.
  - rewrite Hq. simpl. rewrite IH, <- app_assoc. reflexivity.
Qed.

Lemma build_search_requests_first_missing (vector_name : string) (with_payload : bool)
      (good : list dict) (new : list SearchRequest) (bad : dict) (rest : list dict)
      (acc : list SearchRequest) :
  Forall2 (fun q rq => build_search_request vector_name with_payload q = Ok (inr rq))
          good new ->
  dict_in "vector" bad = false ->
  build_search_requests vector_name with_payload (good ++ bad :: rest) acc =
    Ok (inl (ToolError "Each query must have a 'vector' field")).
Proof.
  intros Hall Hbad. revert acc.
  induction Hall as [| q rq good new Hq _ IH]; simpl; intros acc.
  - unfold build_search_request. apply dict_in_get in Hbad. rewrite Hbad. reflexivity.
  - rewrite Hq. simpl. apply IH.
Qed.

(** X8. A batch in which some query lacks 'vector', the queries before
    it being well formed, is refused as a whole with the validation
    message and no request. A batch whose queries all build issues one
    batch request holding one search per query, in the caller's order:
    each searches the caller's vector under the given vector name, keeps
    its own limit (10 when absent) and score threshold, and never asks
    for vectors back. When the backend answers, the reply holds one
    result list per answered list, in order, and [query_count] is the
    number of queries. *)
Theorem search_batch_requests (collection vector_name : string) (with_payload : bool)
        (w : world B) :
  (forall (good : list dict) (new : list SearchRequest) (bad : dict) (rest : list dict),
     Forall2 (fun q rq => build_search_request vector_name with_payload q = Ok (inr rq))
             good new ->
     dict_in "vector" bad = false ->
     run config h (search_batch collection (good ++ bad :: rest) vector_name
                                with_payload) w =
       (Ok (ToolError "Each query must have a 'vector' field"),
        ensure_client config Search w, []))
  /\
  (forall (queries : list dict) (search_requests : list SearchRequest),
     queries <> [] ->
     Forall2 (fun q rq => build_search_request vector_name with_payload q = Ok (inr rq))
             queries search_requests ->
     exists (res : result envelope) (w' : world B),
       run config h (search_batch collection queries vector_name with_payload) w =
         (res, w', [client_search_batch collection search_requests]) /\
       Forall2 (fun q rq =>
                  dict_get "vector" q = Some (nv_vector (sr_vector rq)) /\
                  nv_name (sr_vector rq) = vector_name /\
                  sr_limit rq = dict_get_default "limit" (PInt 10) q /\
                  sr_score_threshold rq = dict_get_default "score_threshold" PNone q /\
                  sr_with_vector rq = false)
               queries search_requests /\
       forall (results : list (list ScoredPoint)) (b' : B),
         h (client_search_batch collection search_requests)
           (w_backend (ensure_client config Search w)) = (Ok results, b') ->
         res = Ok (ToolResponse
                     [("collection", PStr collection);
                      ("batch_results",
                        PList (map (fun query_results =>
                                      PList (map (fun point =>
                                                    PDict (scored_point_data with_payload
                                                                             false point))
                                                 query_results))
                                   results));
                      ("query_count", PInt (Z.of_nat (length queries)))])).
Proof.
  split.
  - intros good new bad rest Hall Hbad. unfold search_batch.
    pose proof (build_search_requests_first_missing vector_name with_payload
                  good new bad rest [] Hall Hbad) as Hb.
    destruct (good ++ bad :: rest)%list as [| q qs] eqn:Hl;
      [destruct good; discriminate |].
    rewrite Hb. reflexivity.
  - intros queries search_requests Hne Hall. unfold search_batch.
    destruct queries as [| q qs]; [congruence |].
    rewrite (build_search_requests_all vector_name with_payload (q :: qs)
               search_requests [] Hall).
    cbn -[String.append PLen scored_point_data map].
    assert (Hshape :
      Forall2 (fun q0 rq =>
                 dict_get "vector" q0 = Some (nv_vector (sr_vector rq)) /\
                 nv_name (sr_vector rq) = vector_name /\
                 sr_limit rq = dict_get_default "limit" (PInt 10) q0 /\
                 sr_score_threshold rq = dict_get_default "score_threshold" PNone q0 /\
                 sr_with_vector rq = false)
              (q :: qs) search_requests).
    { eapply Forall2_impl; [exact Hall |].
      intros q0 rq Hq. simpl in Hq.
      destruct (build_search_request_shape vector_name with_payload q0 rq Hq)
        as (vector & Hv & Hnv & Hl & Ht & _ & Hwv).
      rewrite Hnv. simpl. auto. }
    destruct (h _ (w_backend (ensure_client config Search w))) as [[results | e] b1].
    + eexists _, _. split; [reflexivity |]. split; [exact Hshape |].
      intros results' b' Hr. injection Hr as <- <-. reflexivity.
    + destruct e as [code t | | | | |]; cbn -[String.append PLen scored_point_data map];
        [destruct (code =? 404) |..]; eexists _, _;
        (split; [reflexivity |]); (split; [exact Hshape |]);
        intros results' b' Hr; discriminate.
Qed.

End SearchBatch.

(** ** Filters *)

Section Filters.
Context `{PyLib} (config : AppConfig) {B : Type} (h : handler B).

(** X9. No filter means "match all", and so does an empty one: with the
    filter argument absent or [{}], the count, scroll and search requests
    carry no filter. *)
Theorem absent_filter_matches_all (collection : string) (exact : bool) (limit : Z)
        (offset : option string) (with_payload with_vector : bool)
        (vector : list float64) (score_threshold : option float64)
        (vector_name : string) (filter : option dict) (w : world B) :
  filter = None \/ filter = Some [] ->
  (exists res w',
     run config h (count_points collection exact filter) w =
       (res, w', [client_count collection None exact])) /\
  (exists res w',
     run config h (scroll_points collection limit offset filter with_payload
                                 with_vector) w =
       (res, w', [client_scroll collection limit offset None with_payload with_vector])) /\
  (NamedVector_check vector_name (PList (map PFloat vector)) = None ->
   exists res w',
     run config h (search_vectors collection vector limit score_threshold filter
                                  vector_name with_payload with_vector) w =
       (res, w',
        [client_search collection
           {| nv_name := vector_name; nv_vector := PList (map PFloat vector) |}
           limit score_threshold None with_payload with_vector])).
Proof.
  intros Hfilter.
  assert (Hk : forall k, with_filter filter k = k None).
  { intros k. destruct Hfilter as [-> | ->]; reflexivity. }
  split; [| split].
  - unfold count_points. rewrite Hk.
    cbn -[String.append].
    destruct (h _ (w_backend (ensure_client config Points w))) as [[r | e] b'].
    + eexists _, _. reflexivity.
    + destruct e as [code t | | | | |]; cbn -[String.append];
        [destruct (code =? 404) |..]; eexists _, _; reflexivity.
  - unfold scroll_points. rewrite Hk.
    cbn -[String.append PLen point_data map].
    destruct (h _ (w_backend (ensure_client config Points w))) as [[r | e] b'].
    + eexists _, _. reflexivity.
    + destruct e as [code t | | | | |]; cbn -[String.append];
        [destruct (code =? 404) |..]; eexists _, _; reflexivity.
  - intros Hnv. unfold search_vectors. rewrite Hk.
    unfold NamedVector_ctor. rewrite Hnv.
    cbn -[String.append PLen scored_point_data map].
    destruct (h _ (w_backend (ensure_client config Search w))) as [[r | e] b'].
    + eexists _, _. reflexivity.
    + destruct e as [code t | | | | |]; cbn -[String.append];
        [destruct (code =? 404) |..]; eexists _, _; reflexivity.
Qed.

(** X10. A filter the model refuses never reaches the backend: count,
    scroll, search, recommendation and deletion by filter all answer
    "Invalid filter format: ..." with the model's message, and issue no
    request. *)
Theorem invalid_filter_refused (collection : string) (kv : string * pyval) (d : dict)
        (e : exn) (exact : bool) (limit : Z) (offset : option string)
        (with_payload with_vector wait : bool) (vector : list float64)
        (score_threshold : option float64) (vector_name : string)
        (positive : string) (more : list string) (negative : option (list string))
        (w : world B) :
  Filter_check (kv :: d) = Some e ->
  let refused m := (Ok (ToolError ("Invalid filter format: " +:+ exn_str e)),
                    ensure_client config m w, @nil request) in
  run config h (count_points collection exact (Some (kv :: d))) w = refused Points /\
  run config h (scroll_points collection limit offset (Some (kv :: d)) with_payload
                              with_vector) w = refused Points /\
  run config h (search_vectors collection vector limit score_threshold (Some (kv :: d))
                               vector_name with_payload with_vector) w = refused Search /\
  run config h (recommend_points collection (positive :: more) negative limit
                                 score_threshold (Some (kv :: d)) vector_name
                                 with_payload) w = refused Search /\
  run config h (delete_points collection None (Some (kv :: d)) wait) w = refused Points /\
  run config h (delete_points collection (Some []) (Some (kv :: d)) wait) w =
    refused Points.
Proof.
  intros Hcheck refused.
  assert (Hk : forall k,
    with_filter (Some (kv :: d)) k =
      Ret (ToolError ("Invalid filter format: " +:+ exn_str e))).
  { intros k. unfold with_filter, Filter_ctor. rewrite Hcheck. reflexivity. }
  unfold count_points, scroll_points, search_vectors, recommend_points, delete_points.
  rewrite !Hk. unfold Filter_ctor. rewrite Hcheck.
  repeat split.
Qed.

End Filters.

(** ** Faults reported by the backend *)

Section Faults.
Context `{PyLib} (config : AppConfig) {B : Type} (h : handler B).

(** X11. A backend answer with status 404 is reported as a missing
    collection, under the caller's own name for it; any other backend
    fault is reported with the tool's prefix and the fault's text. Shown
    for [count_points] and [get_collection_info]. *)
Theorem backend_fault_reply (collection : string) (exact : bool) (w : world B)
        (code : Z) (text : string) (b' : B) :
  (h (client_count collection None exact) (w_backend (ensure_client config Points w)) =
     (Err (UnexpectedResponse code text), b') ->
   run config h (count_points collection exact None) w =
     (Ok (ToolError (if code =? 404
                     then "Collection '" +:+ collection +:+ "' not found"
                     else "Failed to count points: " +:+ text)),
      World (w_client (ensure_client config Points w)) b',
      [client_count collection None exact]))
  /\
  (h (client_get_collection collection)
     (w_backend (ensure_client config Collections w)) =
     (Err (UnexpectedResponse code text), b') ->
   run config h (get_collection_info collection) w =
     (Ok (ToolError (if code =? 404
                     then "Collection '" +:+ collection +:+ "' not found"
                     else "Failed to get collection info: " +:+ text)),
      World (w_client (ensure_client config Collections w)) b',
      [client_get_collection collection])).
Proof.
  split; intros Hfault.
  - cbn -[String.append]. rewrite Hfault. cbn -[String.append].
    destruct (code =? 404); reflexivity.
  - cbn -[String.append vectors_config_of]. rewrite Hfault. cbn -[String.append].
    destruct (code =? 404); reflexivity.
Qed.

End Faults.

(** ** Lookups by identifier *)

Section GetPoints.
Context `{PyLib} (config : AppConfig) {B : Type} (h : handler B).

Lemma length_rmap_to_uuid (ids uuid_ids : list string) :
  rmap (fun pid => _to_uuid (PStr pid)) ids = Ok uuid_ids ->
  length uuid_ids = length ids.
Proof. rewrite rmap_to_uuid. intros Hm. injection Hm as <-. apply length_map. Qed.

(** X12. [get_points] asks the backend for the normalised identifiers,
    one per caller identifier and in the caller's order. Whatever subset
    the backend returns is a success, not an error: the reply reports
    [found_count] as the number of points returned and
    [requested_count] as the number of identifiers asked for, so a miss
    shows as a difference between the two. *)
Theorem get_points_counts (collection : string) (ids : list string)
        (with_payload with_vector : bool) (w : world B) :
  exists (uuid_ids : list string),
    rmap (fun pid => _to_uuid (PStr pid)) ids = Ok uuid_ids /\
    length uuid_ids = length ids /\
    (exists res w',
       run config h (get_points collection ids with_payload with_vector) w =
         (res, w', [client_retrieve collection uuid_ids with_payload with_vector])) /\
    forall (records : list Record_) (b' : B),
      h (client_retrieve collection uuid_ids with_payload with_vector)
        (w_backend (ensure_client config Points w)) = (Ok records, b') ->
      run config h (get_points collection ids with_payload with_vector) w =
        (Ok (ToolResponse
               [("collection", PStr collection);
                ("points", PList (map PDict (map (point_data with_payload with_vector)
                                                 records)));
                ("found_count", PInt (Z.of_nat (length records)));
                ("requested_count", PInt (Z.of_nat (length ids)))]),
         World (w_client (ensure_client config Points w)) b',
         [client_retrieve collection uuid_ids with_payload with_vector]).
Proof.
  exists (map (fun pid => if UUID_parses pid then pid else uuid5_NAMESPACE_DNS pid) ids).
  split; [apply rmap_to_uuid |]. split; [apply length_map |].
  unfold get_points. rewrite rmap_to_uuid.
  cbn -[String.append PLen point_data map].
  split.
  - destruct (h _ (w_backend (ensure_client config Points w))) as [[records | e] b1].
    + eexists _, _. reflexivity.
    + destruct e as [code t | | | | |]; cbn -[String.append];
        [destruct (code =? 404) |..]; eexists _, _; reflexivity.
  - intros records b' Hr. rewrite Hr. cbn -[String.append PLen point_data map].
    unfold PLen. rewrite length_map. reflexivity.
Qed.

(** X13. Normalising is idempotent once the library prints UUIDs in a
    form it parses: the normalised identifier normalises to itself, so
    looking a point up by the caller's identifier or by the backend
    identifier it was stored under is the same request. *)
Theorem get_points_by_either_id (collection : string) (caller_id : string)
        (with_payload with_vector : bool) (w : world B) :
  (forall name, UUID_parses (uuid5_NAMESPACE_DNS name) = true) ->
  exists (backend_id : string),
    _to_uuid (PStr caller_id) = Ok backend_id /\
    _to_uuid (PStr backend_id) = Ok backend_id /\
    snd (run config h (get_points collection [caller_id] with_payload with_vector) w) =
      [client_retrieve collection [backend_id] with_payload with_vector] /\
    snd (run config h (get_points collection [backend_id] with_payload with_vector) w) =
      [client_retrieve collection [backend_id] with_payload with_vector].
Proof.
  intros Hlaw.
  set (backend_id := if UUID_parses caller_id then caller_id
                     else uuid5_NAMESPACE_DNS caller_id).
  assert (Hparses : UUID_parses backend_id = true).
  { unfold backend_id. destruct (UUID_parses caller_id) eqn:E; [exact E | apply Hlaw]. }
  assert (Hsame : _to_uuid (PStr backend_id) = Ok backend_id).
  { rewrite (to_uuid_value (PStr backend_id)). simpl py_str. rewrite Hparses. reflexivity. }
  exists backend_id. split; [apply (to_uuid_value (PStr caller_id)) |].
  split; [exact Hsame |].
  assert (Htrace : forall ids,
    rmap (fun pid => _to_uuid (PStr pid)) ids = Ok [backend_id] ->
    snd (run config h (get_points collection ids with_payload with_vector) w) =
      [client_retrieve collection [backend_id] with_payload with_vector]).
  { intros ids Hids. unfold get_points. rewrite Hids.
    cbn -[String.append PLen point_data map].
    destruct (h _ (w_backend (ensure_client config Points w))) as [[records | e] b1];
      [reflexivity |].
    destruct e as [code t | | | | |]; cbn -[String.append];
      [destruct (code =? 404) |..]; reflexivity. }
  split; apply Htrace; simpl rmap.
  - rewrite (to_uuid_value (PStr caller_id)). reflexivity.
  - rewrite Hsame. reflexivity.
Qed.


End GetPoints.

(** ** Optimisation and its polling loop *)

Section Optimize.
Context `{PyLib} (config : AppConfig) {B : Type} (h : handler B).

(** With [2 * n] seconds or less left to wait, the loop sleeps at most
    [n] times, and issues nothing but 2-second sleeps and lookups of the
    collection. *)
Ltac only_these :=
  repeat (constructor; [solve [auto] |]); try assumption; try (constructor; fail).

Lemma optimize_poll_bounded (collection : string) (n : nat) :
  forall (waited : Z) (result : dict) (w : world B),
    60 - waited <= 2 * Z.of_nat n ->
    (length (List.filter is_sleep (snd (run config h (optimize_poll collection 60 waited result)
                                       w))) <= n)%nat /\
    Forall (fun r => r = asyncio_sleep 2 \/ r = client_get_collection collection)
           (snd (run config h (optimize_poll collection 60 waited result) w)).
Proof.
  induction n as [| n IH]; intros waited result w Hleft;
    rewrite optimize_poll_equation_1;
    destruct (Z_lt_dec waited 60) as [Hlt | Hge].
  - lia.
  - rewrite optimize_poll_clause_1_equation_2. simpl. split; [lia | constructor].
  - rewrite optimize_poll_clause_1_equation_1.
    cbn [run bind await].
    destruct (h (asyncio_sleep 2) (w_backend w)) as [[[] | e] b1]; cbn [run bind await].
    2: { simpl. split; [lia | only_these]. }
    cbn [w_backend w_client].
    destruct (h (client_get_collection collection) b1) as [[info | e] b2];
      cbn [run bind await].
    2: { simpl. split; [lia | only_these]. }
    destruct (optimizer_ok info) as [[|] | e]; cbn [run bind lift].
    + simpl. split; [lia | only_these].
    + cbn [w_backend w_client].
      specialize (IH (waited + 2) result (World (w_client w) b2)).
      destruct (run config h (optimize_poll collection 60 (waited + 2) result)
                    (World (w_client w) b2)) as [[res w'] tr].
      simpl in IH |- *. destruct IH as [Hn Hall]; [lia |].
      split; [lia | only_these].
    + simpl. split; [lia | only_these].
  - rewrite optimize_poll_clause_1_equation_2. simpl. split; [lia | constructor].
Qed.

(** X15. However the backend behaves, [optimize_collection] sleeps at
    most 30 times, 2 seconds each time, so it waits at most 60 seconds;
    and the only requests it ever issues are lookups of the collection,
    the one update that sets the indexing threshold to 0, and those
    sleeps. *)
Theorem optimize_collection_bounded (collection : string) (wait : bool) (w : world B) :
  (length (List.filter is_sleep (snd (run config h (optimize_collection collection wait) w)))
   <= 30)%nat /\
  Forall (fun r =>
            r = asyncio_sleep 2 \/
            r = client_get_collection collection \/
            r = client_update_collection collection None None
                  (Some {| od_indexing_threshold := Some 0;
                           od_flush_interval_sec := None |}))
         (snd (run config h (optimize_collection collection wait) w)).
Proof.
  unfold optimize_collection.
  cbn [run bind await get_client try_except].
  destruct (h (client_get_collection collection)
              (w_backend (ensure_client config Admin w))) as [[info | e] b1];
    cbn [run bind await try_except w_backend w_client].
  2: { destruct e as [code t | | | | |]; cbn -[String.append];
         [destruct (code =? 404) |..]; simpl; (split; [lia | only_these]). }
  destruct (h (client_update_collection collection None None _) b1) as [[ok | e] b2];
    cbn [run bind await try_except w_backend w_client].
  2: { destruct e as [code t | | | | |]; cbn -[String.append];
         [destruct (code =? 404) |..]; simpl; (split; [lia | only_these]). }
  destruct wait.
  - rewrite run_try_except, run_bind.
    match goal with
    | |- context [run config h (optimize_poll collection 60 0 ?r) ?w0] =>
        pose proof (optimize_poll_bounded collection 30 0 r w0 ltac:(lia)) as [Hn Hall];
        destruct (run config h (optimize_poll collection 60 0 r) w0) as [[[d | e] w'] tr]
    end; simpl in Hn, Hall.
    + simpl. rewrite app_nil_r.
      split; [exact Hn |].
      assert (Hall' :
        Forall (fun r =>
                  r = asyncio_sleep 2 \/
                  r = client_get_collection collection \/
                  r = client_update_collection collection None None
                        (Some {| od_indexing_threshold := Some 0;
                                 od_flush_interval_sec := None |})) tr).
      { revert Hall. apply List.Forall_impl. intros r [-> | ->]; auto. }
      only_these.
    + assert (Hh : exists m, on_error collection "Failed to optimize collection" e
                             = Ret (ToolError m)).
      { destruct e as [code t | | | | |]; cbn -[String.append];
          [destruct (code =? 404) |..]; eauto. }
      destruct Hh as [m ->]. simpl. rewrite app_nil_r.
      split; [exact Hn |].
      assert (Hall' :
        Forall (fun r =>
                  r = asyncio_sleep 2 \/
                  r = client_get_collection collection \/
                  r = client_update_collection collection None None
                        (Some {| od_indexing_threshold := Some 0;
                                 od_flush_interval_sec := None |})) tr).
      { revert Hall. apply List.Forall_impl. intros r [-> | ->]; auto. }
      only_these.
  - simpl. split; [lia | only_these].
Qed.

(** The loop's exit test raises as soon as the polled information
    carries an optimizer status. *)
Lemma optimizer_ok_raises (info : CollectionInfo) (st : OptimizersStatus) :
  ci_optimizer_status info = Some st ->
  optimizer_ok info =
    Err (AttributeError ("'" +:+ OptimizersStatus_class st
                             +:+ "' object has no attribute 'status'")).
Proof. intros Hst. unfold optimizer_ok. rewrite Hst. reflexivity. Qed.

(** X16. With [wait], the tool cannot report that the optimisation
    completed. Once the lookup and the update went through, the first
    poll sleeps 2 seconds and looks the collection up again; if the
    information returned carries an optimizer status, as the client's
    decoded answers do, reading its [status] attribute raises, and the
    tool answers with the error envelope "Failed to optimize collection:
    ..." although the optimisation was triggered. There is exactly one
    sleep, and no further request. *)
Theorem optimize_collection_wait_fails (collection : string) (w : world B)
        (info info_after : CollectionInfo) (st : OptimizersStatus) (ok : bool)
        (b1 b2 b3 b4 : B) :
  h (client_get_collection collection) (w_backend (ensure_client config Admin w)) =
    (Ok info, b1) ->
  h (client_update_collection collection None None
       (Some {| od_indexing_threshold := Some 0; od_flush_interval_sec := None |})) b1 =
    (Ok ok, b2) ->
  h (asyncio_sleep 2) b2 = (Ok tt, b3) ->
  h (client_get_collection collection) b3 = (Ok info_after, b4) ->
  ci_optimizer_status info_after = Some st ->
  run config h (optimize_collection collection true) w =
    (Ok (ToolError ("Failed to optimize collection: '"
                      +:+ OptimizersStatus_class st
                      +:+ "' object has no attribute 'status'")),
     World (w_client (ensure_client config Admin w)) b4,
     [client_get_collection collection;
      client_update_collection collection None None
        (Some {| od_indexing_threshold := Some 0; od_flush_interval_sec := None |});
      asyncio_sleep 2;
      client_get_collection collection]).
Proof.
  intros Hg Hu Hs Hg2 Hst.
  unfold optimize_collection.
  cbn [run bind await get_client try_except]. rewrite Hg.
  cbn [run bind await try_except w_backend w_client]. rewrite Hu.
  cbn [run bind await try_except w_backend w_client].
  rewrite optimize_poll_equation_1.
  destruct (Z_lt_dec 0 60) as [Hlt | Hge]; [| lia].
  rewrite optimize_poll_clause_1_equation_1.
  cbn [run bind await try_except w_backend w_client]. rewrite Hs.
  cbn [run bind await try_except w_backend w_client]. rewrite Hg2.
  cbn [run bind await try_except w_backend w_client].
  rewrite (optimizer_ok_raises info_after st Hst).
  destruct st; reflexivity.
Qed.

(** X17. Without [wait], a successful optimisation is exactly two
    requests: the lookup that reads the segment count and the update
    that sets the indexing threshold to 0, with no sleep and no second
    lookup; the reply reports the segment count found before and that
    the optimisation was triggered, and says nothing about completion. *)
Theorem optimize_collection_replies (collection : string) (w : world B)
        (info : CollectionInfo) (ok : bool) (b1 b2 : B) :
  h (client_get_collection collection) (w_backend (ensure_client config Admin w)) =
    (Ok info, b1) ->
  h (client_update_collection collection None None
       (Some {| od_indexing_threshold := Some 0; od_flush_interval_sec := None |})) b1 =
    (Ok ok, b2) ->
  run config h (optimize_collection collection false) w =
    (Ok (ToolResponse
           [("collection", PStr collection);
            ("operation", PStr "optimize");
            ("segments_before", POpt PInt (ci_segments_count info));
            ("optimization_triggered", PBool true)]),
     World (w_client (ensure_client config Admin w)) b2,
     [client_get_collection collection;
      client_update_collection collection None None
        (Some {| od_indexing_threshold := Some 0; od_flush_interval_sec := None |})]).
Proof.
  intros Hg Hu.
  unfold optimize_collection.
  cbn [run bind await get_client try_except]. rewrite Hg.
  cbn [run bind await try_except w_backend w_client]. rewrite Hu.
  reflexivity.
Qed.

End Optimize.

(** ** Health *)

Lemma total_bind_strong {A C} (Q : A -> Prop) (P : C -> Prop)
      (p : prog A) (f : A -> prog C) :
  total_with Q p -> (forall a, Q a -> total_with P (f a)) -> total_with P (bind p f).
Proof. intros Hp Hf. induction p; simpl in *; auto. Qed.

Section Health.
Context `{PyLib} (config : AppConfig) {B : Type} (h : handler B).

Lemma health_check_total : total_with health_reply (health_check config).
Proof.
  unfold health_check. apply total_try.
  - apply all_ret_bind. intros start_time.
    apply (all_ret_bind_strong
             (fun probe => match probe with
                           | inl early => health_reply early
                           | inr _ => True
                           end)).
    + apply all_ret_try.
      * apply all_ret_bind. intros response.
        apply all_ret_bind. intros now. exact I.
      * intros e. simpl. right. eexists. split; [reflexivity |]. left.
        split; reflexivity.
    + intros [early | [http_ok http_latency]] Hprobe; [exact Hprobe |].
      unfold health_check_api.
      apply all_ret_bind. intros _.
      apply all_ret_bind. intros api_start.
      apply all_ret_bind. intros api.
      apply all_ret_bind. intros timestamp.
      simpl. right. eexists. split; [reflexivity |]. right.
      exists http_ok, (fst api). repeat split.
  - intros e. simpl. left. eexists. reflexivity.
Qed.

(** X18. [health_check] never raises, and its report is consistent:
    "healthy" is reported exactly when the HTTP probe answered 200 and
    the API probe succeeded, "degraded" when either did not. When the
    HTTP probe itself raises, the reply is a success envelope reporting
    "unhealthy" with the failure's text, and the backend client is not
    used at all: neither a handle is built nor a client request made. *)
Theorem health_check_reports (w : world B) :
  (exists (env : envelope) (w' : world B) (tr : list request),
     run config h (health_check config) w = (Ok env, w', tr) /\ health_reply env)
  /\
  forall (t0 : float64) (e : exn) (b0 b1 : B),
    h time_time (w_backend w) = (Ok t0, b0) ->
    h (http_get (url (qdrant config) +:+ "/") 5) b0 = (Err e, b1) ->
    run config h (health_check config) w =
      (Ok (ToolResponse [("status", PStr "unhealthy");
                         ("http_ok", PBool false);
                         ("error", PStr (exn_str e));
                         ("url", PStr (url (qdrant config)))]),
       World (w_client w) b1,
       [time_time; http_get (url (qdrant config) +:+ "/") 5]).
Proof.
  split.
  - apply (total_with_run config h health_reply _ health_check_total w).
  - intros t0 e b0 b1 Ht Hp. unfold health_check.
    cbn [run bind await get_client try_except]. rewrite Ht.
    cbn [run bind await try_except w_backend w_client]. rewrite Hp.
    reflexivity.
Qed.

(** X19. The HTTP health endpoint answers what [health_check] found, on
    the same run: it issues the requests of the health check and nothing
    more, and never fails. When the check returns a success envelope,
    the body is the check's report unchanged and the status is 200
    exactly when that report says "healthy", 503 otherwise ("degraded",
    "unhealthy"). When the check returns an error envelope, the answer
    is 503 with the body {"status": "unhealthy"}. *)
Theorem health_endpoint_status (w : world B) :
  exists (env : envelope) (resp : JSONResponse) (w' : world B) (tr : list request),
    run config h (health_check config) w = (Ok env, w', tr) /\
    run config h (health_endpoint config) w = (Ok resp, w', tr) /\
    ((exists d, env = ToolResponse d) \/ (exists m, env = ToolError m)) /\
    (forall d, env = ToolResponse d ->
       json_content resp = PDict d /\
       (json_status_code resp = 200 <-> dict_get "status" d = Some (PStr "healthy")) /\
       (json_status_code resp = 200 \/ json_status_code resp = 503)) /\
    (forall m, env = ToolError m ->
       resp = {| json_content := PDict [("status", PStr "unhealthy")];
                 json_status_code := 503 |}).
Proof.
  destruct (total_with_run config h health_reply _ health_check_total w)
    as (env & w' & tr & Hrun & Hreply).
  unfold health_endpoint. rewrite run_bind, Hrun.
  destruct Hreply as [[m ->] | (d & -> & _)].
  - eexists _, _, w', tr. split; [reflexivity |].
    cbn. rewrite app_nil_r. split; [reflexivity |].
    split; [right; eauto |]. split; [intros d [=] | intros m' _; reflexivity].
  - exists (ToolResponse d).
    exists {| json_content := PDict d;
              json_status_code :=
                match dict_get "status" d with
                | Some (PStr s) => if String.eqb s "healthy" then 200 else 503
                | _ => 503
                end |}, w', tr.
    split; [reflexivity |].
    cbn. rewrite app_nil_r. split; [reflexivity |].
    split; [left; eauto |]. split; [| intros m [=]].
    intros d' [= <-]. cbn. split; [reflexivity |].
    destruct (dict_get "status" d) as [[| | | | s | |] |];
      try (split; [split; [lia | discriminate] | right; reflexivity]).
    destruct (String.eqb_spec s "healthy") as [-> | Hne].
    + split; [split; reflexivity | left; reflexivity].
    + split; [split; [lia | congruence] | right; reflexivity].
Qed.

End Health.

(** ** Replies that echo the request *)

Section Replies.
Context `{PyLib} (config : AppConfig) {B : Type} (h : handler B).

(** X20. A recommendation sends the positive examples exactly as the
    caller wrote them (they are not normalised, unlike the identifiers of
    [get_points]), sends an empty list when no negative examples are
    given, and never asks for vectors back. The reply repeats both lists
    and counts the recommendations returned. *)
Theorem recommend_points_request (collection : string) (positive : string)
        (more : list string) (negative : option (list string)) (limit : Z)
        (score_threshold : option float64) (vector_name : string) (with_payload : bool)
        (w : world B) :
  exists (res : result envelope) (w' : world B),
    run config h (recommend_points collection (positive :: more) negative limit
                                   score_threshold None vector_name with_payload) w =
      (res, w',
       [client_recommend collection (positive :: more) (default [] negative) limit
                         score_threshold None vector_name with_payload false]) /\
    forall (results : list ScoredPoint) (b' : B),
      h (client_recommend collection (positive :: more) (default [] negative) limit
                          score_threshold None vector_name with_payload false)
        (w_backend (ensure_client config Search w)) = (Ok results, b') ->
      res = Ok (ToolResponse
                  [("collection", PStr collection);
                   ("recommendations",
                     PList (map PDict (map (scored_point_data with_payload false) results)));
                   ("count", PInt (Z.of_nat (length results)));
                   ("positive_examples", PList (map PStr (positive :: more)));
                   ("negative_examples", PList (map PStr (default [] negative)))]).
Proof.
  unfold recommend_points.
  cbn -[String.append PLen scored_point_data map].
  assert (Hneg : match negative with Some l => l | None => [] end = default [] negative).
  { destruct negative; reflexivity. }
  rewrite Hneg.
  destruct (h _ (w_backend (ensure_client config Search w))) as [[results | e] b1].
  - eexists _, _. split; [reflexivity |].
    intros results' b' Hr. injection Hr as <- <-.
    unfold PLen. rewrite length_map. reflexivity.
  - destruct e as [code t | | | | |]; cbn -[String.append];
      [destruct (code =? 404) |..]; eexists _, _;
      (split; [reflexivity | intros results' b' Hr; discriminate]).
Qed.

(** X21. The reply of a deletion says how the points were selected. By
    identifiers: [deleted_by] is "ids" and [ids_count] is the number of
    identifiers given. By filter (no identifiers, or an empty list of
    them): the request carries the validated filter, [deleted_by] is
    "filter" and [ids_count] is null. *)
Theorem delete_points_reply (collection : string) (wait : bool) (w : world B) (b' : B) :
  (forall (id : string) (rest : list string) (filter : option dict)
          (uuid_ids : list string),
     rmap (fun pid => _to_uuid (PStr pid)) (id :: rest) = Ok uuid_ids ->
     h (client_delete collection (Some (PointIdsList uuid_ids)) wait)
       (w_backend (ensure_client config Points w)) = (Ok tt, b') ->
     run config h (delete_points collection (Some (id :: rest)) filter wait) w =
       (Ok (ToolResponse [("collection", PStr collection);
                          ("operation", PStr "delete");
                          ("deleted_by", PStr "ids");
                          ("ids_count", PInt (Z.of_nat (length (id :: rest))))]),
        World (w_client (ensure_client config Points w)) b',
        [client_delete collection (Some (PointIdsList uuid_ids)) wait]))
  /\
  (forall (ids : option (list string)) (kv : string * pyval) (d : dict),
     ids = None \/ ids = Some [] ->
     Filter_check (kv :: d) = None ->
     h (client_delete collection
          (Some (FilterSelector {| filter_clauses := kv :: d |})) wait)
       (w_backend (ensure_client config Points w)) = (Ok tt, b') ->
     run config h (delete_points collection ids (Some (kv :: d)) wait) w =
       (Ok (ToolResponse [("collection", PStr collection);
                          ("operation", PStr "delete");
                          ("deleted_by", PStr "filter");
                          ("ids_count", PNone)]),
        World (w_client (ensure_client config Points w)) b',
        [client_delete collection
           (Some (FilterSelector {| filter_clauses := kv :: d |})) wait])).
Proof.
  split.
  - intros id rest filter uuid_ids Hids Hdel.
    assert (Hsame : delete_points collection (Some (id :: rest)) filter wait =
      try_except
        (get_client Points ;;
         uuid_ids <- lift (rmap (fun pid => _to_uuid (PStr pid)) (id :: rest)) ;;
         delete_with collection (Some (id :: rest))
                     (Some (PointIdsList uuid_ids)) wait)
        (on_error collection "Failed to delete points")).
    { destruct filter; reflexivity. }
    rewrite Hsame, Hids.
    cbn -[String.append PLen]. rewrite Hdel. reflexivity.
  - intros ids kv d Hids Hcheck Hdel.
    destruct Hids as [-> | ->]; unfold delete_points, Filter_ctor; rewrite Hcheck;
      cbn -[String.append]; rewrite Hdel; reflexivity.
Qed.

(** X22. A successful creation echoes the caller's arguments: the
    reply's config repeats every argument as given, the distance string
    included, even when that string named no known metric and the
    request carried cosine in its place. The sparse slot is configured
    exactly when [enable_sparse] is set, and shares the [on_disk] flag. *)
Theorem create_collection_reply (name : string) (vector_size : Z) (distance : string)
        (on_disk : bool) (hnsw_m hnsw_ef_construct : Z) (enable_sparse : bool)
        (w : world B) (cs : CollectionsResponse) (ok : bool) (b1 b2 : B) :
  h client_get_collections (w_backend w) = (Ok cs, b1) ->
  name_in name cs = false ->
  h (client_create_collection name
       [("text-dense", {| vp_size := vector_size; vp_distance := distance_enum distance;
                          vp_on_disk := on_disk |})]
       (if enable_sparse
        then Some [("text-sparse", {| sp_index_on_disk := on_disk |})]
        else None)
       {| hd_m := Some hnsw_m; hd_ef_construct := Some hnsw_ef_construct |}) b1 =
    (Ok ok, b2) ->
  run config h (create_collection name vector_size distance on_disk hnsw_m
                                  hnsw_ef_construct enable_sparse) w =
    (Ok (ToolResponse
           [("message", PStr ("Collection '" +:+ name +:+ "' created successfully"));
            ("config", PDict [("name", PStr name);
                              ("vector_size", PInt vector_size);
                              ("distance", PStr distance);
                              ("on_disk", PBool on_disk);
                              ("hnsw_m", PInt hnsw_m);
                              ("hnsw_ef_construct", PInt hnsw_ef_construct);
                              ("sparse_enabled", PBool enable_sparse)])]),
     World (w_client (ensure_client config Collections w)) b2,
     [client_get_collections;
      client_create_collection name
        [("text-dense", {| vp_size := vector_size; vp_distance := distance_enum distance;
                           vp_on_disk := on_disk |})]
        (if enable_sparse
         then Some [("text-sparse", {| sp_index_on_disk := on_disk |})]
         else None)
        {| hd_m := Some hnsw_m; hd_ef_construct := Some hnsw_ef_construct |}]).
Proof.
  intros Hlist Hfresh Hcreate.
  cbn -[String.append name_in distance_enum].
  rewrite ensure_client_backend, Hlist. cbn -[String.append name_in distance_enum].
  rewrite Hfresh. cbn -[String.append distance_enum]. rewrite Hcreate.
  reflexivity.
Qed.

(** X23. A snapshot the backend has not described yet is not an error:
    the reply is a success envelope that names it "pending" and reports
    "in_progress", whether or not the caller asked to wait, and still
    reports the collection's point count. *)
Theorem create_snapshot_pending (collection : string) (wait : bool) (w : world B)
        (info : CollectionInfo) (created_at : string) (b1 b2 b3 : B) :
  h (client_get_collection collection) (w_backend (ensure_client config Admin w)) =
    (Ok info, b1) ->
  h (client_create_snapshot collection wait) b1 = (Ok None, b2) ->
  h datetime_utcnow_isoformat b2 = (Ok created_at, b3) ->
  run config h (create_snapshot collection wait) w =
    (Ok (ToolResponse
           [("collection", PStr collection);
            ("snapshot_name", PStr "pending");
            ("points_count", POpt PInt (ci_points_count info));
            ("created_at", PStr created_at);
            ("status", PStr "in_progress")]),
     World (w_client (ensure_client config Admin w)) b3,
     [client_get_collection collection; client_create_snapshot collection wait;
      datetime_utcnow_isoformat]).
Proof.
  intros Hg Hs Ht. unfold create_snapshot.
  cbn [run bind await get_client try_except]. rewrite Hg.
  cbn [run bind await try_except w_backend w_client]. rewrite Hs.
  cbn [run bind await try_except w_backend w_client]. rewrite Ht.
  reflexivity.
Qed.

(** X24. What a returned point shows follows the caller's flags: its
    identifier is always there, as a string; with [with_payload] off the
    payload is absent and with [with_vector] off the vector is absent,
    whatever the backend sent; and a payload that was asked for is shown
    only when it is not empty. *)
Theorem point_data_fields (with_payload with_vector : bool) (point : Record_) :
  dict_get "id" (point_data with_payload with_vector point) =
    Some (PStr (PointId_str (rec_id point))) /\
  dict_get "payload" (point_data false with_vector point) = None /\
  dict_get "vector" (point_data with_payload false point) = None /\
  dict_get "payload" (point_data true with_vector point) =
    match rec_payload point with
    | Some (kv :: d) => Some (PDict (kv :: d))
    | _ => None
    end.
Proof.
  unfold point_data.
  destruct point as [id [[| kv d] |] [v |]]; simpl;
    destruct with_payload, with_vector; simpl;
    try destruct (VectorOut_truthy v); simpl; repeat split.
Qed.

End Replies.

(** ** Concrete runs of the further properties *)

Lemma update_collection_partial_witness :
  exists (hc : option HnswConfigDiff) (oc : option OptimizersConfigDiff),
    snd (run Sample.config Sample.backend
             (update_collection "kb" (Some 32) None None None) (Sample.boot Sample.kb)) =
      [client_update_collection "kb" hc oc None] /\
    hc = Some {| hd_m := Some 32; hd_ef_construct := None |} /\ oc = None.
Proof.
  destruct (update_collection_partial Sample.config Sample.backend "kb"
              (Some 32) None None None (Sample.boot Sample.kb))
    as (hc & oc & res & w' & Hrun & Hhc & Hoc & Hfields & _).
  - left. discriminate.
  - exists hc, oc. rewrite Hrun. split; [reflexivity |]. split.
    + destruct hc as [c |].
      * destruct (Hfields c eq_refl) as [Hm Hef]. destruct c. simpl in *. congruence.
      * destruct (proj1 Hhc eq_refl). discriminate.
    + apply Hoc. split; reflexivity.
Defined.

Lemma delete_collection_missing_witness :
  run Sample.config Sample.backend (delete_collection "notes" true)
      (Sample.boot Sample.kb) =
    (Ok (ToolError "Collection 'notes' does not exist"),
     World (w_client (ensure_client Sample.config Collections (Sample.boot Sample.kb)))
           Sample.kb,
     [client_get_collections]).
Proof.
  apply (delete_collection_missing Sample.config Sample.backend "notes"
           (Sample.boot Sample.kb) {| collections := [{| cd_name := "kb" |}] |} Sample.kb);
    reflexivity.
Defined.

Lemma list_collections_complete_witness :
  run Sample.config Sample.stale_listing list_collections (Sample.boot Sample.docs) =
    (Ok (ToolResponse
           [("collections",
              PList [PDict [("name", PStr "docs");
                            ("status", PStr "green");
                            ("points_count", PInt 2);
                            ("vectors_count", PInt 2);
                            ("indexed_vectors_count", PInt 0);
                            ("segments_count", PInt 1)];
                     PDict [("name", PStr "ghost");
                            ("status", PStr "unknown");
                            ("points_count", PInt 0)]]);
            ("total_count", PInt 2)]),
     World (w_client (ensure_client Sample.config Collections (Sample.boot Sample.docs)))
           Sample.docs,
     [client_get_collections; client_get_collection "docs";
      client_get_collection "ghost"]).
Proof.
  destruct (list_collections_complete Sample.config Sample.stale_listing
              (Sample.boot Sample.docs)
              {| collections := [{| cd_name := "docs" |}; {| cd_name := "ghost" |}] |}
              Sample.docs eq_refl)
    as [Hrun _].
  rewrite Hrun. reflexivity.
Defined.

Lemma get_cluster_info_degrades_witness :
  exists (total_points total_vectors : Z) (summaries : list dict),
    fst (fst (run Sample.config Sample.lab (get_cluster_info Sample.config)
                  (Sample.boot Sample.docs))) =
      Ok (ToolResponse
            [("url", PStr "http://qdrant-unity:6333");
             ("version", PStr "unknown");
             ("title", PStr "Qdrant");
             ("collections_count", PInt 1);
             ("total_points", PInt total_points);
             ("total_vectors", PInt total_vectors);
             ("collections", PList (map PDict summaries))]).
Proof.
  destruct (get_cluster_info_degrades Sample.config Sample.lab (Sample.boot Sample.docs)
              (OtherException "ConnectError" "All connection attempts failed")
              Sample.docs Sample.docs {| collections := [{| cd_name := "docs" |}] |}
              eq_refl eq_refl)
    as (tp & tv & summaries & w' & Hrun & _).
  exists tp, tv, summaries. rewrite Hrun. reflexivity.
Defined.

Lemma upsert_points_keeps_payload_witness :
  exists (ps : PointStruct),
    snd (run Sample.config Sample.backend
             (upsert_points "kb"
                [[("id", PStr "doc-1");
                  ("vector", PDict [("text-dense", PList [PInt 1; PInt 0])]);
                  ("payload", PDict [("title", PStr "Intro"); ("original_id", PStr "old")])]]
                true)
             (Sample.boot Sample.kb)) = [client_upsert "kb" [ps] true] /\
    dict_get "title" (ps_payload ps) = Some (PStr "Intro") /\
    ps_vector ps = PDict [("text-dense", PList [PInt 1; PInt 0])].
Proof.
  set (p := [("id", PStr "doc-1");
             ("vector", PDict [("text-dense", PList [PInt 1; PInt 0])]);
             ("payload", PDict [("title", PStr "Intro"); ("original_id", PStr "old")])]).
  set (ps := {| ps_id := "eea9cb72-744e-5814-a929-652d970d86ac";
                ps_vector := PDict [("text-dense", PList [PInt 1; PInt 0])];
                ps_payload := [("title", PStr "Intro"); ("original_id", PStr "doc-1")] |}).
  destruct (upsert_points_keeps_payload Sample.config Sample.backend "kb" [p] [ps] true
              (Sample.boot Sample.kb))
    as ((res & w' & Hrun) & Hkept).
  - discriminate.
  - constructor; [vm_compute; reflexivity | constructor].
  - exists ps. rewrite Hrun. split; [reflexivity |].
    inversion Hkept as [| ? ? ? ? (Hpay & _ & Hvec) _]; subst.
    split.
    + rewrite (Hpay [("title", PStr "Intro"); ("original_id", PStr "old")] "title");
        [reflexivity | reflexivity | discriminate].
    + apply Hvec. reflexivity.
Defined.

Lemma search_batch_requests_witness :
  run Sample.config Sample.lab
      (search_batch "docs" [[("vector", PList [PInt 1; PInt 0])]; [("limit", PInt 3)]]
                    "text-dense" true)
      (Sample.boot Sample.docs) =
    (Ok (ToolError "Each query must have a 'vector' field"),
     ensure_client Sample.config Search (Sample.boot Sample.docs), [])
  /\
  exists (res : result envelope),
    fst (fst (run Sample.config Sample.lab
                  (search_batch "docs"
                     [[("vector", PList [PInt 1; PInt 0])];
                      [("vector", PList [PInt 0; PInt 1]); ("limit", PInt 3)]]
                     "text-dense" true)
                  (Sample.boot Sample.docs))) = res /\
    res = Ok (ToolResponse [("collection", PStr "docs");
                            ("batch_results", PList [PList []; PList []]);
                            ("query_count", PInt 2)]).
Proof.
  destruct (search_batch_requests Sample.config Sample.lab "docs" "text-dense" true
              (Sample.boot Sample.docs)) as [Hrefused Hbuilt].
  split.
  - apply (Hrefused [[("vector", PList [PInt 1; PInt 0])]]
                    [{| sr_vector := {| nv_name := "text-dense";
                                        nv_vector := PList [PInt 1; PInt 0] |};
                        sr_limit := PInt 10; sr_score_threshold := PNone;
                        sr_filter := None; sr_with_payload := true;
                        sr_with_vector := false |}]
                    [("limit", PInt 3)] []).
    + constructor; [reflexivity | constructor].
    + reflexivity.
  - set (requests :=
           [{| sr_vector := {| nv_name := "text-dense";
                               nv_vector := PList [PInt 1; PInt 0] |};
               sr_limit := PInt 10; sr_score_threshold := PNone;
               sr_filter := None; sr_with_payload := true; sr_with_vector := false |};
            {| sr_vector := {| nv_name := "text-dense";
                               nv_vector := PList [PInt 0; PInt 1] |};
               sr_limit := PInt 3; sr_score_threshold := PNone;
               sr_filter := None; sr_with_payload := true; sr_with_vector := false |}]).
    destruct (Hbuilt [[("vector", PList [PInt 1; PInt 0])];
                      [("vector", PList [PInt 0; PInt 1]); ("limit", PInt 3)]] requests)
      as (res & w' & Hrun & _ & Hreply).
    + discriminate.
    + repeat (constructor; [reflexivity |]). constructor.
    + exists res. rewrite Hrun. split; [reflexivity |].
      apply (Hreply [[]; []] Sample.docs). reflexivity.
Defined.

Lemma absent_filter_matches_all_witness :
  (exists res w',
     run Sample.config Sample.backend (count_points "docs" true (Some []))
         (Sample.boot Sample.docs) = (res, w', [client_count "docs" None true])) /\
  (exists res w',
     run Sample.config Sample.backend (scroll_points "docs" 10 None (Some []) true false)
         (Sample.boot Sample.docs) =
       (res, w', [client_scroll "docs" 10 None None true false])).
Proof.
  destruct (absent_filter_matches_all Sample.config Sample.backend "docs" true 10 None
              true false [] None "text-dense" (Some []) (Sample.boot Sample.docs))
    as (Hcount & Hscroll & _).
  - right. reflexivity.
  - split; [exact Hcount | exact Hscroll].
Defined.

Lemma invalid_filter_refused_witness :
  run Sample.config Sample.backend
      (@count_points Sample.strict_lib "docs" false (Some [("where", PStr "x")]))
      (Sample.boot Sample.docs) =
    (Ok (ToolError "Invalid filter format: Extra inputs are not permitted"),
     ensure_client Sample.config Points (Sample.boot Sample.docs), [])
  /\
  run Sample.config Sample.backend
      (@delete_points Sample.strict_lib "docs" None (Some [("where", PStr "x")]) true)
      (Sample.boot Sample.docs) =
    (Ok (ToolError "Invalid filter format: Extra inputs are not permitted"),
     ensure_client Sample.config Points (Sample.boot Sample.docs), []).
Proof.
  destruct (@invalid_filter_refused Sample.strict_lib Sample.config _ Sample.backend
              "docs" ("where", PStr "x") []
              (ValidationError "Extra inputs are not permitted")
              false 10 None true false true [] None "text-dense" "doc-1" [] None
              (Sample.boot Sample.docs) eq_refl)
    as (Hcount & _ & _ & _ & Hdelete & _).
  split; [exact Hcount | exact Hdelete].
Defined.

Lemma backend_fault_reply_witness :
  run Sample.config Sample.backend (count_points "notes" false None)
      (Sample.boot Sample.kb) =
    (Ok (ToolError "Collection 'notes' not found"),
     World (w_client (ensure_client Sample.config Points (Sample.boot Sample.kb)))
           Sample.kb,
     [client_count "notes" None false])
  /\
  run Sample.config Sample.backend (get_collection_info "notes")
      (Sample.boot Sample.kb) =
    (Ok (ToolError "Collection 'notes' not found"),
     World (w_client (ensure_client Sample.config Collections (Sample.boot Sample.kb)))
           Sample.kb,
     [client_get_collection "notes"]).
Proof.
  destruct (backend_fault_reply Sample.config Sample.backend "notes" false
              (Sample.boot Sample.kb) 404
              "Not found: Collection notes doesn't exist!" Sample.kb)
    as [Hcount Hinfo].
  split; [apply Hcount | apply Hinfo]; reflexivity.
Defined.

Lemma get_points_counts_witness :
  run Sample.config Sample.backend (get_points "docs" ["doc-1"; "ghost"] false false)
      (Sample.boot Sample.docs) =
    (Ok (ToolResponse
           [("collection", PStr "docs");
            ("points", PList [PDict [("id", PStr "eea9cb72-744e-5814-a929-652d970d86ac")]]);
            ("found_count", PInt 1);
            ("requested_count", PInt 2)]),
     World (w_client (ensure_client Sample.config Points (Sample.boot Sample.docs)))
           Sample.docs,
     [client_retrieve "docs"
        ["eea9cb72-744e-5814-a929-652d970d86ac"; "acfadabd-ce5a-58c8-ac2f-eafb40db6a44"]
        false false]).
Proof.
  destruct (get_points_counts Sample.config Sample.backend "docs" ["doc-1"; "ghost"]
              false false (Sample.boot Sample.docs))
    as (uuid_ids & Hids & _ & _ & Hreply).
  vm_compute in Hids. injection Hids as <-.
  apply (Hreply [{| rec_id := IdStr "eea9cb72-744e-5814-a929-652d970d86ac";
                    rec_payload := None; rec_vector := None |}] Sample.docs).
  reflexivity.
Defined.

Lemma get_points_by_either_id_witness :
  snd (run Sample.config Sample.backend (get_points "docs" ["doc-1"] true false)
           (Sample.boot Sample.docs)) =
  snd (run Sample.config Sample.backend
           (get_points "docs" ["eea9cb72-744e-5814-a929-652d970d86ac"] true false)
           (Sample.boot Sample.docs)).
Proof.
  destruct (get_points_by_either_id Sample.config Sample.backend "docs" "doc-1" true false
              (Sample.boot Sample.docs))
    as (backend_id & Hcaller & _ & Hby_caller & Hby_backend).
  - intros name. apply uuid5_canonical.
  - vm_compute in Hcaller. injection Hcaller as <-.
    rewrite Hby_caller, Hby_backend. reflexivity.
Defined.


Lemma optimize_collection_wait_fails_witness :
  run Sample.config Sample.backend (optimize_collection "kb" true)
      (Sample.boot Sample.kb) =
    (Ok (ToolError ("Failed to optimize collection: "
                      +:+ "'OptimizersStatusOneOf' object has no attribute 'status'")),
     World (w_client (ensure_client Sample.config Admin (Sample.boot Sample.kb)))
           Sample.kb,
     [client_get_collection "kb";
      client_update_collection "kb" None None
        (Some {| od_indexing_threshold := Some 0; od_flush_interval_sec := None |});
      asyncio_sleep 2;
      client_get_collection "kb"]).
Proof.
  apply (optimize_collection_wait_fails Sample.config Sample.backend "kb"
           (Sample.boot Sample.kb)
           (Sample.info_of {| Sample.cs_vectors :=
                                [("text-dense", {| vp_size := 4; vp_distance := COSINE;
                                                   vp_on_disk := false |})];
                              Sample.cs_points := [] |})
           (Sample.info_of {| Sample.cs_vectors :=
                                [("text-dense", {| vp_size := 4; vp_distance := COSINE;
                                                   vp_on_disk := false |})];
                              Sample.cs_points := [] |})
           OptimizersOk true Sample.kb Sample.kb Sample.kb Sample.kb);
    reflexivity.
Defined.

Lemma optimize_collection_replies_witness :
  run Sample.config Sample.backend (optimize_collection "kb" false)
      (Sample.boot Sample.kb) =
    (Ok (ToolResponse [("collection", PStr "kb");
                       ("operation", PStr "optimize");
                       ("segments_before", PInt 1);
                       ("optimization_triggered", PBool true)]),
     World (w_client (ensure_client Sample.config Admin (Sample.boot Sample.kb)))
           Sample.kb,
     [client_get_collection "kb";
      client_update_collection "kb" None None
        (Some {| od_indexing_threshold := Some 0; od_flush_interval_sec := None |})]).
Proof.
  apply (optimize_collection_replies Sample.config Sample.backend "kb"
           (Sample.boot Sample.kb)
           (Sample.info_of {| Sample.cs_vectors :=
                                [("text-dense", {| vp_size := 4; vp_distance := COSINE;
                                                   vp_on_disk := false |})];
                              Sample.cs_points := [] |})
           true Sample.kb Sample.kb);
    reflexivity.
Defined.

Lemma health_endpoint_status_witness :
  (exists (resp : JSONResponse) (w' : world Sample.store) (tr : list request),
     run Sample.config Sample.backend (health_endpoint Sample.config)
         (Sample.boot Sample.docs) = (Ok resp, w', tr) /\
     json_status_code resp = 200 /\
     exists d, json_content resp = PDict d /\
               dict_get "status" d = Some (PStr "healthy"))
  /\
  (exists (resp : JSONResponse) (w' : world Sample.store) (tr : list request),
     run Sample.config Sample.lab (health_endpoint Sample.config)
         (Sample.boot Sample.docs) = (Ok resp, w', tr) /\
     json_status_code resp = 503 /\
     exists d, json_content resp = PDict d /\
               dict_get "status" d = Some (PStr "unhealthy")).
Proof.
  split.
  - destruct (health_endpoint_status Sample.config Sample.backend (Sample.boot Sample.docs))
      as (env & resp & w' & tr & Hcheck & Hrun & _ & Hok & _).
    vm_compute in Hcheck. injection Hcheck as <- _ _.
    match type of Hok with
    | forall d, MkToolResponse _ (PDict ?d0) = _ -> _ =>
        destruct (Hok d0 eq_refl) as (Hbody & Hcode & _)
    end.
    exists resp, w', tr. split; [exact Hrun |].
    split; [apply Hcode; reflexivity |].
    eexists. split; [exact Hbody | reflexivity].
  - destruct (health_endpoint_status Sample.config Sample.lab (Sample.boot Sample.docs))
      as (env & resp & w' & tr & Hcheck & Hrun & _ & Hok & _).
    vm_compute in Hcheck. injection Hcheck as <- _ _.
    match type of Hok with
    | forall d, MkToolResponse _ (PDict ?d0) = _ -> _ =>
        destruct (Hok d0 eq_refl) as (Hbody & Hcode & Hcases)
    end.
    exists resp, w', tr. split; [exact Hrun |].
    split.
    + destruct Hcases as [H200 | H503]; [| exact H503].
      apply Hcode in H200. discriminate H200.
    + eexists. split; [exact Hbody | reflexivity].
Defined.

Lemma health_check_reports_witness :
  run Sample.config Sample.lab (health_check Sample.config) (Sample.boot Sample.kb) =
    (Ok (ToolResponse [("status", PStr "unhealthy");
                       ("http_ok", PBool false);
                       ("error", PStr "All connection attempts failed");
                       ("url", PStr "http://qdrant-unity:6333")]),
     World (w_client (Sample.boot Sample.kb)) Sample.kb,
     [time_time; http_get "http://qdrant-unity:6333/" 5]).
Proof.
  apply (proj2 (health_check_reports Sample.config Sample.lab (Sample.boot Sample.kb))
               (F64 0) (OtherException "ConnectError" "All connection attempts failed")
               Sample.kb Sample.kb);
    reflexivity.
Defined.

Lemma recommend_points_request_witness :
  exists (res : result envelope) (w' : world Sample.store),
    run Sample.config Sample.lab
        (recommend_points "docs" ["doc-1"] None 10 None None "text-dense" true)
        (Sample.boot Sample.docs) =
      (res, w',
       [client_recommend "docs" ["doc-1"] [] 10 None None "text-dense" true false]) /\
    res = Ok (ToolResponse [("collection", PStr "docs");
                            ("recommendations", PList []);
                            ("count", PInt 0);
                            ("positive_examples", PList [PStr "doc-1"]);
                            ("negative_examples", PList [])]).
Proof.
  destruct (recommend_points_request Sample.config Sample.lab "docs" "doc-1" [] None 10
              None "text-dense" true (Sample.boot Sample.docs))
    as (res & w' & Hrun & Hreply).
  exists res, w'. split; [exact Hrun |].
  apply (Hreply [] Sample.docs). reflexivity.
Defined.

Lemma delete_points_reply_witness :
  fst (fst (run Sample.config Sample.lab (delete_points "docs" (Some ["doc-1"]) None true)
                (Sample.boot Sample.docs))) =
    Ok (ToolResponse [("collection", PStr "docs"); ("operation", PStr "delete");
                      ("deleted_by", PStr "ids"); ("ids_count", PInt 1)])
  /\
  fst (fst (run Sample.config Sample.lab
                (delete_points "docs" (Some []) (Some [("must", PList [])]) true)
                (Sample.boot Sample.docs))) =
    Ok (ToolResponse [("collection", PStr "docs"); ("operation", PStr "delete");
                      ("deleted_by", PStr "filter"); ("ids_count", PNone)]).
Proof.
  split.
  - rewrite (proj1 (delete_points_reply Sample.config Sample.lab "docs" true
                      (Sample.boot Sample.docs)
                      (snd (Sample.lab
                              (client_delete "docs"
                                 (Some (PointIdsList
                                          ["eea9cb72-744e-5814-a929-652d970d86ac"])) true)
                              Sample.docs)))
                   "doc-1" [] None ["eea9cb72-744e-5814-a929-652d970d86ac"]);
      reflexivity.
  - rewrite (proj2 (delete_points_reply Sample.config Sample.lab "docs" true
                      (Sample.boot Sample.docs)
                      (snd (Sample.lab
                              (client_delete "docs"
                                 (Some (FilterSelector
                                          {| filter_clauses := [("must", PList [])] |}))
                                 true)
                              Sample.docs)))
                   (Some []) ("must", PList []) []);
      [reflexivity | right; reflexivity | reflexivity | reflexivity].
Defined.

Lemma create_collection_reply_witness :
  fst (fst (run Sample.config Sample.backend
                (create_collection "notes" 384 "Manhattan" true 16 100 true)
                (Sample.boot Sample.kb))) =
    Ok (ToolResponse
          [("message", PStr "Collection 'notes' created successfully");
           ("config", PDict [("name", PStr "notes");
                             ("vector_size", PInt 384);
                             ("distance", PStr "Manhattan");
                             ("on_disk", PBool true);
                             ("hnsw_m", PInt 16);
                             ("hnsw_ef_construct", PInt 100);
                             ("sparse_enabled", PBool true)])]).
Proof.
  rewrite (create_collection_reply Sample.config Sample.backend "notes" 384 "Manhattan"
             true 16 100 true (Sample.boot Sample.kb)
             {| collections := [{| cd_name := "kb" |}] |} true Sample.kb
             (Sample.kb ++ [("notes",
                             {| Sample.cs_vectors :=
                                  [("text-dense", {| vp_size := 384; vp_distance := COSINE;
                                                     vp_on_disk := true |})];
                                Sample.cs_points := [] |})])%list);
    reflexivity.
Defined.

Lemma create_snapshot_pending_witness :
  run Sample.config Sample.lab (create_snapshot "docs" true) (Sample.boot Sample.docs) =
    (Ok (ToolResponse [("collection", PStr "docs");
                       ("snapshot_name", PStr "pending");
                       ("points_count", PInt 2);
                       ("created_at", PStr "1970-01-01T00:00:00");
                       ("status", PStr "in_progress")]),
     World (w_client (ensure_client Sample.config Admin (Sample.boot Sample.docs)))
           Sample.docs,
     [client_get_collection "docs"; client_create_snapshot "docs" true;
      datetime_utcnow_isoformat]).
Proof.
  apply (create_snapshot_pending Sample.config Sample.lab "docs" true
           (Sample.boot Sample.docs)
           (Sample.info_of
              {| Sample.cs_vectors := [("text-dense",
                                        {| vp_size := 2; vp_distance := DOT;
                                           vp_on_disk := false |})];
                 Sample.cs_points :=
                   [{| ps_id := "886313e1-3b8a-5372-9b90-0c9aee199e5d";
                       ps_vector := PDict [("text-dense", PList [PInt 1; PInt 0])];
                       ps_payload := [("original_id", PStr "python.org")] |};
                    {| ps_id := "eea9cb72-744e-5814-a929-652d970d86ac";
                       ps_vector := PDict [("text-dense", PList [PInt 0; PInt 1])];
                       ps_payload := [("original_id", PStr "doc-1")] |}] |})
           "1970-01-01T00:00:00" Sample.docs Sample.docs Sample.docs);
    reflexivity.
Defined.
